(** * MuJoCo MPC install script ([python/setup.py]): model and properties

    The install script wires five setuptools commands into the packaging
    lifecycle.  Its observable behaviour is made of file-system updates,
    subprocess invocations and console output, driven by a handful of
    inputs of the host (platform name, process environment, working
    directory, location of the script, the staging directory chosen by
    setuptools).

    The development below embeds the script function by function:
    - Python strings are [string], [pathlib] paths are lists of
      components, the file system is a finite map from absolute paths to
      nodes;
    - every method that performs effects is a computation in a small
      state-and-exception monad over a [World] (file system plus the trace
      of effects performed so far);
    - what the script does not define itself (the external programs it
      launches, the inherited [build_py.run]) is a field of the [Host]
      record, so that every statement quantifies over it.

    Modelling assumptions, used throughout: POSIX paths; no symbolic or
    hard links, so that [Path.resolve] is lexical normalisation under the
    working directory and two different absolute paths name different
    files; a command is reached through its lifecycle hook for the first
    time in the process (distutils runs a command once per process). *)

From Stdlib Require Import DecimalString.
From stdpp Require Import gmap strings list fin_maps.

(** ** Python string helpers *)

Module Py.

(** [needle in hay] on [str]. *)
Fixpoint contains (needle hay : string) : bool :=
  String.prefix needle hay ||
  match hay with
  | EmptyString => false
  | String _ hay' => contains needle hay'
  end.

(** [hay.find(needle)]: index of the first occurrence, if any. *)
Fixpoint find (needle hay : string) : option nat :=
  if String.prefix needle hay then Some 0
  else match hay with
       | EmptyString => None
       | String _ hay' => S <$> find needle hay'
       end.

(** [s.endswith(suffix)]. *)
Fixpoint endswith (s suffix : string) : bool :=
  bool_decide (s = suffix) ||
  match s with
  | EmptyString => false
  | String _ s' => endswith s' suffix
  end.

(** [sep.join(l)]. *)
Definition join (sep : string) (l : list string) : string :=
  String.concat sep l.

(** [str(n)] for a non-negative [int]. *)
Definition str_nat (n : nat) : string :=
  NilEmpty.string_of_uint (Nat.to_uint n).

(** [str(os.cpu_count())]: the count, or [None]. *)
Definition str_cpu_count (n : option nat) : string :=
  match n with
  | Some k => str_nat k
  | None => "None"
  end.

End Py.

(** ** Paths *)

(** An absolute, normalised path: its components below the root. *)
Abbreviation path := (list string).

(** A [pathlib.PurePosixPath]: anchored at the root or relative, with the
    components as written ([..] is kept, as pathlib does). *)
Record PurePath := mkPath { anchored : bool; parts : list string }.

Module PathLib.

(** [Path(a, b, ...)] from relative components. *)
Definition rel (l : list string) : PurePath := mkPath false l.

(** [p.parent]: lexical; the parent of [.] is [.], of [/] is [/]. *)
Definition parent (p : PurePath) : PurePath :=
  mkPath (anchored p) (removelast (parts p)).

(** [p / q]. *)
Definition joinpath (p q : PurePath) : PurePath :=
  if anchored q then q else mkPath (anchored p) (parts p ++ parts q).

(** One step of normalisation: [..] climbs (the root is its own
    parent), any other component descends. *)
Definition norm_step (acc : list string) (c : string) : list string :=
  if bool_decide (c = "..") then removelast acc else acc ++ [c].

Definition normalize (l : list string) : list string :=
  fold_left norm_step l [].

(** [p.resolve()] in working directory [cwd]; also the file the
    operating system reaches when handed [p]. *)
Definition resolve (cwd : list string) (p : PurePath) : list string :=
  normalize (if anchored p then parts p else cwd ++ parts p).

(** [str(p)] of an absolute normalised path. *)
Definition str (p : list string) : string :=
  "/" +:+ Py.join "/" p.

(** [str(p)] of a pure path. *)
Definition pure_str (p : PurePath) : string :=
  if anchored p then str (parts p)
  else match parts p with [] => "." | l => Py.join "/" l end.

(** [repr(p)]. *)
Definition repr (s : string) : string := "PosixPath('" +:+ s +:+ "')".

(** [repr] of a tuple of paths. *)
Definition repr_tuple (l : list string) : string :=
  match l with
  | [] => "()"
  | [s] => "(" +:+ repr s +:+ ",)"
  | _ => "(" +:+ Py.join ", " (repr <$> l) +:+ ")"
  end.

(** Parent and last component of an absolute path. *)
Definition dirname (p : list string) : list string := removelast p.
Definition basename (p : list string) : string := List.last p "".

(** [p.relative_to(root)] for [p] below [root]. *)
Definition relative_to (root p : list string) : list string :=
  drop (length root) p.

End PathLib.

(** ** File system *)

(** A node is a regular file (permission bits and bytes) or a directory. *)
Inductive node :=
| File (mode : N) (data : string)
| Dir.

#[global] Instance node_eq_dec : EqDecision node.
Proof. solve_decision. Defined.

Abbreviation filesystem := (gmap (list string) node).

(** Exceptions the script raises itself or lets through. *)
Inductive exn :=
| ValueError (msg : string)
| AssertionError
| FileNotFoundError (p : path)
| FileExistsError (p : path)
| NotADirectoryError (p : path)
| IsADirectoryError (p : path)
| SameFileError (src dst : path)
| CalledProcessError (returncode : Z) (cmd : list string)
| DistutilsExecError (cmd : list string) (status : option Z)
| DistutilsModuleError (command : string)
| ExecutableNotFound (cmd : list string)
| ForeignError (msg : string).

Module Os.

(** [Path.exists]. *)
Definition path_exists (fs : filesystem) (p : path) : bool :=
  bool_decide (is_Some (fs !! p)).

(** [os.path.isdir]. *)
Definition isdir (fs : filesystem) (p : path) : bool :=
  bool_decide (fs !! p = Some Dir).

(** One level of [mkdir(parents=True, exist_ok=True)] on the way to
    [target]: an existing directory is kept, a missing one is created,
    a regular file in the way is an error. *)
Definition ensure_dir (target : path) (fs : filesystem) (q : path) : exn + filesystem :=
  match fs !! q with
  | Some Dir => inr fs
  | Some (File _ _) =>
      inl (if bool_decide (q = target) then FileExistsError target
           else NotADirectoryError target)
  | None => inr (<[q := Dir]> fs)
  end.

Fixpoint ensure_dirs (target : path) (qs : list path) (fs : filesystem) : exn + filesystem :=
  match qs with
  | [] => inr fs
  | q :: qs' =>
      match ensure_dir target fs q with
      | inl e => inl e
      | inr fs' => ensure_dirs target qs' fs'
      end
  end.

(** The ancestors of [p], outermost first, ending with [p] itself. *)
Definition ancestors (p : path) : list path :=
  (λ n, take n p) <$> seq 0 (S (length p)).

(** [Path(p).mkdir(parents=True, exist_ok=True)]. *)
Definition mkdir_parents (fs : filesystem) (p : path) : exn + filesystem :=
  ensure_dirs p (ancestors p) fs.

(** [shutil.copy(src, dst)]: into [dst] when it is a directory, over it
    otherwise; bytes and permission bits are both copied. *)
Definition copy_target (fs : filesystem) (src dst : path) : path :=
  if isdir fs dst then dst ++ [PathLib.basename src] else dst.

Definition shutil_copy (fs : filesystem) (src dst : path) : exn + filesystem :=
  let dst' := copy_target fs src dst in
  match fs !! src with
  | None => inl (FileNotFoundError src)
  | Some Dir => inl (IsADirectoryError src)
  | Some (File mode data) =>
      if bool_decide (src = dst') then inl (SameFileError src dst')
      else match fs !! dst' with
           | Some Dir => inl (IsADirectoryError dst')
           | _ =>
               match fs !! PathLib.dirname dst' with
               | Some Dir => inr (<[dst' := File mode data]> fs)
               | Some (File _ _) => inl (NotADirectoryError dst')
               | None => inl (FileNotFoundError dst')
               end
           end
  end.

(** [p] lies strictly below [root]. *)
Definition below (root p : path) : bool :=
  bool_decide (root `prefix_of` p) && negb (bool_decide (p = root)).

(** [Path(root).rglob('*' + suffix)]: every entry strictly below
    [root] whose name ends with [suffix], files and directories alike,
    in directory-scan order; nothing when [root] is not a directory. *)
Definition rglob (fs : filesystem) (root : path) (suffix : string) : list path :=
  match fs !! root with
  | Some Dir =>
      filter (λ p, below root p && Py.endswith (PathLib.basename p) suffix)
             (map_to_list fs).*1
  | _ => []
  end.

End Os.

(** ** Effects *)

(** What a run does to the outside, in the order it does it. *)
Inductive event :=
| EvPrint (line : string)                       (* [print] *)
| EvAnnounce (msg : string)                     (* [Command.announce] *)
| EvMkdir (p : path)                            (* [Path.mkdir] on [p] *)
| EvCopy (src dst : path)                       (* [shutil.copy] *)
| EvSpawn (argv : list string)                  (* [Command.spawn] *)
| EvCheckCall (argv : list string) (cwd : path) (* [subprocess.check_call] *)
| EvBegin (step : string)                       (* a lifecycle step starts *)
| EvEnd (step : string).                        (* ... and has returned *)

#[global] Instance event_eq_dec : EqDecision event.
Proof. solve_decision. Defined.

Record World := mkWorld { files : filesystem; trace : list event }.

(** The host of a run: everything the script reads but does not define. *)
Record Host := mkHost {
  system : string;                 (* [platform.system()] *)
  environ : gmap string string;    (* [os.environ] *)
  cpu_count : option nat;          (* [os.cpu_count()] *)
  cwd : path;                      (* working directory of the process *)
  script_file : PurePath;          (* [__file__] *)
  build_py_build_lib : PurePath;   (* [build_lib] of the finalized [build_py] *)
  build_ext_build_lib : PurePath;  (* [build_lib] of the finalized [build_ext] *)
  (** An external program run to completion with the given arguments and
      working directory: its exit status and the file system it leaves,
      or [None] when it cannot be launched. *)
  run_process : list string → path → filesystem → option (Z * filesystem);
  (** The inherited [build_py.run]: the file system it leaves and the
      message of the exception it ends with, if any. *)
  default_build_py : filesystem → option string * filesystem
}.

Inductive outcome (A : Type) :=
| Return (a : A)
| Raise (e : exn).
Arguments Return {A} a.
Arguments Raise {A} e.

(** Computations: state passing over the world; an exception keeps the
    world as it was when raised (nothing is rolled back). *)
Definition M (A : Type) : Type := World → outcome A * World.

Definition ret {A} (a : A) : M A := λ w, (Return a, w).

Definition raise {A} (e : exn) : M A := λ w, (Raise e, w).

Definition bind {A B} (m : M A) (k : A → M B) : M B :=
  λ w, match m w with
       | (Return a, w') => k a w'
       | (Raise e, w') => (Raise e, w')
       end.

#[global] Instance M_ret : MRet M := @ret.
#[global] Instance M_bind : MBind M := λ A B k m, bind m k.

Definition emit (e : event) : M unit :=
  λ w, (Return tt, mkWorld (files w) (trace w ++ [e])).

Definition get_files : M filesystem := λ w, (Return (files w), w).

Definition put_files (fs : filesystem) : M unit :=
  λ w, (Return tt, mkWorld fs (trace w)).

(** A file-system operation that either fails or updates the files. *)
Definition update_files (op : filesystem → exn + filesystem) : M unit :=
  fs ← get_files;
  match op fs with
  | inl e => raise e
  | inr fs' => put_files fs'
  end.

(** [for x in l: body(x)]. *)
Fixpoint for_each {A} (l : list A) (body : A → M unit) : M unit :=
  match l with
  | [] => ret tt
  | x :: l' => body x;; for_each l' body
  end.

(** [assert c]. *)
Definition assert (c : bool) : M unit :=
  if c then ret tt else raise AssertionError.

Section Primitives.

Context (h : Host).

(** [Path(p).mkdir(parents=True, exist_ok=True)]. *)
Definition mkdir (p : path) : M unit :=
  emit (EvMkdir p);; update_files (λ fs, Os.mkdir_parents fs p).

(** [shutil.copy(src, dst)]. *)
Definition copy (src dst : path) : M unit :=
  emit (EvCopy src dst);; update_files (λ fs, Os.shutil_copy fs src dst).

(** [Command.spawn(argv)]: runs the program in the working directory of
    the process; [DistutilsExecError] unless it exits with status 0. *)
Definition spawn (argv : list string) : M unit :=
  emit (EvSpawn argv);;
  fs ← get_files;
  match run_process h argv (cwd h) fs with
  | None => raise (DistutilsExecError argv None)
  | Some (status, fs') =>
      put_files fs';;
      if bool_decide (status = 0%Z) then ret tt
      else raise (DistutilsExecError argv (Some status))
  end.

(** [subprocess.check_call(argv, cwd=dir)]: [CalledProcessError] with
    the status and the command unless the program exits with status 0. *)
Definition check_call (argv : list string) (dir : path) : M unit :=
  emit (EvCheckCall argv dir);;
  fs ← get_files;
  match run_process h argv dir fs with
  | None => raise (ExecutableNotFound argv)
  | Some (status, fs') =>
      put_files fs';;
      if bool_decide (status = 0%Z) then ret tt
      else raise (CalledProcessError status argv)
  end.

(** [Command.announce(msg)] and [print(line)]. *)
Definition announce (msg : string) : M unit := emit (EvAnnounce msg).
Definition print (line : string) : M unit := emit (EvPrint line).

End Primitives.

(** ** The commands of [setup.py] *)

(** The one attribute the three staging commands carry. *)
Record Command := mkCommand { build_lib : option PurePath }.

(** [self.set_undefined_options(src, ("build_lib", "build_lib"))]: an
    attribute still [None] takes the value of the finalized source
    command. *)
Definition set_undefined_options (src_build_lib : PurePath) (self : Command)
  : Command :=
  match build_lib self with
  | None => mkCommand (Some src_build_lib)
  | Some _ => self
  end.

(** [Path(self.build_lib).resolve()], after [assert self.build_lib is not
    None]. *)
Definition resolved_build_lib (h : Host) (self : Command) : M path :=
  match build_lib self with
  | None => raise AssertionError
  | Some b => ret (PathLib.resolve (cwd h) b)
  end.

Module GenerateProtoGrpcCommand.

Definition initialize_options : Command := mkCommand None.

Definition finalize_options (h : Host) (self : Command) : Command :=
  set_undefined_options (build_py_build_lib h) self.

Definition agent_proto_filename : string := "agent.proto".

Definition agent_proto_source_path (h : Host) : path :=
  PathLib.resolve (cwd h) (PathLib.rel [".."; "grpc"; agent_proto_filename]).

Definition proto_module_relative_path : list string :=
  ["mujoco_mpc"; "proto"; agent_proto_filename].

Definition agent_proto_destination_path (build_lib_path : path) : path :=
  build_lib_path ++ proto_module_relative_path.

Definition protoc_command_parts (build_lib_path : path) : list string :=
  [ "-I" +:+ PathLib.str build_lib_path;
    "--python_out=" +:+ PathLib.str build_lib_path;
    "--grpc_python_out=" +:+ PathLib.str build_lib_path;
    PathLib.str (agent_proto_destination_path build_lib_path) ].

Definition protoc_argv (build_lib_path : path) : list string :=
  ["python"; "-m"; "grpc_tools.protoc"] ++ protoc_command_parts build_lib_path.

Definition touch_argv (build_lib_path : path) : list string :=
  ["touch";
   PathLib.str
     (PathLib.dirname (agent_proto_destination_path build_lib_path)
        ++ ["__init__.py"])].

Definition run (h : Host) (self : Command) : M unit :=
  build_lib_path ← resolved_build_lib h self;
  mkdir (PathLib.dirname (agent_proto_destination_path build_lib_path));;
  copy (agent_proto_source_path h)
       (agent_proto_destination_path build_lib_path);;
  spawn h (protoc_argv build_lib_path);;
  spawn h (touch_argv build_lib_path).

End GenerateProtoGrpcCommand.

Module CopyAgentServiceBinaryCommand.

Definition initialize_options : Command := mkCommand None.

Definition finalize_options (h : Host) (self : Command) : Command :=
  set_undefined_options (build_py_build_lib h) self.

Definition source_path : PurePath :=
  PathLib.rel [".."; "build"; "bin"; "agent_service"].

Definition missing_binary_message : string :=
  "Cannot find `agent_service` binary from " +:+ PathLib.pure_str source_path
  +:+ ". Please build" +:+ " the `agent_service` C++ gRPC service.".

Definition destination_path (build_lib_path : path) : path :=
  build_lib_path ++ ["mujoco_mpc"; "mjpc"; "agent_service"].

Definition run (h : Host) (self : Command) : M unit :=
  fs ← get_files;
  if negb (Os.path_exists fs (PathLib.resolve (cwd h) source_path))
  then raise (ValueError missing_binary_message)
  else
    build_lib_path ← resolved_build_lib h self;
    announce ("source_path.resolve()="
              +:+ PathLib.repr (PathLib.str (PathLib.resolve (cwd h) source_path)));;
    announce ("destination_path.resolve()="
              +:+ PathLib.repr (PathLib.str (destination_path build_lib_path)));;
    mkdir (PathLib.dirname (destination_path build_lib_path));;
    copy (PathLib.resolve (cwd h) source_path)
         (destination_path build_lib_path).

End CopyAgentServiceBinaryCommand.

Module CopyTaskAssetsCommand.

Definition initialize_options : Command := mkCommand None.

Definition finalize_options (h : Host) (self : Command) : Command :=
  set_undefined_options (build_ext_build_lib h) self.

(** [Path(__file__).parent.parent / "mjpc" / "tasks"]. *)
Definition mjpc_tasks_path (h : Host) : PurePath :=
  PathLib.joinpath (PathLib.parent (PathLib.parent (script_file h)))
                   (PathLib.rel ["mjpc"; "tasks"]).

(** The directory that path names. *)
Definition tasks_root (h : Host) : path :=
  PathLib.resolve (cwd h) (mjpc_tasks_path h).

Definition source_paths (h : Host) (fs : filesystem) : list path :=
  Os.rglob fs (tasks_root h) ".xml".

Definition relative_source_paths (h : Host) (fs : filesystem)
  : list (list string) :=
  PathLib.relative_to (tasks_root h) <$> source_paths h fs.

Definition destination_dir_path (build_lib_path : path) : path :=
  build_lib_path ++ ["mujoco_mpc"; "mjpc"; "tasks"].

Definition copying_message (h : Host) (fs : filesystem)
    (build_lib_path : path) : string :=
  "Copying assets "
  +:+ PathLib.repr_tuple
       ((λ r, PathLib.pure_str (PathLib.rel r)) <$> relative_source_paths h fs)
  +:+ " from" +:+ " " +:+ PathLib.pure_str (mjpc_tasks_path h)
  +:+ " over to " +:+ PathLib.str (destination_dir_path build_lib_path) +:+ ".".

(** The body of the loop, for one [(source_path, relative_source_path)]. *)
Definition stage_one (destination_dir : path)
    (item : path * list string) : M unit :=
  let destination_path := destination_dir ++ item.2 in
  mkdir (PathLib.dirname destination_path);;
  copy item.1 destination_path.

Definition run (h : Host) (self : Command) : M unit :=
  fs ← get_files;
  build_lib_path ← resolved_build_lib h self;
  announce (copying_message h fs build_lib_path);;
  for_each (zip (source_paths h fs) (relative_source_paths h fs))
           (stage_one (destination_dir_path build_lib_path)).

End CopyTaskAssetsCommand.

(** ** Lifecycle hooks *)

(** A lifecycle step, bracketed in the trace by its start and its return. *)
Definition step (name : string) (body : M unit) : M unit :=
  emit (EvBegin name);; body;; emit (EvEnd name).

(** The command classes [setup()] registers besides the two hooks. *)
Definition staging_cmdclass (h : Host) (command : string) : option (M unit) :=
  if bool_decide (command = "generate_proto_grpc") then
    Some (GenerateProtoGrpcCommand.run h
            (GenerateProtoGrpcCommand.finalize_options h
               GenerateProtoGrpcCommand.initialize_options))
  else if bool_decide (command = "copy_agent_service_binary") then
    Some (CopyAgentServiceBinaryCommand.run h
            (CopyAgentServiceBinaryCommand.finalize_options h
               CopyAgentServiceBinaryCommand.initialize_options))
  else if bool_decide (command = "copy_task_assets") then
    Some (CopyTaskAssetsCommand.run h
            (CopyTaskAssetsCommand.finalize_options h
               CopyTaskAssetsCommand.initialize_options))
  else None.

(** [self.run_command(name)]: the registered class is instantiated,
    finalized and run. *)
Definition run_command (h : Host) (command : string) : M unit :=
  match staging_cmdclass h command with
  | Some body => step command body
  | None => raise (DistutilsModuleError command)
  end.

Module BuildPyCommand.

(** [super().run()]. *)
Definition super_run (h : Host) : M unit :=
  fs ← get_files;
  put_files (default_build_py h fs).2;;
  match (default_build_py h fs).1 with
  | Some msg => raise (ForeignError msg)
  | None => ret tt
  end.

Definition run (h : Host) : M unit :=
  run_command h "generate_proto_grpc";;
  run_command h "copy_task_assets";;
  step "build_py.run" (super_run h).

End BuildPyCommand.

Module BuildCMakeExtension.

Definition cmake_command : string := "cmake".
Definition build_cfg : string := "Debug".

(** [Path(__file__).parent.parent]. *)
Definition mujoco_mpc_root (h : Host) : PurePath :=
  PathLib.parent (PathLib.parent (script_file h)).

Definition mujoco_mpc_build_dir (h : Host) : PurePath :=
  PathLib.joinpath (mujoco_mpc_root h) (PathLib.rel ["build"]).

Definition base_configure_args : list string :=
  [ "-DCMAKE_EXPORT_COMPILE_COMMANDS:BOOL=TRUE";
    "-DCMAKE_BUILD_TYPE:STRING=" +:+ build_cfg;
    "-DBUILD_TESTING:BOOL=OFF" ].

(** The list built by the two [if ... in os.environ["ARCHFLAGS"]]. *)
Definition osx_archs (archflags : string) : list string :=
  (if Py.contains "-arch x86_64" archflags then ["x86_64"] else [])
  ++ (if Py.contains "-arch arm64" archflags then ["arm64"] else []).

Definition cmake_configure_args (h : Host) : list string :=
  base_configure_args ++
  match bool_decide (system h = "Darwin"), environ h !! "ARCHFLAGS" with
  | true, Some archflags =>
      ["-DCMAKE_OSX_ARCHITECTURES=" +:+ Py.join ";" (osx_archs archflags)]
  | _, _ => []
  end.

Definition configure_argv (h : Host) : list string :=
  [cmake_command] ++ cmake_configure_args h ++
  [ "-S" +:+ PathLib.str (PathLib.resolve (cwd h) (mujoco_mpc_root h));
    "-B" +:+ PathLib.str (PathLib.resolve (cwd h) (mujoco_mpc_build_dir h)) ].

Definition build_argv (h : Host) : list string :=
  [ cmake_command; "--build";
    PathLib.str (PathLib.resolve (cwd h) (mujoco_mpc_build_dir h));
    "--target"; "agent_service";
    "-j" +:+ Py.str_cpu_count (cpu_count h);
    "--config"; build_cfg ].

Definition _configure_and_build_agent_service (h : Host) : M unit :=
  print "Configuring CMake with the following arguments:";;
  for_each (cmake_configure_args h) (λ arg, print ("  " +:+ arg));;
  check_call h (configure_argv h)
             (PathLib.resolve (cwd h) (mujoco_mpc_root h));;
  print "Building `agent_service` with CMake";;
  check_call h (build_argv h)
             (PathLib.resolve (cwd h) (mujoco_mpc_root h)).

Definition run (h : Host) : M unit :=
  _configure_and_build_agent_service h;;
  run_command h "copy_agent_service_binary".

End BuildCMakeExtension.

(** The whole build, as the [build] command of distutils drives the two
    hooks registered under [build_py] and [build_ext], in that order. *)
Definition build (h : Host) : M unit :=
  step "build_py" (BuildPyCommand.run h);;
  step "build_ext" (BuildCMakeExtension.run h).

(** ** The error taxonomy of the specification

    Python tells these failures apart by the exception class and, for a
    failed subprocess, by the command the exception carries. *)
Inductive error_kind :=
| ConfigurationError
| BuildFailureError
| GenerationError
| MissingArtifactError.

Definition classify (h : Host) (e : exn) : option error_kind :=
  match e with
  | ValueError _ => Some MissingArtifactError
  | CalledProcessError _ cmd =>
      if bool_decide (cmd = BuildCMakeExtension.configure_argv h)
      then Some ConfigurationError
      else if bool_decide (cmd = BuildCMakeExtension.build_argv h)
      then Some BuildFailureError
      else None
  | DistutilsExecError cmd _ =>
      if bool_decide
           (cmd = GenerateProtoGrpcCommand.protoc_argv
                    (PathLib.resolve (cwd h) (build_py_build_lib h)))
      then Some GenerationError
      else None
  | _ => None
  end.

(** ** Reading the specification literally *)

(** The architectures whose tokens occur in [archflags], in the order in
    which the tokens first appear there. *)
Definition archs_in_token_order (archflags : string) : list string :=
  match Py.find "-arch x86_64" archflags, Py.find "-arch arm64" archflags with
  | Some i, Some j =>
      if bool_decide (i < j) then ["x86_64"; "arm64"] else ["arm64"; "x86_64"]
  | Some _, None => ["x86_64"]
  | None, Some _ => ["arm64"]
  | None, None => []
  end.

(** ** Executable checks *)

Definition is_file_b (fs : filesystem) (p : path) : bool :=
  match fs !! p with
  | Some (File _ _) => true
  | _ => false
  end.

Definition is_dir_b (fs : filesystem) (p : path) : bool :=
  bool_decide (fs !! p = Some Dir).

Definition well_formed_b (fs : filesystem) : bool :=
  forallb (λ p, match p with
                | [] => true
                | _ => is_dir_b fs (PathLib.dirname p)
                end)
          (map_to_list fs).*1.

Definition apart_b (p q : path) : bool :=
  negb (bool_decide (p `prefix_of` q)) && negb (bool_decide (q `prefix_of` p)).

Definition writable_b (fs : filesystem) (d : path) : bool :=
  negb (is_dir_b fs d)
  && forallb (λ q, negb (is_file_b fs q)) (Os.ancestors (PathLib.dirname d)).

Definition in_place_b (fs : filesystem) (s d : path) : bool :=
  is_file_b fs s
  && bool_decide (fs !! d = fs !! s)
  && forallb (is_dir_b fs) (Os.ancestors (PathLib.dirname d)).

(** ** Vocabulary for traces *)

(** The directory [Path(__file__).parent.parent] names: where CMake runs. *)
Definition cmake_cwd (h : Host) : path :=
  PathLib.resolve (cwd h) (BuildCMakeExtension.mujoco_mpc_root h).

(** What the configuration phase prints before CMake is called. *)
Definition configure_prints (h : Host) : list event :=
  EvPrint "Configuring CMake with the following arguments:"
  :: ((λ arg, EvPrint ("  " +:+ arg)) <$> BuildCMakeExtension.cmake_configure_args h).

(** The call of the configuration phase, and of the build phase. *)
Definition configure_call (h : Host) : event :=
  EvCheckCall (BuildCMakeExtension.configure_argv h) (cmake_cwd h).

Definition build_call (h : Host) : event :=
  EvCheckCall (BuildCMakeExtension.build_argv h) (cmake_cwd h).

Definition building_print : event :=
  EvPrint "Building `agent_service` with CMake".

(** The staging commands as the lifecycle runs them: instantiated, then
    finalized. *)
Definition generate_proto_grpc (h : Host) : Command :=
  GenerateProtoGrpcCommand.finalize_options h
    GenerateProtoGrpcCommand.initialize_options.

Definition copy_agent_service_binary (h : Host) : Command :=
  CopyAgentServiceBinaryCommand.finalize_options h
    CopyAgentServiceBinaryCommand.initialize_options.

Definition copy_task_assets (h : Host) : Command :=
  CopyTaskAssetsCommand.finalize_options h
    CopyTaskAssetsCommand.initialize_options.

(** The staging root each of them resolves. *)
Definition py_staging_root (h : Host) : path :=
  PathLib.resolve (cwd h) (build_py_build_lib h).

Definition ext_staging_root (h : Host) : path :=
  PathLib.resolve (cwd h) (build_ext_build_lib h).

(** The four effects of binding generation, in order: the directory of
    the relocated interface file, the copy, the compiler, the marker. *)
Definition proto_source (h : Host) : path :=
  GenerateProtoGrpcCommand.agent_proto_source_path h.

Definition proto_destination (h : Host) : path :=
  py_staging_root h ++ ["mujoco_mpc"; "proto"; "agent.proto"].

Definition protoc_call (h : Host) : list string :=
  [ "python"; "-m"; "grpc_tools.protoc";
    "-I" +:+ PathLib.str (py_staging_root h);
    "--python_out=" +:+ PathLib.str (py_staging_root h);
    "--grpc_python_out=" +:+ PathLib.str (py_staging_root h);
    PathLib.str (proto_destination h) ].

Definition touch_call (h : Host) : list string :=
  [ "touch";
    PathLib.str (py_staging_root h ++ ["mujoco_mpc"; "proto"; "__init__.py"]) ].

Definition generation_plan (h : Host) : list event :=
  [ EvMkdir (py_staging_root h ++ ["mujoco_mpc"; "proto"]);
    EvCopy (proto_source h) (proto_destination h);
    EvSpawn (protoc_call h);
    EvSpawn (touch_call h) ].

(** Where the service binary is looked for. *)
Definition agent_service_source (h : Host) : path :=
  PathLib.resolve (cwd h) CopyAgentServiceBinaryCommand.source_path.

(** The announcement of the asset-staging step when it found nothing. *)
Definition no_assets_announcement (h : Host) : event :=
  EvAnnounce
    ("Copying assets () from "
     +:+ PathLib.pure_str (CopyTaskAssetsCommand.mjpc_tasks_path h)
     +:+ " over to "
     +:+ PathLib.str (CopyTaskAssetsCommand.destination_dir_path (ext_staging_root h))
     +:+ ".").

(** The boundary markers of a trace. *)
Definition is_marker (e : event) : bool :=
  match e with
  | EvBegin _ | EvEnd _ => true
  | _ => false
  end.

Definition markers (t : list event) : list event :=
  filter (λ e, is_marker e = true) t.

(** The three steps of the [build_py] hook, each begun and ended. *)
Definition build_py_plan : list event :=
  [ EvBegin "generate_proto_grpc"; EvEnd "generate_proto_grpc";
    EvBegin "copy_task_assets"; EvEnd "copy_task_assets";
    EvBegin "build_py.run"; EvEnd "build_py.run" ].

(** [m] only ever appends events satisfying [P] to the trace. *)
Definition emits {A} (P : event → Prop) (m : M A) : Prop :=
  ∀ w, ∃ evs, trace (m w).2 = trace w ++ evs ∧ Forall P evs.

(** [m] raises no exception but those satisfying [P]. *)
Definition may_raise {A} (P : exn → Prop) (m : M A) : Prop :=
  ∀ w e w', m w = (Raise e, w') → P e.

(** Exceptions that do not report the exit status of a subprocess. *)
Definition not_a_process_error (e : exn) : Prop :=
  match e with
  | CalledProcessError _ _ | DistutilsExecError _ _ => False
  | _ => True
  end.

(** ** Vocabulary for file systems *)

Definition is_file (fs : filesystem) (p : path) : Prop :=
  ∃ mode data, fs !! p = Some (File mode data).

(** Every entry lies in a directory. *)
Definition well_formed (fs : filesystem) : Prop :=
  ∀ p c, is_Some (fs !! (p ++ [c])) → fs !! p = Some Dir.

(** Two trees that do not overlap: neither root lies in the other. *)
Definition apart (p q : path) : Prop :=
  ¬ p `prefix_of` q ∧ ¬ q `prefix_of` p.

(** A file can be written at [d], after creating directories as needed:
    [d] is not a directory and no regular file lies on the way to it. *)
Definition writable (fs : filesystem) (d : path) : Prop :=
  fs !! d ≠ Some Dir
  ∧ ∀ q, q `prefix_of` PathLib.dirname d → ¬ is_file fs q.

(** A file is in place at [d] as a copy of [s]. *)
Definition in_place (fs : filesystem) (s d : path) : Prop :=
  is_file fs s
  ∧ fs !! d = fs !! s
  ∧ ∀ q, q `prefix_of` PathLib.dirname d → fs !! q = Some Dir.

(** Where the asset-staging step puts the source [s]. *)
Definition asset_destination (h : Host) (s : path) : path :=
  CopyTaskAssetsCommand.destination_dir_path (ext_staging_root h)
  ++ PathLib.relative_to (CopyTaskAssetsCommand.tasks_root h) s.

(** The effects of staging the sources [l], in order. *)
Definition staging_plan (h : Host) (l : list path) : list event :=
  s ← l; [ EvMkdir (PathLib.dirname (asset_destination h s));
           EvCopy s (asset_destination h s) ].

(** The effects of the asset-staging step on the file system [fs]: the
    announcement, then the staging of what the scan of [fs] finds. *)
Definition assets_plan (h : Host) (fs : filesystem) : list event :=
  EvAnnounce (CopyTaskAssetsCommand.copying_message h fs (ext_staging_root h))
  :: staging_plan h (CopyTaskAssetsCommand.source_paths h fs).

(** The world in which a lifecycle step starts, and the one its return
    leaves. *)
Definition begun (name : string) (w : World) : World :=
  mkWorld (files w) (trace w ++ [EvBegin name]).

Definition ended (name : string) (w : World) : World :=
  mkWorld (files w) (trace w ++ [EvEnd name]).

(** The asset-staging step can run: the file system is well formed, the
    task tree and the staging directory are apart, what the scan finds
    are regular files, and each of their destinations is writable. *)
Definition assets_stageable (h : Host) (fs : filesystem) : Prop :=
  well_formed fs
  ∧ apart (CopyTaskAssetsCommand.tasks_root h)
          (CopyTaskAssetsCommand.destination_dir_path (ext_staging_root h))
  ∧ Forall (λ s, is_file fs s ∧ writable fs (asset_destination h s))
           (CopyTaskAssetsCommand.source_paths h fs).

(** What holds of the files all along the staging loop over the sources
    [S] below [T], staged under [D], started on [fs0]: every destination
    stays writable, and nothing changes but on the way to a destination. *)
Definition staging_invariant (T D : path) (fs0 : filesystem) (S : list path)
    (fs : filesystem) : Prop :=
  (∀ s, s ∈ S → writable fs (D ++ PathLib.relative_to T s))
  ∧ (∀ p, (∀ s, s ∈ S → ¬ p `prefix_of` D ++ PathLib.relative_to T s) →
          fs !! p = fs0 !! p).

Definition assets_stageable_b (h : Host) (fs : filesystem) : bool :=
  well_formed_b fs
  && apart_b (CopyTaskAssetsCommand.tasks_root h)
             (CopyTaskAssetsCommand.destination_dir_path (ext_staging_root h))
  && forallb (λ s, is_file_b fs s && writable_b fs (asset_destination h s))
             (CopyTaskAssetsCommand.source_paths h fs).

(** Where the binary-staging step puts the service binary. *)
Definition agent_service_destination (h : Host) : path :=
  CopyAgentServiceBinaryCommand.destination_path (py_staging_root h).

(** The binary-staging step can run. *)
Definition binary_stageable (h : Host) (fs : filesystem) : Prop :=
  is_file fs (agent_service_source h)
  ∧ writable fs (agent_service_destination h).

(** The effects of staging the binary, in order. *)
Definition binary_plan (h : Host) : list event :=
  [ EvAnnounce ("source_path.resolve()="
                +:+ PathLib.repr (PathLib.str (agent_service_source h)));
    EvAnnounce ("destination_path.resolve()="
                +:+ PathLib.repr (PathLib.str (agent_service_destination h)));
    EvMkdir (PathLib.dirname (agent_service_destination h));
    EvCopy (agent_service_source h) (agent_service_destination h) ].

(** Errors of the file system. *)
Definition os_error (e : exn) : Prop :=
  match e with
  | FileNotFoundError _ | FileExistsError _ | NotADirectoryError _
  | IsADirectoryError _ | SameFileError _ _ => True
  | _ => False
  end.

(** Exceptions other than those of a broken registration: a failed
    [assert], a command name that is not registered. *)
Definition not_a_wiring_error (e : exn) : Prop :=
  match e with
  | AssertionError | DistutilsModuleError _ => False
  | _ => True
  end.

(** ** Vocabulary for re-runs *)

(** The kind of a node: regular file or not. *)
Definition node_kind (n : node) : bool :=
  match n with
  | File _ _ => true
  | Dir => false
  end.

(** Two file systems with the same file set: the same paths, each a
    directory in both or a regular file in both. *)
Definition same_shape (fs fs' : filesystem) : Prop :=
  ∀ p, node_kind <$> fs !! p = node_kind <$> fs' !! p.

(** A staged file: the source is a regular file, a regular file sits at
    the destination, in a chain of directories. *)
Definition staged_at (fs : filesystem) (s d : path) : Prop :=
  is_file fs s
  ∧ is_file fs d
  ∧ ∀ q, q `prefix_of` PathLib.dirname d → fs !! q = Some Dir.

Definition staged_at_b (fs : filesystem) (s d : path) : bool :=
  is_file_b fs s && is_file_b fs d
  && forallb (is_dir_b fs) (Os.ancestors (PathLib.dirname d)).

(** A tree a full build has already staged: the relocated interface file,
    every asset and the service binary are staged. *)
Definition already_staged (h : Host) (fs : filesystem) : Prop :=
  staged_at fs (proto_source h) (proto_destination h)
  ∧ apart (CopyTaskAssetsCommand.tasks_root h)
          (CopyTaskAssetsCommand.destination_dir_path (ext_staging_root h))
  ∧ Forall (λ s, staged_at fs s (asset_destination h s))
           (CopyTaskAssetsCommand.source_paths h fs)
  ∧ staged_at fs (agent_service_source h) (agent_service_destination h).

Definition already_staged_b (h : Host) (fs : filesystem) : bool :=
  staged_at_b fs (proto_source h) (proto_destination h)
  && apart_b (CopyTaskAssetsCommand.tasks_root h)
             (CopyTaskAssetsCommand.destination_dir_path (ext_staging_root h))
  && forallb (λ s, staged_at_b fs s (asset_destination h s))
             (CopyTaskAssetsCommand.source_paths h fs)
  && staged_at_b fs (agent_service_source h) (agent_service_destination h).

(** The external programs and the inherited packaging step have nothing
    left to add or remove on a tree shaped like [fs0]: whatever they do
    there, they leave a tree of the same shape. *)
Definition tools_settled (h : Host) (fs0 : filesystem) : Prop :=
  (∀ argv dir fs status fs',
     same_shape fs fs0 →
     run_process h argv dir fs = Some (status, fs') →
     same_shape fs' fs0)
  ∧ (∀ fs, same_shape fs fs0 → same_shape (default_build_py h fs).2 fs0).

(** [m] leaves a tree shaped like [fs0] when started on one. *)
Definition keeps_shape {A : Type} (fs0 : filesystem) (m : M A) : Prop :=
  ∀ w, same_shape (files w) fs0 → same_shape (files (m w).2) fs0.

(** The claim about the order of the architectures, as the specification
    words it: on Darwin, with both tokens in [ARCHFLAGS], the configuration
    command carries the flag listing them in token order. *)
Definition token_order_preserved (h : Host) : Prop :=
  ∀ archflags,
    system h = "Darwin" →
    environ h !! "ARCHFLAGS" = Some archflags →
    Py.contains "-arch x86_64" archflags = true →
    Py.contains "-arch arm64" archflags = true →
    ("-DCMAKE_OSX_ARCHITECTURES=" +:+ Py.join ";" (archs_in_token_order archflags))
      ∈ BuildCMakeExtension.configure_argv h.

(** ** Sample hosts and file systems *)

Module Sample.

(** A checkout at [/src/mujoco_mpc], built from its [python] directory. *)
Definition repo : path := ["src"; "mujoco_mpc"].

Definition tree : filesystem :=
  list_to_map
    [ ([], Dir);
      (["src"], Dir);
      (repo, Dir);
      (repo ++ ["python"], Dir);
      (repo ++ ["python"; "setup.py"], File 420 "setup");
      (repo ++ ["grpc"], Dir);
      (repo ++ ["grpc"; "agent.proto"], File 420 "syntax = 'proto3';");
      (repo ++ ["mjpc"], Dir);
      (repo ++ ["mjpc"; "tasks"], Dir);
      (repo ++ ["mjpc"; "tasks"; "common.xml"], File 420 "<mujoco/>");
      (repo ++ ["mjpc"; "tasks"; "cartpole"], Dir);
      (repo ++ ["mjpc"; "tasks"; "cartpole"; "task.xml"], File 420 "<cartpole/>");
      (repo ++ ["mjpc"; "tasks"; "cartpole"; "cartpole.cc"], File 420 "// c++") ].

(** The same checkout with a task directory that holds no XML file,
    and with no task directory at all. *)
Definition tree_without_xml : filesystem :=
  delete (repo ++ ["mjpc"; "tasks"; "common.xml"])
    (delete (repo ++ ["mjpc"; "tasks"; "cartpole"; "task.xml"]) tree).

Definition tree_without_tasks : filesystem :=
  list_to_map
    [ ([], Dir);
      (["src"], Dir);
      (repo, Dir);
      (repo ++ ["python"], Dir);
      (repo ++ ["python"; "setup.py"], File 420 "setup");
      (repo ++ ["grpc"], Dir);
      (repo ++ ["grpc"; "agent.proto"], File 420 "syntax = 'proto3';") ].

(** External programs: [touch] creates its file if need be, the CMake
    build phase produces the service binary, everything else succeeds
    and writes nothing.  [fail] makes the program whose first argument
    it is exit with status 2. *)
Definition marker : path :=
  repo ++ ["python"; "build"; "lib"; "mujoco_mpc"; "proto"; "__init__.py"].

Definition tools (fail : option string) (argv : list string) (dir : path)
    (fs : filesystem) : option (Z * filesystem) :=
  if bool_decide (is_Some fail ∧ argv !! 1 = fail) then Some (2%Z, fs)
  else if bool_decide (argv !! 0 = Some "touch") then
    Some (0%Z, match fs !! marker with
               | None => <[marker := File 420 ""]> fs
               | Some _ => fs
               end)
  else if bool_decide (argv !! 1 = Some "--build") then
    Some (0%Z,
          <[repo ++ ["build"; "bin"; "agent_service"] := File 493 "ELF"]>
            (<[repo ++ ["build"; "bin"] := Dir]>
               (<[repo ++ ["build"] := Dir]> fs)))
  else Some (0%Z, fs).

Definition host (os : string) (env : gmap string string)
    (fail : option string) : Host :=
  {| system := os;
     environ := env;
     cpu_count := Some 8;
     cwd := repo ++ ["python"];
     script_file := mkPath true (repo ++ ["python"; "setup.py"]);
     build_py_build_lib := PathLib.rel ["build"; "lib"];
     build_ext_build_lib := PathLib.rel ["build"; "lib"];
     run_process := tools fail;
     default_build_py := λ fs, (None, fs) |}.

(** Whether a file-system operation succeeded. *)
Definition succeeded (r : exn + filesystem) : bool :=
  match r with
  | inr _ => true
  | inl _ => false
  end.

(** The files a successful file-system operation leaves. *)
Definition got (r : exn + filesystem) : filesystem :=
  match r with
  | inr fs => fs
  | inl _ => ∅
  end.

Definition linux : Host := host "Linux" ∅ None.

Definition darwin (archflags : string) : Host :=
  host "Darwin" {["ARCHFLAGS" := archflags]} None.

Definition start : World := mkWorld tree [].

(** A host whose interface compiler fails, and the files it finds when
    it is called: the directory made, the interface file copied. *)
Definition failing_protoc : Host := host "Linux" ∅ (Some "-m").

Definition proto_dir_made : filesystem :=
  got (Os.mkdir_parents tree
         (py_staging_root failing_protoc ++ ["mujoco_mpc"; "proto"])).

Definition proto_copied : filesystem :=
  got (Os.shutil_copy proto_dir_made (proto_source failing_protoc)
         (proto_destination failing_protoc)).

(** The checkout without the interface file, and once the directory
    for its copy has been made. *)
Definition tree_without_proto : filesystem :=
  delete (repo ++ ["grpc"; "agent.proto"]) tree.

Definition tree_without_proto_dir_made : filesystem :=
  got (Os.mkdir_parents tree_without_proto
         (repo ++ ["python"; "build"; "lib"; "mujoco_mpc"; "proto"])).

(** The checkout with a directory where the service binary should be,
    and once the directory for its copy has been made. *)
Definition tree_with_binary_dir : filesystem :=
  <[repo ++ ["build"; "bin"; "agent_service"] := Dir]>
    (<[repo ++ ["build"; "bin"] := Dir]> (<[repo ++ ["build"] := Dir]> tree)).

Definition tree_with_binary_dir_made : filesystem :=
  got (Os.mkdir_parents tree_with_binary_dir
         (repo ++ ["python"; "build"; "lib"; "mujoco_mpc"; "mjpc"])).

(** The checkout once CMake has built the service binary. *)
Definition tree_built : filesystem :=
  <[repo ++ ["build"; "bin"; "agent_service"] := File 493 "ELF"]>
    (<[repo ++ ["build"; "bin"] := Dir]> (<[repo ++ ["build"] := Dir]> tree)).

(** The tree a first build leaves. *)
Definition staged : filesystem := files (build linux start).2.

End Sample.

(** [h] with another process environment. *)
Definition with_environ (h : Host) (env : gmap string string) : Host :=
  {| system := system h;
     environ := env;
     cpu_count := cpu_count h;
     cwd := cwd h;
     script_file := script_file h;
     build_py_build_lib := build_py_build_lib h;
     build_ext_build_lib := build_ext_build_lib h;
     run_process := run_process h;
     default_build_py := default_build_py h |}.

Definition binary_stageable_b (h : Host) (fs : filesystem) : bool :=
  is_file_b fs (agent_service_source h)
  && writable_b fs (agent_service_destination h).

(** * Properties *)

(** ** Running computations *)

(** Traces are compared as right-nested appends. *)
Ltac trace_norm :=
  repeat (progress (rewrite <- ?app_assoc; cbn [app])).

Lemma run_bind {A B} (m : M A) (k : A → M B) (w : World) :
  (m ≫= k) w =
  match m w with
  | (Return a, w') => k a w'
  | (Raise e, w') => (Raise e, w')
  end.
Proof. reflexivity. Qed.

Lemma run_bind_return {A B} (m : M A) (k : A → M B) w a w' :
  m w = (Return a, w') → (m ≫= k) w = k a w'.
Proof. intros Hm. by rewrite run_bind, Hm. Qed.

Lemma run_bind_raise {A B} (m : M A) (k : A → M B) w e w' :
  m w = (Raise e, w') → (m ≫= k) w = (Raise e, w').
Proof. intros Hm. by rewrite run_bind, Hm. Qed.

Lemma run_emit e w :
  emit e w = (Return tt, mkWorld (files w) (trace w ++ [e])).
Proof. reflexivity. Qed.

Lemma run_get_files {B} (k : filesystem → M B) w :
  (get_files ≫= k) w = k (files w) w.
Proof. reflexivity. Qed.

Lemma run_update_files op w :
  update_files op w =
  match op (files w) with
  | inl e => (Raise e, w)
  | inr fs' => (Return tt, mkWorld fs' (trace w))
  end.
Proof.
  unfold update_files. rewrite run_get_files.
  destruct (op (files w)); [done|]. by destruct w.
Qed.

Lemma run_mkdir p w :
  mkdir p w =
  match Os.mkdir_parents (files w) p with
  | inl e => (Raise e, mkWorld (files w) (trace w ++ [EvMkdir p]))
  | inr fs' => (Return tt, mkWorld fs' (trace w ++ [EvMkdir p]))
  end.
Proof.
  unfold mkdir. rewrite run_bind, run_emit, run_update_files. simpl.
  by destruct (Os.mkdir_parents (files w) p).
Qed.

Lemma run_copy src dst w :
  copy src dst w =
  match Os.shutil_copy (files w) src dst with
  | inl e => (Raise e, mkWorld (files w) (trace w ++ [EvCopy src dst]))
  | inr fs' => (Return tt, mkWorld fs' (trace w ++ [EvCopy src dst]))
  end.
Proof.
  unfold copy. rewrite run_bind, run_emit, run_update_files. simpl.
  by destruct (Os.shutil_copy (files w) src dst).
Qed.

Lemma run_spawn h argv w :
  spawn h argv w =
  match run_process h argv (cwd h) (files w) with
  | None => (Raise (DistutilsExecError argv None),
             mkWorld (files w) (trace w ++ [EvSpawn argv]))
  | Some (status, fs') =>
      (if bool_decide (status = 0%Z) then Return tt
       else Raise (DistutilsExecError argv (Some status)),
       mkWorld fs' (trace w ++ [EvSpawn argv]))
  end.
Proof.
  unfold spawn. rewrite run_bind, run_emit, run_get_files. simpl.
  destruct (run_process h argv (cwd h) (files w)) as [[status fs']|]; [|done].
  rewrite run_bind. simpl. by case_bool_decide.
Qed.

Lemma run_check_call h argv dir w :
  check_call h argv dir w =
  match run_process h argv dir (files w) with
  | None => (Raise (ExecutableNotFound argv),
             mkWorld (files w) (trace w ++ [EvCheckCall argv dir]))
  | Some (status, fs') =>
      (if bool_decide (status = 0%Z) then Return tt
       else Raise (CalledProcessError status argv),
       mkWorld fs' (trace w ++ [EvCheckCall argv dir]))
  end.
Proof.
  unfold check_call. rewrite run_bind, run_emit, run_get_files. simpl.
  destruct (run_process h argv dir (files w)) as [[status fs']|]; [|done].
  rewrite run_bind. simpl. by case_bool_decide.
Qed.

Lemma run_step name body w :
  step name body w =
  match body (mkWorld (files w) (trace w ++ [EvBegin name])) with
  | (Return _, w') => (Return tt, mkWorld (files w') (trace w' ++ [EvEnd name]))
  | (Raise e, w') => (Raise e, w')
  end.
Proof.
  unfold step. rewrite run_bind, run_emit, run_bind.
  by destruct (body _) as [[[]|e] w'].
Qed.

Lemma run_prints {A} (f : A → string) (l : list A) w :
  for_each l (λ a, print (f a)) w =
  (Return tt, mkWorld (files w) (trace w ++ ((λ a, EvPrint (f a)) <$> l))).
Proof.
  revert w. induction l as [|a l IH]; intros w; simpl.
  - destruct w. by rewrite app_nil_r.
  - rewrite run_bind. unfold print at 1. rewrite run_emit, IH. simpl.
    by rewrite <- app_assoc.
Qed.

(** [run_command] on the three registered names. *)
Lemma run_command_generate_proto_grpc h :
  run_command h "generate_proto_grpc" =
  step "generate_proto_grpc"
       (GenerateProtoGrpcCommand.run h (generate_proto_grpc h)).
Proof. reflexivity. Qed.

Lemma run_command_copy_agent_service_binary h :
  run_command h "copy_agent_service_binary" =
  step "copy_agent_service_binary"
       (CopyAgentServiceBinaryCommand.run h (copy_agent_service_binary h)).
Proof. reflexivity. Qed.

Lemma run_command_copy_task_assets h :
  run_command h "copy_task_assets" =
  step "copy_task_assets" (CopyTaskAssetsCommand.run h (copy_task_assets h)).
Proof. reflexivity. Qed.

(** Pairing a list with its own image. *)
Lemma zip_with_own_image {A B} (f : A → B) (l : list A) :
  zip l (f <$> l) = (λ a, (a, f a)) <$> l.
Proof. induction l as [|a l IH]; [done|]. cbn. by rewrite <- IH. Qed.

(** ** File-system operations *)

Lemma elem_of_ancestors (p q : path) : q ∈ Os.ancestors p ↔ q `prefix_of` p.
Proof.
  unfold Os.ancestors. rewrite list_elem_of_fmap. split.
  - intros (n & -> & _). apply prefix_take.
  - intros [k ->]. exists (length q). split.
    + by rewrite take_app_length.
    + apply elem_of_seq. rewrite length_app. lia.
Qed.

Lemma prefix_of_dirname (p q : path) :
  q `prefix_of` PathLib.dirname p → q `prefix_of` p.
Proof.
  unfold PathLib.dirname. intros Hq.
  destruct (decide (p = [])) as [->|Hp]; [done|].
  rewrite (app_removelast_last "" Hp). by apply prefix_app_r.
Qed.

Lemma dirname_prefix_strict (p q : path) :
  p ≠ [] → q `prefix_of` PathLib.dirname p → q ≠ p.
Proof.
  unfold PathLib.dirname. intros Hp Hq ->.
  rewrite (app_removelast_last "" Hp) in Hq at 1.
  by apply prefix_snoc_not in Hq.
Qed.

Lemma dirname_app (p r : path) :
  r ≠ [] → PathLib.dirname (p ++ r) = p ++ PathLib.dirname r.
Proof. unfold PathLib.dirname. intros Hr. by apply removelast_app. Qed.

(** Creating directories never touches an existing entry. *)
Lemma ensure_dirs_inr target qs fs fs' :
  Os.ensure_dirs target qs fs = inr fs' →
  (∀ q, q ∈ qs → fs' !! q = Some Dir)
  ∧ (∀ q, is_Some (fs !! q) → fs' !! q = fs !! q)
  ∧ (∀ q, q ∉ qs → fs' !! q = fs !! q)
  ∧ (∀ q, fs' !! q = fs !! q ∨ fs' !! q = Some Dir).
Proof.
  revert fs. induction qs as [|q0 qs IH]; intros fs; simpl.
  { intros [= <-]. split_and!; [by intros q ?%elem_of_nil|done|done|by left]. }
  unfold Os.ensure_dir.
  destruct (fs !! q0) as [[mode data|]|] eqn:Hq0; [done| |].
  - intros (Hdirs & Hkeep & Hframe & Hmono)%IH. split_and!; [|done| |done].
    + intros q [->|Hq]%elem_of_cons; [|by apply Hdirs].
      rewrite Hkeep; [done|by rewrite Hq0].
    + intros q [_ Hq]%not_elem_of_cons. by apply Hframe.
  - intros (Hdirs & Hkeep & Hframe & Hmono)%IH. split_and!.
    + intros q [->|Hq]%elem_of_cons; [|by apply Hdirs].
      rewrite Hkeep; by rewrite lookup_insert_eq.
    + intros q Hq. destruct (decide (q = q0)) as [->|Hne].
      { rewrite Hq0 in Hq. by destruct Hq. }
      rewrite Hkeep; rewrite lookup_insert_ne by done; done.
    + intros q [Hne Hq]%not_elem_of_cons.
      rewrite Hframe by done. by rewrite lookup_insert_ne.
    + intros q. destruct (decide (q = q0)) as [->|Hne].
      * right. rewrite Hkeep; by rewrite lookup_insert_eq.
      * destruct (Hmono q) as [Hq|Hq]; [left|by right].
        by rewrite Hq, lookup_insert_ne.
Qed.

Lemma ensure_dirs_succeeds target qs fs :
  (∀ q, q ∈ qs → ¬ is_file fs q) →
  ∃ fs', Os.ensure_dirs target qs fs = inr fs'.
Proof.
  revert fs. induction qs as [|q0 qs IH]; intros fs Hfree; simpl; [by eexists|].
  unfold Os.ensure_dir.
  destruct (fs !! q0) as [[mode data|]|] eqn:Hq0.
  - destruct (Hfree q0); [by left|by do 2 eexists].
  - apply IH. intros q Hq. apply Hfree. by right.
  - apply IH. intros q Hq (mode & data & Hfile).
    destruct (decide (q = q0)) as [->|Hne].
    + by rewrite lookup_insert_eq in Hfile.
    + rewrite lookup_insert_ne in Hfile by done.
      apply (Hfree q); [by right|by do 2 eexists].
Qed.

Lemma ensure_dirs_noop target qs fs :
  (∀ q, q ∈ qs → fs !! q = Some Dir) → Os.ensure_dirs target qs fs = inr fs.
Proof.
  induction qs as [|q0 qs IH]; intros Hdirs; simpl; [done|].
  unfold Os.ensure_dir. rewrite Hdirs by by left.
  apply IH. intros q Hq. apply Hdirs. by right.
Qed.

Lemma mkdir_parents_inr fs p fs' :
  Os.mkdir_parents fs p = inr fs' →
  (∀ q, q `prefix_of` p → fs' !! q = Some Dir)
  ∧ (∀ q, is_Some (fs !! q) → fs' !! q = fs !! q)
  ∧ (∀ q, ¬ q `prefix_of` p → fs' !! q = fs !! q)
  ∧ (∀ q, fs' !! q = fs !! q ∨ fs' !! q = Some Dir).
Proof.
  intros (Hdirs & Hkeep & Hframe & Hmono)%ensure_dirs_inr.
  split_and!; [|done| |done].
  - intros q Hq. by apply Hdirs, elem_of_ancestors.
  - intros q Hq. apply Hframe. by rewrite elem_of_ancestors.
Qed.

Lemma mkdir_parents_succeeds fs p :
  (∀ q, q `prefix_of` p → ¬ is_file fs q) →
  ∃ fs', Os.mkdir_parents fs p = inr fs'.
Proof.
  intros Hfree. apply ensure_dirs_succeeds.
  intros q Hq%elem_of_ancestors. by apply Hfree.
Qed.

Lemma mkdir_parents_noop fs p :
  (∀ q, q `prefix_of` p → fs !! q = Some Dir) → Os.mkdir_parents fs p = inr fs.
Proof.
  intros Hdirs. apply ensure_dirs_noop.
  intros q Hq%elem_of_ancestors. by apply Hdirs.
Qed.

Lemma copy_target_plain fs src dst :
  fs !! dst ≠ Some Dir → Os.copy_target fs src dst = dst.
Proof.
  intros Hdst. unfold Os.copy_target, Os.isdir.
  by rewrite bool_decide_eq_false_2.
Qed.

Lemma shutil_copy_succeeds fs src dst mode data :
  fs !! src = Some (File mode data) →
  src ≠ dst →
  fs !! dst ≠ Some Dir →
  fs !! PathLib.dirname dst = Some Dir →
  Os.shutil_copy fs src dst = inr (<[dst := File mode data]> fs).
Proof.
  intros Hsrc Hne Hdst Hparent. unfold Os.shutil_copy.
  rewrite (copy_target_plain _ _ _ Hdst), Hsrc.
  rewrite bool_decide_eq_false_2 by done. rewrite Hparent.
  by destruct (fs !! dst) as [[]|].
Qed.

(** What the recursive scan finds. *)
Lemma elem_of_rglob fs root suffix p :
  p ∈ Os.rglob fs root suffix ↔
  fs !! root = Some Dir
  ∧ is_Some (fs !! p)
  ∧ root `prefix_of` p ∧ p ≠ root
  ∧ Py.endswith (PathLib.basename p) suffix = true.
Proof.
  unfold Os.rglob.
  destruct (fs !! root) as [[mode data|]|] eqn:Hroot;
    [by split; [intros ?%elem_of_nil|intros [? _]]| |
     by split; [intros ?%elem_of_nil|intros [? _]]].
  rewrite list_elem_of_filter, list_elem_of_fmap. unfold Os.below.
  rewrite andb_True, andb_True, bool_decide_spec, negb_True, bool_decide_spec.
  rewrite Is_true_true. split.
  - intros [[[Hpre Hne] Hsuffix] ([p' v] & -> & Hv%elem_of_map_to_list)].
    simpl in *. split_and!; [done|by eexists|done..].
  - intros (_ & [v Hv] & Hpre & Hne & Hsuffix). split; [done|].
    exists (p, v). split; [done|]. by apply elem_of_map_to_list.
Qed.

Lemma well_formed_prefix fs p q :
  well_formed fs → is_Some (fs !! p) → q `prefix_of` p → q ≠ p →
  fs !! q = Some Dir.
Proof.
  intros Hwf Hp [k ->]. revert Hp.
  induction k as [|c k IH] using rev_ind; intros Hp Hne.
  { by rewrite app_nil_r in Hne. }
  rewrite app_assoc in Hp. apply Hwf in Hp.
  destruct (decide (k = [])) as [->|Hk]; [by rewrite app_nil_r in Hp|].
  apply IH; [by rewrite Hp|].
  intros Heq. apply Hk. apply (app_inv_head q). by rewrite app_nil_r.
Qed.

(** ** What a computation may emit and raise *)

Section Emits.

Context (P : event → Prop).

Lemma emits_ret {A} (a : A) : emits P (ret a).
Proof. intros w. exists []. by rewrite app_nil_r. Qed.

Lemma emits_raise {A} (e : exn) : emits P (raise (A:=A) e).
Proof. intros w. exists []. by rewrite app_nil_r. Qed.

Lemma emits_bind {A B} (m : M A) (k : A → M B) :
  emits P m → (∀ a, emits P (k a)) → emits P (m ≫= k).
Proof.
  intros Hm Hk w. rewrite run_bind.
  destruct (Hm w) as (evs & Ht & Hevs).
  destruct (m w) as [[a|e] w1]; simpl in Ht.
  - destruct (Hk a w1) as (evs' & Ht' & Hevs').
    exists (evs ++ evs'). rewrite Ht', Ht, app_assoc.
    split; [done|]. by apply Forall_app.
  - by exists evs.
Qed.

Lemma emits_emit e : P e → emits P (emit e).
Proof. intros He w. exists [e]. split; [done|]. by apply Forall_singleton. Qed.

Lemma emits_get_files : emits P get_files.
Proof. intros w. exists []. by rewrite app_nil_r. Qed.

Lemma emits_put_files fs : emits P (put_files fs).
Proof. intros w. exists []. by rewrite app_nil_r. Qed.

Lemma emits_update_files op : emits P (update_files op).
Proof.
  intros w. exists []. rewrite run_update_files, app_nil_r.
  by destruct (op (files w)).
Qed.

Lemma emits_for_each {A} (l : list A) (body : A → M unit) :
  (∀ a, emits P (body a)) → emits P (for_each l body).
Proof.
  intros Hbody. induction l as [|a l IH]; simpl.
  - apply emits_ret.
  - apply emits_bind; [apply Hbody|]. by intros _.
Qed.

Lemma emits_mkdir p : P (EvMkdir p) → emits P (mkdir p).
Proof.
  intros Hp. apply emits_bind; [by apply emits_emit|].
  intros _. apply emits_update_files.
Qed.

Lemma emits_copy src dst : P (EvCopy src dst) → emits P (copy src dst).
Proof.
  intros Hp. apply emits_bind; [by apply emits_emit|].
  intros _. apply emits_update_files.
Qed.

End Emits.

Lemma markers_quiet (evs : list event) :
  Forall (λ e, is_marker e = false) evs → markers evs = [].
Proof.
  unfold markers. induction 1 as [|e evs He _ IH]; [done|].
  rewrite filter_cons_False; [done|]. by rewrite He.
Qed.

Lemma markers_app (t1 t2 : list event) :
  markers (t1 ++ t2) = markers t1 ++ markers t2.
Proof. apply filter_app. Qed.

Section MayRaise.

Context (P : exn → Prop).

Lemma may_raise_ret {A} (a : A) : may_raise P (ret a).
Proof. by intros w e w'. Qed.

Lemma may_raise_raise {A} (e : exn) : P e → may_raise P (raise (A:=A) e).
Proof. intros He w e' w'. unfold raise. by intros [= <- _]. Qed.

Lemma may_raise_bind {A B} (m : M A) (k : A → M B) :
  may_raise P m → (∀ a, may_raise P (k a)) → may_raise P (m ≫= k).
Proof.
  intros Hm Hk w e w'. rewrite run_bind.
  destruct (m w) as [[a|e1] w1] eqn:Hmw.
  - apply Hk.
  - intros [= <- <-]. by eapply Hm.
Qed.

Lemma may_raise_emit e : may_raise P (emit e).
Proof. by intros w e' w'. Qed.

Lemma may_raise_get_files : may_raise P get_files.
Proof. by intros w e' w'. Qed.

Lemma may_raise_put_files fs : may_raise P (put_files fs).
Proof. by intros w e' w'. Qed.

Lemma may_raise_update_files op :
  (∀ fs e, op fs = inl e → P e) → may_raise P (update_files op).
Proof.
  intros Hop w e w'. rewrite run_update_files.
  destruct (op (files w)) as [e1|fs'] eqn:Hopw; [|done].
  intros [= <- _]. by eapply Hop.
Qed.

Lemma may_raise_for_each {A} (l : list A) (body : A → M unit) :
  (∀ a, may_raise P (body a)) → may_raise P (for_each l body).
Proof.
  intros Hbody. induction l as [|a l IH]; simpl.
  - apply may_raise_ret.
  - apply may_raise_bind; [apply Hbody|]. by intros _.
Qed.

Lemma may_raise_step name body :
  may_raise P body → may_raise P (step name body).
Proof.
  intros Hbody. unfold step.
  apply may_raise_bind; [apply may_raise_emit|]. intros _.
  apply may_raise_bind; [done|]. intros _. apply may_raise_emit.
Qed.

End MayRaise.

Lemma ensure_dirs_error target qs fs e :
  Os.ensure_dirs target qs fs = inl e → not_a_process_error e.
Proof.
  revert fs. induction qs as [|q qs IH]; intros fs; simpl; [done|].
  unfold Os.ensure_dir.
  destruct (fs !! q) as [[]|]; [|by apply IH..].
  intros [= <-]. by case_bool_decide.
Qed.

Lemma mkdir_parents_error fs p e :
  Os.mkdir_parents fs p = inl e → not_a_process_error e.
Proof. apply ensure_dirs_error. Qed.

Lemma shutil_copy_error fs src dst e :
  Os.shutil_copy fs src dst = inl e → not_a_process_error e.
Proof.
  unfold Os.shutil_copy.
  destruct (fs !! src) as [[]|]; [|by intros [= <-]..].
  case_bool_decide; [by intros [= <-]|].
  destruct (fs !! Os.copy_target fs src dst) as [[]|];
    [|by intros [= <-]|];
    by destruct (fs !! PathLib.dirname (Os.copy_target fs src dst)) as [[]|];
      intros [= <-].
Qed.

Lemma mkdir_raises p : may_raise not_a_process_error (mkdir p).
Proof.
  apply may_raise_bind; [apply may_raise_emit|]. intros _.
  apply may_raise_update_files. intros fs e. apply mkdir_parents_error.
Qed.

Lemma copy_raises src dst : may_raise not_a_process_error (copy src dst).
Proof.
  apply may_raise_bind; [apply may_raise_emit|]. intros _.
  apply may_raise_update_files. intros fs e. apply shutil_copy_error.
Qed.

Lemma resolved_build_lib_raises h self :
  may_raise not_a_process_error (resolved_build_lib h self).
Proof.
  unfold resolved_build_lib. destruct (build_lib self).
  - apply may_raise_ret.
  - by apply may_raise_raise.
Qed.

Lemma copy_agent_service_binary_raises h self :
  may_raise not_a_process_error (CopyAgentServiceBinaryCommand.run h self).
Proof.
  unfold CopyAgentServiceBinaryCommand.run.
  apply may_raise_bind; [apply may_raise_get_files|]. intros fs.
  destruct (negb _); [by apply may_raise_raise|].
  apply may_raise_bind; [apply resolved_build_lib_raises|]. intros b.
  apply may_raise_bind; [apply may_raise_emit|]. intros _.
  apply may_raise_bind; [apply may_raise_emit|]. intros _.
  apply may_raise_bind; [apply mkdir_raises|]. intros _.
  apply copy_raises.
Qed.

Lemma copy_task_assets_raises h self :
  may_raise not_a_process_error (CopyTaskAssetsCommand.run h self).
Proof.
  unfold CopyTaskAssetsCommand.run.
  apply may_raise_bind; [apply may_raise_get_files|]. intros fs.
  apply may_raise_bind; [apply resolved_build_lib_raises|]. intros b.
  apply may_raise_bind; [apply may_raise_emit|]. intros _.
  apply may_raise_for_each. intros item.
  apply may_raise_bind; [apply mkdir_raises|]. intros _.
  apply copy_raises.
Qed.

Lemma super_run_raises h :
  may_raise not_a_process_error (BuildPyCommand.super_run h).
Proof.
  unfold BuildPyCommand.super_run.
  apply may_raise_bind; [apply may_raise_get_files|]. intros fs.
  apply may_raise_bind; [apply may_raise_put_files|]. intros _.
  destruct (default_build_py h fs).1.
  - by apply may_raise_raise.
  - apply may_raise_ret.
Qed.

Lemma copy_task_assets_quiet h self :
  emits (λ e, is_marker e = false) (CopyTaskAssetsCommand.run h self).
Proof.
  unfold CopyTaskAssetsCommand.run.
  apply emits_bind; [apply emits_get_files|]. intros fs.
  apply emits_bind.
  { unfold resolved_build_lib. destruct (build_lib self).
    - apply emits_ret.
    - apply emits_raise. }
  intros b. apply emits_bind; [by apply emits_emit|]. intros _.
  apply emits_for_each. intros item.
  apply emits_bind; [by apply emits_mkdir|]. intros _.
  by apply emits_copy.
Qed.

Lemma super_run_silent h w :
  trace (BuildPyCommand.super_run h w).2 = trace w.
Proof.
  unfold BuildPyCommand.super_run. rewrite run_get_files, run_bind.
  cbn. by destruct (default_build_py h (files w)).1.
Qed.

(** ** The CMake driver *)

(** The configuration-and-build method, evaluated: what it returns and
    the world it leaves, by the exit statuses of the two CMake calls. *)
Lemma run_configure_and_build h w :
  BuildCMakeExtension._configure_and_build_agent_service h w =
  let t1 := trace w ++ configure_prints h ++ [configure_call h] in
  match run_process h (BuildCMakeExtension.configure_argv h) (cmake_cwd h) (files w) with
  | None =>
      (Raise (ExecutableNotFound (BuildCMakeExtension.configure_argv h)),
       mkWorld (files w) t1)
  | Some (status, fs1) =>
      if bool_decide (status = 0%Z) then
        let t2 := t1 ++ [building_print; build_call h] in
        match run_process h (BuildCMakeExtension.build_argv h) (cmake_cwd h) fs1 with
        | None =>
            (Raise (ExecutableNotFound (BuildCMakeExtension.build_argv h)),
             mkWorld fs1 t2)
        | Some (status2, fs2) =>
            (if bool_decide (status2 = 0%Z) then Return tt
             else Raise (CalledProcessError status2 (BuildCMakeExtension.build_argv h)),
             mkWorld fs2 t2)
        end
      else
        (Raise (CalledProcessError status (BuildCMakeExtension.configure_argv h)),
         mkWorld fs1 t1)
  end.
Proof.
  unfold BuildCMakeExtension._configure_and_build_agent_service.
  rewrite run_bind. unfold print at 1. rewrite run_emit.
  rewrite run_bind, run_prints. cbn [files trace].
  rewrite run_bind, run_check_call. cbn [files trace]. fold (cmake_cwd h).
  unfold configure_prints, configure_call, build_call, building_print.
  cbv zeta. trace_norm.
  destruct (run_process h _ (cmake_cwd h) (files w)) as [[status fs1]|]; [|done].
  case_bool_decide; [|done].
  rewrite run_bind. unfold print. rewrite run_emit, run_check_call.
  cbn [files trace]. trace_norm.
  by destruct (run_process h _ (cmake_cwd h) fs1) as [[status2 fs2]|].
Qed.

(** Whatever happens next, the configuration call is issued, after the
    announcement of its arguments. *)
Lemma configure_call_issued h w :
  ∃ evs,
    trace (BuildCMakeExtension._configure_and_build_agent_service h w).2 =
    trace w ++ configure_prints h ++ configure_call h :: evs.
Proof.
  rewrite run_configure_and_build. cbv zeta.
  destruct (run_process h _ (cmake_cwd h) (files w)) as [[status fs1]|].
  - case_bool_decide.
    + destruct (run_process h _ (cmake_cwd h) fs1) as [[status2 fs2]|];
        exists [building_print; build_call h]; cbn [snd trace];
        by trace_norm.
    + exists []. cbn [snd trace]. by trace_norm.
  - exists []. cbn [snd trace]. by trace_norm.
Qed.

Lemma osx_archs_both archflags :
  Py.contains "-arch x86_64" archflags = true →
  Py.contains "-arch arm64" archflags = true →
  BuildCMakeExtension.osx_archs archflags = ["x86_64"; "arm64"].
Proof. unfold BuildCMakeExtension.osx_archs. by intros -> ->. Qed.

Lemma osx_archs_neither archflags :
  Py.contains "-arch x86_64" archflags = false →
  Py.contains "-arch arm64" archflags = false →
  BuildCMakeExtension.osx_archs archflags = [].
Proof. unfold BuildCMakeExtension.osx_archs. by intros -> ->. Qed.

Lemma configure_args_darwin h archflags :
  system h = "Darwin" →
  environ h !! "ARCHFLAGS" = Some archflags →
  BuildCMakeExtension.cmake_configure_args h =
  BuildCMakeExtension.base_configure_args ++
  ["-DCMAKE_OSX_ARCHITECTURES="
   +:+ Py.join ";" (BuildCMakeExtension.osx_archs archflags)].
Proof.
  intros Hsys Henv. unfold BuildCMakeExtension.cmake_configure_args.
  by rewrite bool_decide_eq_true_2, Henv.
Qed.

Lemma configure_args_elsewhere h :
  system h ≠ "Darwin" →
  BuildCMakeExtension.cmake_configure_args h =
  BuildCMakeExtension.base_configure_args.
Proof.
  intros Hsys. unfold BuildCMakeExtension.cmake_configure_args.
  rewrite bool_decide_eq_false_2 by done. by rewrite app_nil_r.
Qed.

(** C1 (as amended): on Darwin, when [ARCHFLAGS] contains both
    [-arch x86_64] and [-arch arm64], the configuration arguments end with
    the single flag [-DCMAKE_OSX_ARCHITECTURES=x86_64;arm64] (always
    x86_64 first, wherever the tokens stand in the variable), and the call
    of CMake's configuration phase is issued with it. *)
Theorem C1_both_architectures_one_flag (h : Host) (w : World) (archflags : string) :
  system h = "Darwin" →
  environ h !! "ARCHFLAGS" = Some archflags →
  Py.contains "-arch x86_64" archflags = true →
  Py.contains "-arch arm64" archflags = true →
  BuildCMakeExtension.configure_argv h =
    [ "cmake";
      "-DCMAKE_EXPORT_COMPILE_COMMANDS:BOOL=TRUE";
      "-DCMAKE_BUILD_TYPE:STRING=Debug";
      "-DBUILD_TESTING:BOOL=OFF";
      "-DCMAKE_OSX_ARCHITECTURES=x86_64;arm64";
      "-S" +:+ PathLib.str (PathLib.resolve (cwd h) (BuildCMakeExtension.mujoco_mpc_root h));
      "-B" +:+ PathLib.str (PathLib.resolve (cwd h) (BuildCMakeExtension.mujoco_mpc_build_dir h)) ]
  ∧ ∃ evs,
      trace (BuildCMakeExtension._configure_and_build_agent_service h w).2 =
      trace w ++ configure_prints h
        ++ EvCheckCall (BuildCMakeExtension.configure_argv h) (cmake_cwd h) :: evs.
Proof.
  intros Hsys Henv Hx86 Harm. split; [|apply configure_call_issued].
  unfold BuildCMakeExtension.configure_argv.
  rewrite (configure_args_darwin h archflags Hsys Henv).
  by rewrite (osx_archs_both archflags Hx86 Harm).
Qed.

Lemma C1_both_architectures_one_flag_witness :
  BuildCMakeExtension.configure_argv (Sample.darwin "-arch arm64 -arch x86_64") =
    [ "cmake";
      "-DCMAKE_EXPORT_COMPILE_COMMANDS:BOOL=TRUE";
      "-DCMAKE_BUILD_TYPE:STRING=Debug";
      "-DBUILD_TESTING:BOOL=OFF";
      "-DCMAKE_OSX_ARCHITECTURES=x86_64;arm64";
      "-S/src/mujoco_mpc";
      "-B/src/mujoco_mpc/build" ].
Proof.
  apply (C1_both_architectures_one_flag
           (Sample.darwin "-arch arm64 -arch x86_64") Sample.start
           "-arch arm64 -arch x86_64"); reflexivity.
Defined.

(** C1 (as stated) fails: with [ARCHFLAGS="-arch arm64 -arch x86_64"] the
    tokens appear arm64 first, yet the flag passed to CMake is not
    [-DCMAKE_OSX_ARCHITECTURES=arm64;x86_64]. *)
Lemma C1_token_order_counterexample :
  ¬ token_order_preserved (Sample.darwin "-arch arm64 -arch x86_64").
Proof.
  intros Hclaim.
  specialize (Hclaim "-arch arm64 -arch x86_64" eq_refl eq_refl eq_refl eq_refl).
  revert Hclaim. apply (bool_decide_eq_false_1 _). by vm_compute.
Qed.

(** C10: on Darwin, when [ARCHFLAGS] is set and contains neither
    recognised token, the architecture flag is still appended, with an
    empty value, and the configuration call is issued with it. *)
Theorem C10_empty_architecture_flag (h : Host) (w : World) (archflags : string) :
  system h = "Darwin" →
  environ h !! "ARCHFLAGS" = Some archflags →
  Py.contains "-arch x86_64" archflags = false →
  Py.contains "-arch arm64" archflags = false →
  BuildCMakeExtension.cmake_configure_args h =
    [ "-DCMAKE_EXPORT_COMPILE_COMMANDS:BOOL=TRUE";
      "-DCMAKE_BUILD_TYPE:STRING=Debug";
      "-DBUILD_TESTING:BOOL=OFF";
      "-DCMAKE_OSX_ARCHITECTURES=" ]
  ∧ "-DCMAKE_OSX_ARCHITECTURES=" ∈ BuildCMakeExtension.configure_argv h
  ∧ ∃ evs,
      trace (BuildCMakeExtension._configure_and_build_agent_service h w).2 =
      trace w ++ configure_prints h
        ++ EvCheckCall (BuildCMakeExtension.configure_argv h) (cmake_cwd h) :: evs.
Proof.
  intros Hsys Henv Hx86 Harm.
  assert (BuildCMakeExtension.cmake_configure_args h =
          BuildCMakeExtension.base_configure_args ++ ["-DCMAKE_OSX_ARCHITECTURES="])
    as Hargs.
  { rewrite (configure_args_darwin h archflags Hsys Henv).
    by rewrite (osx_archs_neither archflags Hx86 Harm). }
  split_and!; [by rewrite Hargs| |apply configure_call_issued].
  unfold BuildCMakeExtension.configure_argv. rewrite Hargs.
  simpl. set_solver.
Qed.

Lemma C10_empty_architecture_flag_witness :
  BuildCMakeExtension.cmake_configure_args (Sample.darwin "-arch ppc") =
    [ "-DCMAKE_EXPORT_COMPILE_COMMANDS:BOOL=TRUE";
      "-DCMAKE_BUILD_TYPE:STRING=Debug";
      "-DBUILD_TESTING:BOOL=OFF";
      "-DCMAKE_OSX_ARCHITECTURES=" ].
Proof.
  apply (C10_empty_architecture_flag (Sample.darwin "-arch ppc") Sample.start
           "-arch ppc"); reflexivity.
Defined.

(** Nothing but the configuration arguments reads the environment. *)
Lemma build_with_environ h env1 env2 w :
  BuildCMakeExtension.cmake_configure_args (with_environ h env1) =
  BuildCMakeExtension.cmake_configure_args (with_environ h env2) →
  build (with_environ h env1) w = build (with_environ h env2) w.
Proof.
  intros Hargs.
  unfold build, BuildCMakeExtension.run, BuildPyCommand.run,
    BuildCMakeExtension._configure_and_build_agent_service,
    BuildCMakeExtension.configure_argv.
  rewrite Hargs. reflexivity.
Qed.

(** C7: away from Darwin the environment is not consulted: under any two
    environments (in particular two that differ only in the value or the
    presence of [ARCHFLAGS]) the configuration command gets the same
    argument list, and the whole build runs alike. *)
Theorem C7_archflags_only_read_on_darwin
    (h : Host) (env1 env2 : gmap string string) :
  system h ≠ "Darwin" →
  BuildCMakeExtension.configure_argv (with_environ h env1) =
  BuildCMakeExtension.configure_argv (with_environ h env2)
  ∧ ∀ w, build (with_environ h env1) w = build (with_environ h env2) w.
Proof.
  intros Hsys.
  assert (BuildCMakeExtension.cmake_configure_args (with_environ h env1) =
          BuildCMakeExtension.cmake_configure_args (with_environ h env2))
    as Hargs.
  { by rewrite !configure_args_elsewhere. }
  split.
  - unfold BuildCMakeExtension.configure_argv. by rewrite Hargs.
  - intros w. by apply build_with_environ.
Qed.

Lemma C7_archflags_only_read_on_darwin_witness :
  system Sample.linux ≠ "Darwin"
  ∧ BuildCMakeExtension.configure_argv
      (with_environ Sample.linux {["ARCHFLAGS" := "-arch x86_64 -arch arm64"]}) =
    BuildCMakeExtension.configure_argv (with_environ Sample.linux ∅).
Proof.
  split; [done|].
  by apply (C7_archflags_only_read_on_darwin Sample.linux
              {["ARCHFLAGS" := "-arch x86_64 -arch arm64"]} ∅).
Defined.

(** ** Staging the service binary *)

Lemma resolved_build_lib_finalized h src self w :
  resolved_build_lib h (set_undefined_options src self) w =
  (Return (PathLib.resolve (cwd h)
             (match build_lib self with Some b => b | None => src end)), w).
Proof.
  unfold resolved_build_lib, set_undefined_options.
  by destruct self as [[b|]].
Qed.

(** C2: when [../build/bin/agent_service] does not exist, the
    binary-staging step raises the script's missing-artifact error (a
    [ValueError]) whose message asks for the [agent_service] service to be
    built, and leaves the world as it found it: no directory is created,
    nothing is copied.  The same holds when the step is run through the
    lifecycle, which only records that the step began. *)
Theorem C2_missing_binary_fails_fast (h : Host) (self : Command) (w : World) :
  files w !! agent_service_source h = None →
  CopyAgentServiceBinaryCommand.run h self w =
    (Raise (ValueError CopyAgentServiceBinaryCommand.missing_binary_message), w)
  ∧ run_command h "copy_agent_service_binary" w =
    (Raise (ValueError CopyAgentServiceBinaryCommand.missing_binary_message),
     mkWorld (files w) (trace w ++ [EvBegin "copy_agent_service_binary"]))
  ∧ classify h (ValueError CopyAgentServiceBinaryCommand.missing_binary_message)
    = Some MissingArtifactError
  ∧ CopyAgentServiceBinaryCommand.missing_binary_message =
    "Cannot find `agent_service` binary from ../build/bin/agent_service. Please build the `agent_service` C++ gRPC service.".
Proof.
  intros Hmissing.
  assert (∀ self' w', files w' = files w →
            CopyAgentServiceBinaryCommand.run h self' w' =
            (Raise (ValueError CopyAgentServiceBinaryCommand.missing_binary_message), w'))
    as Hrun.
  { intros self' w' Hfiles. unfold CopyAgentServiceBinaryCommand.run.
    rewrite run_get_files. unfold Os.path_exists.
    fold (agent_service_source h). rewrite Hfiles, Hmissing.
    rewrite bool_decide_eq_false_2; [done|]. by intros [? ?]. }
  split_and!; [by apply Hrun| |done..].
  rewrite run_command_copy_agent_service_binary, run_step.
  by rewrite Hrun.
Qed.

Lemma C2_missing_binary_fails_fast_witness :
  files Sample.start !! agent_service_source Sample.linux = None
  ∧ CopyAgentServiceBinaryCommand.run Sample.linux
      (copy_agent_service_binary Sample.linux) Sample.start =
    (Raise (ValueError CopyAgentServiceBinaryCommand.missing_binary_message),
     Sample.start).
Proof.
  split; [reflexivity|].
  apply (C2_missing_binary_fails_fast Sample.linux
           (copy_agent_service_binary Sample.linux) Sample.start).
  reflexivity.
Defined.

(** ** Staging the task assets *)

Lemma run_copy_task_assets h w :
  CopyTaskAssetsCommand.run h (copy_task_assets h) w =
  for_each (zip (CopyTaskAssetsCommand.source_paths h (files w))
                (CopyTaskAssetsCommand.relative_source_paths h (files w)))
           (CopyTaskAssetsCommand.stage_one
              (CopyTaskAssetsCommand.destination_dir_path (ext_staging_root h)))
           (mkWorld (files w)
              (trace w ++ [EvAnnounce (CopyTaskAssetsCommand.copying_message
                                         h (files w) (ext_staging_root h))])).
Proof. reflexivity. Qed.

Lemma rglob_not_a_directory fs root suffix :
  fs !! root ≠ Some Dir → Os.rglob fs root suffix = [].
Proof.
  intros Hroot. unfold Os.rglob.
  by destruct (fs !! root) as [[]|].
Qed.

(** C9: when the scan of the task directory finds no [*.xml] entry, the
    asset-staging step returns normally, leaves the files as they were and
    does nothing but announce an empty list: no directory is created,
    nothing is copied.  A task directory that does not exist (or is not a
    directory) gives exactly the same run. *)
Theorem C9_no_assets_is_a_silent_success (h : Host) (w : World) :
  (CopyTaskAssetsCommand.source_paths h (files w) = [] →
   CopyTaskAssetsCommand.run h (copy_task_assets h) w =
   (Return tt, mkWorld (files w) (trace w ++ [no_assets_announcement h])))
  ∧ (files w !! CopyTaskAssetsCommand.tasks_root h ≠ Some Dir →
     CopyTaskAssetsCommand.source_paths h (files w) = []
     ∧ CopyTaskAssetsCommand.run h (copy_task_assets h) w =
       (Return tt, mkWorld (files w) (trace w ++ [no_assets_announcement h]))).
Proof.
  assert (CopyTaskAssetsCommand.source_paths h (files w) = [] →
          CopyTaskAssetsCommand.run h (copy_task_assets h) w =
          (Return tt, mkWorld (files w) (trace w ++ [no_assets_announcement h])))
    as Hempty.
  { intros Hnone. rewrite run_copy_task_assets.
    unfold CopyTaskAssetsCommand.copying_message,
      CopyTaskAssetsCommand.relative_source_paths.
    rewrite Hnone. reflexivity. }
  split; [done|]. intros Hroot.
  assert (CopyTaskAssetsCommand.source_paths h (files w) = []) as Hnone
    by by apply rglob_not_a_directory.
  split; [done|]. by apply Hempty.
Qed.

Lemma C9_no_assets_is_a_silent_success_witness :
  (CopyTaskAssetsCommand.source_paths Sample.linux Sample.tree_without_xml = []
   ∧ CopyTaskAssetsCommand.run Sample.linux (copy_task_assets Sample.linux)
       (mkWorld Sample.tree_without_xml []) =
     (Return tt,
      mkWorld Sample.tree_without_xml [no_assets_announcement Sample.linux]))
  ∧ (Sample.tree_without_tasks !! CopyTaskAssetsCommand.tasks_root Sample.linux
       ≠ Some Dir
     ∧ CopyTaskAssetsCommand.run Sample.linux (copy_task_assets Sample.linux)
         (mkWorld Sample.tree_without_tasks []) =
       (Return tt,
        mkWorld Sample.tree_without_tasks [no_assets_announcement Sample.linux])).
Proof.
  split.
  - split; [by vm_compute|].
    apply (proj1 (C9_no_assets_is_a_silent_success Sample.linux
                    (mkWorld Sample.tree_without_xml []))).
    by vm_compute.
  - assert (Sample.tree_without_tasks
              !! CopyTaskAssetsCommand.tasks_root Sample.linux ≠ Some Dir)
      as Habsent by (by vm_compute).
    split; [exact Habsent|].
    exact (proj2 (proj2 (C9_no_assets_is_a_silent_success Sample.linux
                           (mkWorld Sample.tree_without_tasks [])) Habsent)).
Defined.

(** ** Generating the bindings *)

Lemma dirname_snoc (p : path) (c : string) : PathLib.dirname (p ++ [c]) = p.
Proof. unfold PathLib.dirname. by rewrite removelast_last. Qed.

Lemma proto_destination_dirname h :
  PathLib.dirname (proto_destination h) =
  py_staging_root h ++ ["mujoco_mpc"; "proto"].
Proof.
  unfold proto_destination.
  change ["mujoco_mpc"; "proto"; "agent.proto"]
    with (["mujoco_mpc"; "proto"] ++ ["agent.proto"]).
  by rewrite app_assoc, dirname_snoc.
Qed.

Lemma protoc_call_eq h :
  GenerateProtoGrpcCommand.protoc_argv (py_staging_root h) = protoc_call h.
Proof. reflexivity. Qed.

Lemma touch_call_eq h :
  GenerateProtoGrpcCommand.touch_argv (py_staging_root h) = touch_call h.
Proof.
  unfold GenerateProtoGrpcCommand.touch_argv, touch_call.
  change (GenerateProtoGrpcCommand.agent_proto_destination_path (py_staging_root h))
    with (proto_destination h).
  rewrite proto_destination_dirname. by rewrite <- app_assoc.
Qed.

(** The binding-generation step, evaluated. *)
Lemma run_generate_proto_grpc h w :
  GenerateProtoGrpcCommand.run h (generate_proto_grpc h) w =
  let t1 := trace w ++ [EvMkdir (py_staging_root h ++ ["mujoco_mpc"; "proto"])] in
  match Os.mkdir_parents (files w) (py_staging_root h ++ ["mujoco_mpc"; "proto"]) with
  | inl e => (Raise e, mkWorld (files w) t1)
  | inr fs1 =>
      let t2 := t1 ++ [EvCopy (proto_source h) (proto_destination h)] in
      match Os.shutil_copy fs1 (proto_source h) (proto_destination h) with
      | inl e => (Raise e, mkWorld fs1 t2)
      | inr fs2 =>
          let t3 := t2 ++ [EvSpawn (protoc_call h)] in
          match run_process h (protoc_call h) (cwd h) fs2 with
          | None => (Raise (DistutilsExecError (protoc_call h) None), mkWorld fs2 t3)
          | Some (status, fs3) =>
              if bool_decide (status = 0%Z) then
                let t4 := t3 ++ [EvSpawn (touch_call h)] in
                match run_process h (touch_call h) (cwd h) fs3 with
                | None =>
                    (Raise (DistutilsExecError (touch_call h) None), mkWorld fs3 t4)
                | Some (status', fs4) =>
                    (if bool_decide (status' = 0%Z) then Return tt
                     else Raise (DistutilsExecError (touch_call h) (Some status')),
                     mkWorld fs4 t4)
                end
              else
                (Raise (DistutilsExecError (protoc_call h) (Some status)),
                 mkWorld fs3 t3)
          end
      end
  end.
Proof.
  unfold GenerateProtoGrpcCommand.run, generate_proto_grpc,
    GenerateProtoGrpcCommand.finalize_options.
  rewrite run_bind, resolved_build_lib_finalized.
  cbn [build_lib GenerateProtoGrpcCommand.initialize_options].
  fold (py_staging_root h). rewrite protoc_call_eq, touch_call_eq.
  change (GenerateProtoGrpcCommand.agent_proto_destination_path (py_staging_root h))
    with (proto_destination h).
  fold (proto_source h). rewrite proto_destination_dirname.
  rewrite run_bind, run_mkdir. cbv zeta.
  destruct (Os.mkdir_parents _ _) as [e|fs1]; [done|].
  rewrite run_bind, run_copy. cbn [files trace].
  destruct (Os.shutil_copy _ _ _) as [e|fs2]; [done|].
  rewrite run_bind, run_spawn. cbn [files trace].
  destruct (run_process h (protoc_call h) _ _) as [[status fs3]|]; [|done].
  case_bool_decide; [|done].
  rewrite run_spawn. cbn [files trace].
  by destruct (run_process h (touch_call h) _ _) as [[status' fs4]|].
Qed.

Lemma shutil_copy_inr fs src dst fs' :
  Os.shutil_copy fs src dst = inr fs' →
  ∃ mode data,
    fs !! src = Some (File mode data)
    ∧ src ≠ Os.copy_target fs src dst
    ∧ fs !! Os.copy_target fs src dst ≠ Some Dir
    ∧ fs !! PathLib.dirname (Os.copy_target fs src dst) = Some Dir
    ∧ fs' = <[Os.copy_target fs src dst := File mode data]> fs.
Proof.
  unfold Os.shutil_copy. intros Hcopy.
  destruct (fs !! src) as [[mode data|]|]; [|done..].
  case_bool_decide; [done|].
  exists mode, data.
  destruct (fs !! Os.copy_target fs src dst) as [[]|] eqn:Htarget;
    [|done|];
    (destruct (fs !! PathLib.dirname (Os.copy_target fs src dst)) as [[]|];
     [done| |done]);
    by simplify_eq.
Qed.

Lemma resolve_rel (dir : path) (l : list string) :
  PathLib.resolve dir (PathLib.rel l) =
  fold_left PathLib.norm_step l (PathLib.normalize dir).
Proof. unfold PathLib.resolve, PathLib.normalize. simpl. by rewrite fold_left_app. Qed.

Lemma norm_step_up (acc : list string) :
  PathLib.norm_step acc ".." = removelast acc.
Proof. reflexivity. Qed.

Lemma norm_step_down (acc : list string) (c : string) :
  c ≠ ".." → PathLib.norm_step acc c = acc ++ [c].
Proof. intros Hc. unfold PathLib.norm_step. by rewrite bool_decide_eq_false_2. Qed.

(** [../grpc/agent.proto] is resolved next to the working directory. *)
Lemma proto_source_shape h :
  proto_source h =
  removelast (PathLib.normalize (cwd h)) ++ ["grpc"; "agent.proto"].
Proof.
  unfold proto_source, GenerateProtoGrpcCommand.agent_proto_source_path.
  rewrite resolve_rel. cbn [fold_left].
  rewrite norm_step_up, !norm_step_down by done. by rewrite <- app_assoc.
Qed.

Lemma proto_destination_is_not_source h :
  proto_destination h ≠ proto_source h.
Proof.
  rewrite proto_source_shape. unfold proto_destination.
  change ["mujoco_mpc"; "proto"; "agent.proto"]
    with (["mujoco_mpc"] ++ ["proto"; "agent.proto"]).
  rewrite app_assoc. intros Heq.
  by apply app_inj_2 in Heq as [_ ?].
Qed.

(** The trace of binding generation is an initial segment of the plan,
    and the whole plan when the step returns. *)
Lemma generate_proto_grpc_trace h w :
  ∃ evs,
    trace (GenerateProtoGrpcCommand.run h (generate_proto_grpc h) w).2
      = trace w ++ evs
    ∧ evs `prefix_of` generation_plan h
    ∧ ((GenerateProtoGrpcCommand.run h (generate_proto_grpc h) w).1 = Return tt →
       evs = generation_plan h).
Proof.
  rewrite run_generate_proto_grpc. cbv zeta. unfold generation_plan.
  destruct (Os.mkdir_parents _ _) as [e|fs1].
  { eexists [_]. split_and!; [done|by eexists|done]. }
  destruct (Os.shutil_copy _ _ _) as [e|fs2].
  { eexists [_; _]. split_and!; [by trace_norm|by eexists|done]. }
  destruct (run_process h (protoc_call h) _ _) as [[status fs3]|];
    [|eexists [_; _; _]; split_and!; [by trace_norm|by eexists|done]].
  case_bool_decide;
    [|eexists [_; _; _]; split_and!; [by trace_norm|by eexists|done]].
  destruct (run_process h (touch_call h) _ _) as [[status' fs4]|];
    eexists [_; _; _; _]; (split_and!; [by trace_norm|done|done]).
Qed.

(** C4: binding generation is copy-then-generate.  Its effects are, in
    this order and never in another: create the directory
    [<staging root>/mujoco_mpc/proto], copy the interface file to
    [<staging root>/mujoco_mpc/proto/agent.proto], run the compiler with
    [-I], [--python_out] and [--grpc_python_out] all set to the staging
    root and the relocated copy as its input, run [touch] on
    [<staging root>/mujoco_mpc/proto/__init__.py].  A run that fails stops
    somewhere along this list; a run that returns has performed all four.
    The compiler's input is never the original file, and when the compiler
    runs, the copy is in place with the content of the original. *)
Theorem C4_copy_then_generate (h : Host) (w : World) :
  let r := GenerateProtoGrpcCommand.run h (generate_proto_grpc h) w in
  (∃ evs, trace r.2 = trace w ++ evs
          ∧ evs `prefix_of` generation_plan h
          ∧ (r.1 = Return tt → evs = generation_plan h))
  ∧ proto_destination h ≠ proto_source h
  ∧ (r.1 = Return tt →
     ∃ fs1 fs2 fs3 mode data,
       Os.mkdir_parents (files w) (py_staging_root h ++ ["mujoco_mpc"; "proto"])
         = inr fs1
       ∧ Os.shutil_copy fs1 (proto_source h) (proto_destination h) = inr fs2
       ∧ fs1 !! proto_source h = Some (File mode data)
       ∧ fs2 !! Os.copy_target fs1 (proto_source h) (proto_destination h)
           = Some (File mode data)
       ∧ run_process h (protoc_call h) (cwd h) fs2 = Some (0%Z, fs3)
       ∧ run_process h (touch_call h) (cwd h) fs3 = Some (0%Z, files r.2)).
Proof.
  cbv zeta.
  split_and!; [apply generate_proto_grpc_trace
              |apply proto_destination_is_not_source|].
  rewrite run_generate_proto_grpc. cbv zeta.
  destruct (Os.mkdir_parents _ _) as [e|fs1]; [done|].
  destruct (Os.shutil_copy _ _ _) as [e|fs2] eqn:Hcopy; [done|].
  destruct (run_process h (protoc_call h) _ _) as [[status fs3]|] eqn:Hprotoc;
    [|done].
  case_bool_decide as Hstatus; [|done]. subst status.
  destruct (run_process h (touch_call h) _ _) as [[status' fs4]|] eqn:Htouch;
    [|done].
  case_bool_decide as Hstatus'; [|done]. subst status'. intros _.
  destruct (shutil_copy_inr _ _ _ _ Hcopy)
    as (mode & data & Hsrc & _ & _ & _ & ->).
  exists fs1, (<[Os.copy_target fs1 (proto_source h) (proto_destination h)
                 := File mode data]> fs1), fs3, mode, data.
  split_and!; [done..|by rewrite lookup_insert_eq|done|done].
Qed.

Lemma C4_copy_then_generate_witness :
  (GenerateProtoGrpcCommand.run Sample.linux (generate_proto_grpc Sample.linux)
     Sample.start).1 = Return tt
  ∧ ∃ evs,
      trace (GenerateProtoGrpcCommand.run Sample.linux
               (generate_proto_grpc Sample.linux) Sample.start).2
        = trace Sample.start ++ evs
      ∧ evs `prefix_of` generation_plan Sample.linux
      ∧ ((GenerateProtoGrpcCommand.run Sample.linux
            (generate_proto_grpc Sample.linux) Sample.start).1 = Return tt →
         evs = generation_plan Sample.linux).
Proof.
  split; [by vm_compute|].
  exact (proj1 (C4_copy_then_generate Sample.linux Sample.start)).
Defined.

(** ** Soundness of the executable checks *)

Lemma is_file_b_sound fs p : is_file_b fs p = true ↔ is_file fs p.
Proof.
  unfold is_file_b, is_file. split.
  - destruct (fs !! p) as [[mode data|]|]; [by eauto|done..].
  - by intros (mode & data & ->).
Qed.

Lemma is_dir_b_sound fs p : is_dir_b fs p = true ↔ fs !! p = Some Dir.
Proof. unfold is_dir_b. by rewrite bool_decide_eq_true. Qed.

Lemma well_formed_b_sound fs : well_formed_b fs = true → well_formed fs.
Proof.
  unfold well_formed_b. rewrite forallb_forall. intros Hcheck p c [v Hv].
  specialize (Hcheck (p ++ [c])).
  destruct (p ++ [c]) as [|c' p'] eqn:Hp; [by destruct p|].
  rewrite <- Hp, dirname_snoc in Hcheck.
  apply is_dir_b_sound, Hcheck, list_elem_of_In, list_elem_of_fmap.
  exists (p ++ [c], v). split; [done|]. apply elem_of_map_to_list. by rewrite Hp.
Qed.

Lemma apart_b_sound p q : apart_b p q = true → apart p q.
Proof.
  unfold apart_b, apart.
  rewrite andb_true_iff, !negb_true_iff, !bool_decide_eq_false. done.
Qed.

Lemma writable_b_sound fs d : writable_b fs d = true → writable fs d.
Proof.
  unfold writable_b, writable.
  rewrite andb_true_iff, negb_true_iff, forallb_forall.
  intros [Hdir Hway]. split.
  - intros Hd%is_dir_b_sound. by rewrite Hd in Hdir.
  - intros q Hq%elem_of_ancestors%list_elem_of_In Hfile%is_file_b_sound.
    apply Hway in Hq. by rewrite Hfile in Hq.
Qed.

Lemma in_place_b_sound fs s d : in_place_b fs s d = true → in_place fs s d.
Proof.
  unfold in_place_b, in_place.
  rewrite !andb_true_iff, bool_decide_eq_true, forallb_forall.
  intros [[Hfile Hcopy] Hdirs]. split_and!; [by apply is_file_b_sound|done|].
  intros q Hq%elem_of_ancestors%list_elem_of_In. by apply is_dir_b_sound, Hdirs.
Qed.

Lemma assets_stageable_b_sound h fs :
  assets_stageable_b h fs = true → assets_stageable h fs.
Proof.
  unfold assets_stageable_b, assets_stageable.
  rewrite !andb_true_iff, forallb_forall.
  intros [[Hwf Hapart] Hsources].
  split_and!; [by apply well_formed_b_sound|by apply apart_b_sound|].
  apply Forall_forall. intros s Hs%list_elem_of_In.
  apply Hsources, andb_true_iff in Hs as [Hfile Hwritable].
  split; [by apply is_file_b_sound|by apply writable_b_sound].
Qed.

Lemma binary_stageable_b_sound h fs :
  binary_stageable_b h fs = true → binary_stageable h fs.
Proof.
  unfold binary_stageable_b, binary_stageable. rewrite andb_true_iff.
  intros [Hfile Hwritable].
  split; [by apply is_file_b_sound|by apply writable_b_sound].
Qed.

(** ** The staging loop *)

(** The loop of the asset-staging step, over any task root [T], staging
    directory [D] and set of sources [S] below [T] none of which lies
    inside another. *)
Section StagingLoop.

Context (T D : path) (fs0 : filesystem) (S : list path).

Local Notation "'dest' s" := (D ++ PathLib.relative_to T s)
  (at level 10, s at level 9, only parsing).
Local Notation "'plan' l" :=
  (s ← l; [EvMkdir (PathLib.dirname (dest s)); EvCopy s (dest s)])
  (at level 10, l at level 9, only parsing).
Local Notation "'loop' l" :=
  (for_each (zip l (PathLib.relative_to T <$> l))
            (CopyTaskAssetsCommand.stage_one D))
  (at level 10, l at level 9, only parsing).

Hypothesis Hapart : apart T D.
Hypothesis Hbelow : ∀ s, s ∈ S → T `prefix_of` s ∧ s ≠ T.
Hypothesis Hfree : ∀ s s', s ∈ S → s' ∈ S → s' `prefix_of` s → s' = s.

Lemma source_split s :
  s ∈ S → ∃ r, r ≠ [] ∧ s = T ++ r ∧ PathLib.relative_to T s = r.
Proof.
  intros [[r ->] Hne]%Hbelow. exists r. split_and!; [|done|].
  - intros ->. by rewrite app_nil_r in Hne.
  - unfold PathLib.relative_to. by rewrite drop_app_length.
Qed.

Lemma dest_prefix_inv s s' :
  s ∈ S → s' ∈ S → dest s' `prefix_of` dest s → s' = s.
Proof.
  intros Hs Hs' Hpre.
  destruct (source_split s Hs) as (r & _ & Hsr & Hr).
  destruct (source_split s' Hs') as (r' & _ & Hsr' & Hr').
  rewrite Hr, Hr' in Hpre. apply prefix_app_inv in Hpre.
  apply Hfree; [done..|]. rewrite Hsr, Hsr'. by apply prefix_app.
Qed.

Lemma dest_dirname_prefix_inv s s' :
  s ∈ S → s' ∈ S → ¬ dest s' `prefix_of` PathLib.dirname (dest s).
Proof.
  intros Hs Hs' Hpre.
  assert (s' = s) as -> by by apply dest_prefix_inv, prefix_of_dirname.
  destruct (source_split s Hs) as (r & Hne & _ & Hr).
  apply dirname_prefix_strict in Hpre; [done|].
  rewrite Hr. intros [_ ?]%app_eq_nil. done.
Qed.

Lemma under_task_root_not_on_the_way s p :
  s ∈ S → T `prefix_of` p → ¬ p `prefix_of` dest s.
Proof.
  intros Hs HT Hp. destruct Hapart as [HTD HDT].
  assert (T `prefix_of` dest s) as HT' by by etrans.
  assert (D `prefix_of` dest s) as HD by by apply prefix_app_r.
  by destruct (prefix_weak_total _ _ _ HT' HD).
Qed.

Lemma source_is_not_dest s s' : s ∈ S → s' ∈ S → s ≠ dest s'.
Proof.
  intros Hs Hs' Heq. apply (under_task_root_not_on_the_way s' s Hs').
  - by apply Hbelow.
  - by rewrite Heq.
Qed.

Local Notation "'invariant' fs" := (staging_invariant T D fs0 S fs)
  (at level 10, fs at level 9, only parsing).

Lemma invariant_source fs s :
  invariant fs → s ∈ S → fs !! s = fs0 !! s.
Proof.
  intros [_ Hframe] Hs. apply Hframe. intros s' Hs'.
  apply under_task_root_not_on_the_way; [done|]. by apply Hbelow.
Qed.

(** One round: the directories are created, the file is copied, the
    invariant holds again, the copy is in place and so are the earlier
    ones. *)
Lemma stage_round fs s mode data :
  invariant fs → s ∈ S → fs0 !! s = Some (File mode data) →
  ∃ fs1,
    Os.mkdir_parents fs (PathLib.dirname (dest s)) = inr fs1
    ∧ Os.shutil_copy fs1 s (dest s) = inr (<[dest s := File mode data]> fs1)
    ∧ invariant (<[dest s := File mode data]> fs1)
    ∧ in_place (<[dest s := File mode data]> fs1) s (dest s)
    ∧ (∀ s', s' ∈ S → in_place fs s' (dest s') →
             in_place (<[dest s := File mode data]> fs1) s' (dest s')).
Proof.
  intros Hinv Hs Hfile0.
  assert (fs !! s = Some (File mode data)) as Hfile
    by by rewrite (invariant_source fs s Hinv Hs).
  destruct Hinv as [Hwritable Hframe].
  destruct (Hwritable s Hs) as [Hnodir Hway].
  destruct (mkdir_parents_succeeds fs (PathLib.dirname (dest s)) Hway)
    as [fs1 Hmkdir].
  destruct (mkdir_parents_inr _ _ _ Hmkdir) as (Hdirs & Hkeep & Hout & Hmono).
  assert (∀ s', s' ∈ S → fs1 !! s' = fs !! s') as Hsources.
  { intros s' Hs'. apply Hout. intros Hpre%prefix_of_dirname.
    by apply (under_task_root_not_on_the_way s s' Hs); [apply Hbelow|]. }
  assert (∀ s', s' ∈ S → fs1 !! dest s' = fs !! dest s') as Hdests.
  { intros s' Hs'. apply Hout. by apply dest_dirname_prefix_inv. }
  exists fs1. split_and!; [done| | | |].
  - apply shutil_copy_succeeds.
    + by rewrite Hsources.
    + by apply source_is_not_dest.
    + by rewrite Hdests.
    + by apply Hdirs.
  - split.
    + intros s' Hs'. destruct (Hwritable s' Hs') as [Hnodir' Hway']. split.
      * destruct (decide (dest s' = dest s)) as [->|Hne].
        { by rewrite lookup_insert_eq. }
        rewrite lookup_insert_ne by done. by rewrite Hdests.
      * intros q Hq (m & c & Hfileq).
        destruct (decide (q = dest s)) as [->|Hne].
        { by apply (dest_dirname_prefix_inv s' s). }
        rewrite lookup_insert_ne in Hfileq by done.
        destruct (Hmono q) as [Heq|Heq]; rewrite Heq in Hfileq; [|done].
        apply (Hway' q Hq). by do 2 eexists.
    + intros p Hp. rewrite lookup_insert_ne by (intros <-; by apply (Hp s)).
      rewrite Hout; [by apply Hframe|].
      intros Hpre%prefix_of_dirname. by apply (Hp s).
  - split_and!.
    + exists mode, data. rewrite lookup_insert_ne by by apply not_eq_sym, source_is_not_dest.
      by rewrite Hsources.
    + rewrite lookup_insert_eq.
      rewrite lookup_insert_ne by by apply not_eq_sym, source_is_not_dest.
      by rewrite Hsources.
    + intros q Hq. rewrite lookup_insert_ne; [by apply Hdirs|].
      intros <-. by apply (dest_dirname_prefix_inv s s).
  - intros s' Hs' ((m & c & Hfile') & Hcopy' & Hdirs').
    assert (<[dest s := File mode data]> fs1 !! s' = fs !! s') as Hs'eq.
    { rewrite lookup_insert_ne by by apply not_eq_sym, source_is_not_dest.
      by apply Hsources. }
    split_and!.
    + exists m, c. by rewrite Hs'eq.
    + rewrite Hs'eq. destruct (decide (dest s' = dest s)) as [Heq|Hne].
      * assert (s' = s) as -> by (apply dest_prefix_inv; [done..|by rewrite Heq]).
        by rewrite lookup_insert_eq.
      * rewrite lookup_insert_ne by done. by rewrite Hdests.
    + intros q Hq. rewrite lookup_insert_ne.
      * rewrite Hkeep; [by apply Hdirs'|]. by rewrite Hdirs'.
      * intros <-. by apply (dest_dirname_prefix_inv s' s).
Qed.

(** The whole loop over sources in [S] that are regular files. *)
Lemma stage_loop l w :
  l ⊆ S → Forall (is_file fs0) l → invariant (files w) →
  ∃ fs',
    loop l w = (Return tt, mkWorld fs' (trace w ++ plan l))
    ∧ invariant fs'
    ∧ (∀ s, s ∈ l → in_place fs' s (dest s))
    ∧ (∀ s, s ∈ S → in_place (files w) s (dest s) → in_place fs' s (dest s)).
Proof.
  revert w. induction l as [|s l IH]; intros w Hsub Hfiles Hinv.
  { exists (files w). destruct w. simpl. rewrite app_nil_r.
    split_and!; [done..|by intros s ?%elem_of_nil|done]. }
  apply Forall_cons in Hfiles as [(mode & data & Hfile) Hfiles].
  assert (s ∈ S) as Hs by (apply Hsub; by left).
  assert (l ⊆ S) as Hsub' by (intros s' Hs'; apply Hsub; by right).
  destruct (stage_round (files w) s mode data Hinv Hs Hfile)
    as (fs1 & Hmkdir & Hcopy & Hinv' & Hplace & Hkeep).
  destruct (IH (mkWorld (<[dest s := File mode data]> fs1)
                  ((trace w ++ [EvMkdir (PathLib.dirname (dest s))])
                     ++ [EvCopy s (dest s)])) Hsub' Hfiles Hinv')
    as (fs' & Hloop & Hinv'' & Hplaces & Hkeep').
  exists fs'. split_and!; [|done| |].
  - cbn [zip zip_with fmap list_fmap for_each].
    rewrite run_bind. unfold CopyTaskAssetsCommand.stage_one at 1.
    cbn [fst snd]. rewrite run_bind, run_mkdir, Hmkdir, run_copy.
    cbn [files trace]. rewrite Hcopy, Hloop, bind_cons. cbn [trace].
    by trace_norm.
  - intros s' [->|Hs']%elem_of_cons; [|by apply Hplaces].
    by apply Hkeep'.
  - intros s' Hs' Hplace'. apply Hkeep'; [done|]. by apply Hkeep.
Qed.

(** Over sources whose copies are already in place the loop changes
    nothing. *)
Lemma stage_loop_in_place l w :
  l ⊆ S → (∀ s, s ∈ l → in_place (files w) s (dest s)) →
  loop l w = (Return tt, mkWorld (files w) (trace w ++ plan l)).
Proof.
  revert w. induction l as [|s l IH]; intros w Hsub Hplaces.
  { destruct w. simpl. by rewrite app_nil_r. }
  assert (s ∈ S) as Hs by (apply Hsub; by left).
  destruct (Hplaces s) as ((mode & data & Hfile) & Hcopy & Hdirs); [by left|].
  cbn [zip zip_with fmap list_fmap for_each].
  rewrite run_bind. unfold CopyTaskAssetsCommand.stage_one at 1.
  cbn [fst snd]. rewrite run_bind, run_mkdir, mkdir_parents_noop by done.
  rewrite run_copy. cbn [files trace].
  rewrite (shutil_copy_succeeds _ _ _ mode data);
    [|done|by apply source_is_not_dest|by rewrite Hcopy, Hfile|by apply Hdirs].
  rewrite insert_id by by rewrite Hcopy.
  rewrite IH; cbn [files trace].
  - rewrite bind_cons. by trace_norm.
  - intros s' Hs'. apply Hsub. by right.
  - intros s' Hs'. apply Hplaces. by right.
Qed.

End StagingLoop.

(** The trace of the loop, whatever the files: for each source in turn
    the directory of its destination, then the copy; a failing round ends
    the list. *)
Lemma stage_loop_trace (T D : path) (l : list path) (w : World) o w' :
  for_each (zip l (PathLib.relative_to T <$> l))
           (CopyTaskAssetsCommand.stage_one D) w = (o, w') →
  ∃ evs,
    trace w' = trace w ++ evs
    ∧ evs `prefix_of`
        (s ← l; [ EvMkdir (PathLib.dirname (D ++ PathLib.relative_to T s));
                  EvCopy s (D ++ PathLib.relative_to T s) ])
    ∧ (o = Return tt →
       evs = s ← l; [ EvMkdir (PathLib.dirname (D ++ PathLib.relative_to T s));
                      EvCopy s (D ++ PathLib.relative_to T s) ]).
Proof.
  revert w. induction l as [|s l IH]; intros w.
  { intros [= <- <-]. exists []. by rewrite app_nil_r. }
  cbn [zip zip_with fmap list_fmap for_each]. rewrite bind_cons.
  rewrite run_bind. unfold CopyTaskAssetsCommand.stage_one at 1.
  cbn [fst snd]. rewrite run_bind, run_mkdir.
  destruct (Os.mkdir_parents _ _) as [e|fs1].
  { intros [= <- <-]. eexists [_]. split_and!; [done| |done].
    cbn [app]. apply prefix_cons, prefix_nil. }
  rewrite run_copy. cbn [files trace].
  destruct (Os.shutil_copy _ _ _) as [e|fs2].
  { intros [= <- <-]. eexists [_; _]. split_and!; [by trace_norm| |done].
    cbn [app]. apply prefix_cons, prefix_cons, prefix_nil. }
  intros (evs & Ht & Hpre & Hall)%IH.
  eexists (_ :: _ :: evs). split_and!.
  - rewrite Ht. cbn [trace]. by trace_norm.
  - cbn [app]. by apply prefix_cons, prefix_cons.
  - intros Hr. cbn [app]. by rewrite (Hall Hr).
Qed.

Lemma sources_below h fs s :
  s ∈ CopyTaskAssetsCommand.source_paths h fs →
  CopyTaskAssetsCommand.tasks_root h `prefix_of` s
  ∧ s ≠ CopyTaskAssetsCommand.tasks_root h.
Proof. by intros (_ & _ & ? & ? & _)%elem_of_rglob. Qed.

Lemma sources_not_nested h fs s s' :
  well_formed fs →
  Forall (is_file fs) (CopyTaskAssetsCommand.source_paths h fs) →
  s ∈ CopyTaskAssetsCommand.source_paths h fs →
  s' ∈ CopyTaskAssetsCommand.source_paths h fs →
  s' `prefix_of` s → s' = s.
Proof.
  intros Hwf Hfiles Hs Hs' Hpre.
  destruct (decide (s' = s)) as [|Hne]; [done|].
  rewrite Forall_forall in Hfiles.
  destruct (Hfiles s' Hs') as (mode & data & Hfile).
  apply elem_of_rglob in Hs as (_ & Hexists & _).
  by rewrite (well_formed_prefix fs s s' Hwf Hexists Hpre Hne) in Hfile.
Qed.

(** The scan reads nothing but the task tree. *)
Lemma source_paths_agree h fs fs' s :
  (∀ p, CopyTaskAssetsCommand.tasks_root h `prefix_of` p → fs' !! p = fs !! p) →
  s ∈ CopyTaskAssetsCommand.source_paths h fs' ↔
  s ∈ CopyTaskAssetsCommand.source_paths h fs.
Proof.
  intros Hagree. unfold CopyTaskAssetsCommand.source_paths.
  rewrite !elem_of_rglob. rewrite (Hagree (CopyTaskAssetsCommand.tasks_root h)) by done.
  split; intros (? & ? & Hpre & ? & ?); split_and!; try done.
  - by rewrite <- Hagree.
  - by rewrite Hagree.
Qed.

Lemma asset_destination_split h fs s :
  s ∈ CopyTaskAssetsCommand.source_paths h fs →
  ∃ rel, rel ≠ []
         ∧ s = CopyTaskAssetsCommand.tasks_root h ++ rel
         ∧ asset_destination h s =
           ext_staging_root h ++ ["mujoco_mpc"; "mjpc"; "tasks"] ++ rel.
Proof.
  intros Hs.
  destruct (source_split (CopyTaskAssetsCommand.tasks_root h)
              (CopyTaskAssetsCommand.source_paths h fs) (sources_below h fs) s Hs)
    as (rel & Hne & Heq & Hrel).
  exists rel. split_and!; [done..|].
  unfold asset_destination, CopyTaskAssetsCommand.destination_dir_path.
  by rewrite Hrel, <- app_assoc.
Qed.

(** A first run of the asset-staging step on a tree where it can run. *)
Lemma copy_task_assets_stages h w :
  assets_stageable h (files w) →
  ∃ fs',
    CopyTaskAssetsCommand.run h (copy_task_assets h) w =
    (Return tt,
     mkWorld fs'
       (trace w ++
        EvAnnounce (CopyTaskAssetsCommand.copying_message h (files w)
                      (ext_staging_root h))
        :: staging_plan h (CopyTaskAssetsCommand.source_paths h (files w))))
    ∧ (∀ s, s ∈ CopyTaskAssetsCommand.source_paths h (files w) →
            in_place fs' s (asset_destination h s))
    ∧ (∀ p, CopyTaskAssetsCommand.tasks_root h `prefix_of` p →
            fs' !! p = files w !! p).
Proof.
  intros (Hwf & Hapart & Hsources).
  assert (Forall (is_file (files w)) (CopyTaskAssetsCommand.source_paths h (files w)))
    as Hfiles by (eapply Forall_impl; [done|]; by intros s [? _]).
  rewrite Forall_forall in Hsources.
  pose proof (sources_below h (files w)) as Hbelow.
  pose proof (λ s s', sources_not_nested h (files w) s s' Hwf Hfiles) as Hfree.
  destruct (stage_loop _ _ (files w) _ Hapart Hbelow Hfree
              (CopyTaskAssetsCommand.source_paths h (files w))
              (mkWorld (files w)
                 (trace w ++ [EvAnnounce (CopyTaskAssetsCommand.copying_message
                                            h (files w) (ext_staging_root h))])))
    as (fs' & Hloop & [_ Hframe] & Hplaces & _); [done|done| |].
  { split; [|done]. intros s Hs. by apply Hsources. }
  exists fs'. split_and!.
  - rewrite run_copy_task_assets.
    unfold CopyTaskAssetsCommand.relative_source_paths. rewrite Hloop.
    cbn [trace]. unfold staging_plan, asset_destination. by trace_norm.
  - done.
  - intros p Hp. apply Hframe. intros s Hs.
    by apply (under_task_root_not_on_the_way _ _
                (CopyTaskAssetsCommand.source_paths h (files w)) Hapart).
Qed.

(** A run of the asset-staging step on a tree where every copy is in
    place changes no file. *)
Lemma copy_task_assets_in_place h w :
  apart (CopyTaskAssetsCommand.tasks_root h)
        (CopyTaskAssetsCommand.destination_dir_path (ext_staging_root h)) →
  (∀ s, s ∈ CopyTaskAssetsCommand.source_paths h (files w) →
        in_place (files w) s (asset_destination h s)) →
  CopyTaskAssetsCommand.run h (copy_task_assets h) w =
  (Return tt,
   mkWorld (files w)
     (trace w ++
      EvAnnounce (CopyTaskAssetsCommand.copying_message h (files w)
                    (ext_staging_root h))
      :: staging_plan h (CopyTaskAssetsCommand.source_paths h (files w)))).
Proof.
  intros Hapart Hplaces. rewrite run_copy_task_assets.
  unfold CopyTaskAssetsCommand.relative_source_paths.
  rewrite (stage_loop_in_place _ _ _ Hapart (sources_below h (files w))) by done.
  cbn [files trace]. unfold staging_plan, asset_destination. by trace_norm.
Qed.



(** ** Staging the binary, when it is there *)

Lemma run_copy_agent_service_binary h w :
  CopyAgentServiceBinaryCommand.run h (copy_agent_service_binary h) w =
  if Os.path_exists (files w) (agent_service_source h) then
    (mkdir (PathLib.dirname (agent_service_destination h));;
     copy (agent_service_source h) (agent_service_destination h))
      (mkWorld (files w)
         (trace w ++
          [ EvAnnounce ("source_path.resolve()="
                        +:+ PathLib.repr (PathLib.str (agent_service_source h)));
            EvAnnounce ("destination_path.resolve()="
                        +:+ PathLib.repr
                              (PathLib.str (agent_service_destination h))) ]))
  else (Raise (ValueError CopyAgentServiceBinaryCommand.missing_binary_message), w).
Proof.
  unfold CopyAgentServiceBinaryCommand.run. rewrite run_get_files.
  fold (agent_service_source h).
  destruct (Os.path_exists _ _); [|done]. cbn [negb].
  unfold copy_agent_service_binary,
    CopyAgentServiceBinaryCommand.finalize_options.
  rewrite run_bind, resolved_build_lib_finalized.
  cbn [build_lib CopyAgentServiceBinaryCommand.initialize_options].
  fold (py_staging_root h). fold (agent_service_destination h).
  rewrite run_bind. unfold announce at 1. rewrite run_emit.
  rewrite run_bind. unfold announce at 1. rewrite run_emit.
  cbn [files trace]. by trace_norm.
Qed.

(** [../build/bin/agent_service] is resolved next to the working
    directory, and is never its own destination. *)
Lemma agent_service_source_shape h :
  agent_service_source h =
  removelast (PathLib.normalize (cwd h)) ++ ["build"; "bin"; "agent_service"].
Proof.
  unfold agent_service_source, CopyAgentServiceBinaryCommand.source_path.
  rewrite resolve_rel. cbn [fold_left].
  rewrite norm_step_up, !norm_step_down by done. by rewrite <- !app_assoc.
Qed.

Lemma agent_service_source_is_not_destination h :
  agent_service_source h ≠ agent_service_destination h.
Proof.
  rewrite agent_service_source_shape.
  unfold agent_service_destination, CopyAgentServiceBinaryCommand.destination_path.
  change ["build"; "bin"; "agent_service"]
    with (["build"] ++ ["bin"; "agent_service"]).
  change ["mujoco_mpc"; "mjpc"; "agent_service"]
    with (["mujoco_mpc"] ++ ["mjpc"; "agent_service"]).
  rewrite !app_assoc. intros Heq.
  by apply app_inj_2 in Heq as [_ ?].
Qed.

Lemma agent_service_destination_dirname h :
  PathLib.dirname (agent_service_destination h) =
  py_staging_root h ++ ["mujoco_mpc"; "mjpc"].
Proof.
  unfold agent_service_destination, CopyAgentServiceBinaryCommand.destination_path.
  change ["mujoco_mpc"; "mjpc"; "agent_service"]
    with (["mujoco_mpc"; "mjpc"] ++ ["agent_service"]).
  by rewrite app_assoc, dirname_snoc.
Qed.

Lemma agent_service_destination_not_on_its_way h :
  ¬ agent_service_destination h
      `prefix_of` PathLib.dirname (agent_service_destination h).
Proof.
  intros Hpre. eapply dirname_prefix_strict; [|done|done].
  unfold agent_service_destination, CopyAgentServiceBinaryCommand.destination_path.
  intros [_ ?]%app_eq_nil. done.
Qed.

(** A run on a tree where the binary is already in place changes no
    file. *)
Lemma copy_agent_service_binary_in_place h w :
  in_place (files w) (agent_service_source h) (agent_service_destination h) →
  CopyAgentServiceBinaryCommand.run h (copy_agent_service_binary h) w =
  (Return tt, mkWorld (files w) (trace w ++ binary_plan h)).
Proof.
  intros ((mode & data & Hfile) & Hcopy & Hdirs).
  rewrite run_copy_agent_service_binary. unfold Os.path_exists.
  rewrite bool_decide_eq_true_2 by by rewrite Hfile.
  rewrite run_bind, run_mkdir. cbn [files trace].
  rewrite mkdir_parents_noop by done.
  rewrite run_copy. cbn [files trace].
  rewrite (shutil_copy_succeeds _ _ _ mode data);
    [|done|apply agent_service_source_is_not_destination
     |by rewrite Hcopy, Hfile|by apply Hdirs].
  rewrite insert_id by by rewrite Hcopy.
  unfold binary_plan. by trace_norm.
Qed.

(** A first run on a tree where the binary is built and its destination
    is writable puts it in place. *)
Lemma copy_agent_service_binary_stages h w :
  binary_stageable h (files w) →
  ∃ fs',
    CopyAgentServiceBinaryCommand.run h (copy_agent_service_binary h) w =
    (Return tt, mkWorld fs' (trace w ++ binary_plan h))
    ∧ in_place fs' (agent_service_source h) (agent_service_destination h)
    ∧ fs' !! agent_service_source h = files w !! agent_service_source h.
Proof.
  intros [(mode & data & Hfile) [Hnodir Hway]].
  rewrite run_copy_agent_service_binary. unfold Os.path_exists.
  rewrite bool_decide_eq_true_2 by by rewrite Hfile.
  destruct (mkdir_parents_succeeds _ _ Hway) as [fs1 Hmkdir].
  destruct (mkdir_parents_inr _ _ _ Hmkdir) as (Hdirs & Hkeep & Hout & _).
  assert (fs1 !! agent_service_source h = Some (File mode data)) as Hfile1.
  { rewrite Hkeep; [done|by rewrite Hfile]. }
  assert (fs1 !! agent_service_destination h ≠ Some Dir) as Hnodir1.
  { rewrite Hout; [done|apply agent_service_destination_not_on_its_way]. }
  pose proof (agent_service_source_is_not_destination h) as Hne.
  exists (<[agent_service_destination h := File mode data]> fs1).
  split_and!.
  - rewrite run_bind, run_mkdir. cbn [files trace]. rewrite Hmkdir.
    rewrite run_copy. cbn [files trace].
    rewrite (shutil_copy_succeeds _ _ _ mode data); [|done..|by apply Hdirs].
    unfold binary_plan. by trace_norm.
  - split_and!.
    + exists mode, data. by rewrite lookup_insert_ne.
    + rewrite lookup_insert_eq. by rewrite lookup_insert_ne.
    + intros q Hq. rewrite lookup_insert_ne; [by apply Hdirs|].
      intros <-. by apply (agent_service_destination_not_on_its_way h).
  - rewrite lookup_insert_ne by done. by rewrite Hfile1.
Qed.

(** ** The order of the steps *)

Lemma generate_proto_grpc_quiet h :
  emits (λ e, is_marker e = false)
        (GenerateProtoGrpcCommand.run h (generate_proto_grpc h)).
Proof.
  intros w. destruct (generate_proto_grpc_trace h w) as (evs & Ht & [rest Hplan] & _).
  exists evs. split; [done|].
  assert (Forall (λ e, is_marker e = false) (generation_plan h)) as Hquiet
    by (by repeat constructor).
  rewrite Hplan in Hquiet. by apply Forall_app in Hquiet as [? _].
Qed.

(** A step whose body emits no marker contributes its own two markers
    when it returns, and only the first when it raises. *)
Lemma step_markers name body w :
  emits (λ e, is_marker e = false) body →
  ∃ evs,
    trace (step name body w).2 = trace w ++ evs
    ∧ (((step name body w).1 = Return tt
        ∧ markers evs = [EvBegin name; EvEnd name])
       ∨ ((∃ e, (step name body w).1 = Raise e)
          ∧ markers evs = [EvBegin name])).
Proof.
  intros Hbody. rewrite run_step.
  destruct (Hbody (mkWorld (files w) (trace w ++ [EvBegin name])))
    as (evs & Ht & Hquiet%markers_quiet).
  destruct (body _) as [[[]|e] w1]; cbn [snd fst trace] in *.
  - exists (EvBegin name :: evs ++ [EvEnd name]). split.
    + rewrite Ht. by trace_norm.
    + left. split; [done|].
      change (EvBegin name :: evs ++ [EvEnd name])
        with ([EvBegin name] ++ evs ++ [EvEnd name]).
      by rewrite !markers_app, Hquiet.
  - exists (EvBegin name :: evs). split.
    + rewrite Ht. by trace_norm.
    + right. split; [by eexists|].
      change (EvBegin name :: evs) with ([EvBegin name] ++ evs).
      by rewrite markers_app, Hquiet.
Qed.

Lemma super_run_quiet h :
  emits (λ e, is_marker e = false) (BuildPyCommand.super_run h).
Proof. intros w. exists []. by rewrite super_run_silent, app_nil_r. Qed.

(** The boundaries of the three steps alone: they follow one another and
    never overlap, and a run that raises stops inside one step. *)
Lemma build_py_step_boundaries (h : Host) (w : World) :
  let r := BuildPyCommand.run h w in
  ∃ evs,
    trace r.2 = trace w ++ evs
    ∧ markers evs `prefix_of` build_py_plan
    ∧ ((r.1 = Return tt ∧ markers evs = build_py_plan)
       ∨ ((∃ e, r.1 = Raise e)
          ∧ (markers evs = [EvBegin "generate_proto_grpc"]
             ∨ markers evs =
                 [EvBegin "generate_proto_grpc"; EvEnd "generate_proto_grpc";
                  EvBegin "copy_task_assets"]
             ∨ markers evs =
                 [EvBegin "generate_proto_grpc"; EvEnd "generate_proto_grpc";
                  EvBegin "copy_task_assets"; EvEnd "copy_task_assets";
                  EvBegin "build_py.run"]))).
Proof.
  cbv zeta. unfold BuildPyCommand.run.
  rewrite run_command_generate_proto_grpc, run_command_copy_task_assets.
  rewrite run_bind.
  destruct (step_markers "generate_proto_grpc" _ w (generate_proto_grpc_quiet h))
    as (evs1 & Ht1 & [[Hr1 Hm1]|[[e1 Hr1] Hm1]]);
    destruct (step "generate_proto_grpc" _ w) as [[[]|e] w1];
    cbn [fst snd] in *; try done.
  2:{ exists evs1. rewrite Hm1. split_and!; [done|by eexists|].
      right. split; [by eexists|]. by left. }
  rewrite run_bind.
  destruct (step_markers "copy_task_assets" _ w1
              (copy_task_assets_quiet h (copy_task_assets h)))
    as (evs2 & Ht2 & [[Hr2 Hm2]|[[e2 Hr2] Hm2]]);
    destruct (step "copy_task_assets" _ w1) as [[[]|e] w2];
    cbn [fst snd] in *; try done.
  2:{ exists (evs1 ++ evs2). rewrite markers_app, Hm1, Hm2, Ht2, Ht1.
      split_and!; [by trace_norm|by eexists|].
      right. split; [by eexists|]. right. by left. }
  destruct (step_markers "build_py.run" _ w2 (super_run_quiet h))
    as (evs3 & Ht3 & Hcases).
  exists (evs1 ++ evs2 ++ evs3). rewrite !markers_app, Hm1, Hm2, Ht3, Ht2, Ht1.
  split; [by trace_norm|].
  destruct Hcases as [[Hr3 Hm3]|[Hr3 Hm3]]; rewrite Hm3.
  - split; [done|]. by left.
  - split; [by eexists|]. right. split; [done|]. right. by right.
Qed.

(** The trace of the asset-staging step is an initial segment of its
    plan for the file system it starts on, and the whole plan when the
    step returns. *)
Lemma copy_task_assets_trace h w :
  ∃ evs,
    trace (CopyTaskAssetsCommand.run h (copy_task_assets h) w).2
      = trace w ++ evs
    ∧ evs `prefix_of` assets_plan h (files w)
    ∧ ((CopyTaskAssetsCommand.run h (copy_task_assets h) w).1 = Return tt →
       evs = assets_plan h (files w)).
Proof.
  rewrite run_copy_task_assets.
  unfold CopyTaskAssetsCommand.relative_source_paths.
  destruct (for_each _ _ _) as [o w'] eqn:Hloop.
  apply stage_loop_trace in Hloop as (evs & Ht & Hpre & Hall).
  cbn [fst snd trace] in *.
  exists (EvAnnounce (CopyTaskAssetsCommand.copying_message h (files w)
                        (ext_staging_root h)) :: evs).
  unfold assets_plan. split_and!.
  - rewrite Ht. by trace_norm.
  - by apply prefix_cons.
  - intros Hr. by rewrite (Hall Hr).
Qed.

(** The inherited step changes the files and nothing else, and raises
    when the inherited code does. *)
Lemma run_super_run h w :
  BuildPyCommand.super_run h w =
  match (default_build_py h (files w)).1 with
  | Some msg =>
      (Raise (ForeignError msg),
       mkWorld (default_build_py h (files w)).2 (trace w))
  | None => (Return tt, mkWorld (default_build_py h (files w)).2 (trace w))
  end.
Proof.
  unfold BuildPyCommand.super_run. rewrite run_get_files, run_bind.
  cbn. by destruct (default_build_py h (files w)).1.
Qed.

(** C3: every run of the [build_py] hook does the work of its three steps
    one after the other.  Binding generation runs first, on the world the
    hook starts in; asset staging runs on the world generation left, and
    only when generation returned; the inherited packaging step runs on
    the files asset staging left, and only when asset staging returned.
    So the effects of the run are, in this order: those of binding
    generation (directory, copy, compiler, [touch]), those of asset
    staging (announcement, then directory and copy for each entry found in
    the files generation left), then the change of the files by the
    inherited step.  A run that raises passes on the exception of the step
    it stopped in, with the effects of that step so far and none of a
    later step. *)
Theorem C3_build_py_steps_in_order (h : Host) (w : World) :
  let r := BuildPyCommand.run h w in
  let g := GenerateProtoGrpcCommand.run h (generate_proto_grpc h)
             (begun "generate_proto_grpc" w) in
  let a := CopyTaskAssetsCommand.run h (copy_task_assets h)
             (begun "copy_task_assets" (ended "generate_proto_grpc" g.2)) in
  let p := default_build_py h (files a.2) in
  ∃ evs1 evs2,
    evs1 `prefix_of` generation_plan h
    ∧ evs2 `prefix_of` assets_plan h (files g.2)
    ∧ ((∃ e, g.1 = Raise e
             ∧ r.1 = Raise e
             ∧ files r.2 = files g.2
             ∧ trace r.2 = trace w ++ EvBegin "generate_proto_grpc" :: evs1)
       ∨ (g.1 = Return tt
          ∧ ((∃ e, a.1 = Raise e
                   ∧ r.1 = Raise e
                   ∧ files r.2 = files a.2
                   ∧ trace r.2 =
                     trace w
                     ++ EvBegin "generate_proto_grpc" :: generation_plan h
                     ++ [EvEnd "generate_proto_grpc"; EvBegin "copy_task_assets"]
                     ++ evs2)
             ∨ (a.1 = Return tt
                ∧ files r.2 = p.2
                ∧ ((∃ msg, p.1 = Some msg
                           ∧ r.1 = Raise (ForeignError msg)
                           ∧ trace r.2 =
                             trace w
                             ++ EvBegin "generate_proto_grpc" :: generation_plan h
                             ++ [EvEnd "generate_proto_grpc";
                                 EvBegin "copy_task_assets"]
                             ++ assets_plan h (files g.2)
                             ++ [EvEnd "copy_task_assets"; EvBegin "build_py.run"])
                   ∨ (p.1 = None
                      ∧ r.1 = Return tt
                      ∧ trace r.2 =
                        trace w
                        ++ EvBegin "generate_proto_grpc" :: generation_plan h
                        ++ [EvEnd "generate_proto_grpc";
                            EvBegin "copy_task_assets"]
                        ++ assets_plan h (files g.2)
                        ++ [EvEnd "copy_task_assets"; EvBegin "build_py.run";
                            EvEnd "build_py.run"])))))).
Proof.
  cbv zeta. unfold BuildPyCommand.run.
  rewrite run_command_generate_proto_grpc, run_command_copy_task_assets.
  rewrite run_bind, run_step. fold (begun "generate_proto_grpc" w).
  destruct (generate_proto_grpc_trace h (begun "generate_proto_grpc" w))
    as (evs1 & Ht1 & Hpre1 & Hall1).
  destruct (GenerateProtoGrpcCommand.run h _ (begun "generate_proto_grpc" w))
    as [[[]|e1] w1]; cbn [fst snd files trace] in *.
  2:{ exists evs1, []. split_and!; [done|apply prefix_nil|].
      left. exists e1. rewrite Ht1. unfold begun. cbn [trace].
      split_and!; [done..|by trace_norm]. }
  rewrite (Hall1 eq_refl) in Ht1. clear evs1 Hpre1 Hall1.
  fold (ended "generate_proto_grpc" w1).
  rewrite run_bind, run_step.
  fold (begun "copy_task_assets" (ended "generate_proto_grpc" w1)).
  destruct (copy_task_assets_trace h
              (begun "copy_task_assets" (ended "generate_proto_grpc" w1)))
    as (evs2 & Ht2 & Hpre2 & Hall2).
  change (files (begun "copy_task_assets" (ended "generate_proto_grpc" w1)))
    with (files w1) in *.
  assert (trace (begun "copy_task_assets" (ended "generate_proto_grpc" w1))
          = trace w ++ EvBegin "generate_proto_grpc" :: generation_plan h
            ++ [EvEnd "generate_proto_grpc"; EvBegin "copy_task_assets"])
    as Hstart.
  { unfold begun, ended. cbn [trace files]. rewrite Ht1. unfold begun.
    cbn [trace]. by trace_norm. }
  rewrite Hstart in Ht2. clear Hstart Ht1.
  destruct (CopyTaskAssetsCommand.run h _
              (begun "copy_task_assets" (ended "generate_proto_grpc" w1)))
    as [[[]|e2] w2]; cbn [fst snd files trace] in *.
  2:{ exists (generation_plan h), evs2. split_and!; [done..|].
      right. split; [done|]. left. exists e2. rewrite Ht2.
      split_and!; [done..|by trace_norm]. }
  rewrite (Hall2 eq_refl) in Ht2. clear evs2 Hpre2 Hall2.
  exists (generation_plan h), (assets_plan h (files w1)).
  split_and!; [done..|]. right. split; [done|]. right. split; [done|].
  rewrite run_step, run_super_run. cbn [files trace].
  destruct (default_build_py h (files w2)) as [[msg|] fs3];
    cbn [fst snd files trace]; rewrite Ht2.
  - split; [done|]. left. exists msg. split_and!; [done..|by trace_norm].
  - split; [done|]. right. split_and!; [done..|by trace_norm].
Qed.

(** ** Failing subprocesses *)

Lemma configure_argv_is_not_build_argv h :
  BuildCMakeExtension.configure_argv h ≠ BuildCMakeExtension.build_argv h.
Proof.
  intros Heq. apply (f_equal (λ l, l !! 1)) in Heq.
  by cbn in Heq.
Qed.

Lemma touch_call_is_not_protoc_call h : touch_call h ≠ protoc_call h.
Proof. intros Heq. apply (f_equal (λ l, l !! 0)) in Heq. by cbn in Heq. Qed.

Lemma classify_configuration h status :
  classify h (CalledProcessError status (BuildCMakeExtension.configure_argv h))
  = Some ConfigurationError.
Proof. unfold classify. by rewrite bool_decide_eq_true_2. Qed.

Lemma classify_build h status :
  classify h (CalledProcessError status (BuildCMakeExtension.build_argv h))
  = Some BuildFailureError.
Proof.
  unfold classify.
  rewrite bool_decide_eq_false_2
    by (intros Heq; by apply (configure_argv_is_not_build_argv h)).
  by rewrite bool_decide_eq_true_2.
Qed.

Lemma classify_generation h status :
  classify h (DistutilsExecError (protoc_call h) status) = Some GenerationError.
Proof. unfold classify. by rewrite bool_decide_eq_true_2. Qed.

Lemma classify_touch h status :
  classify h (DistutilsExecError (touch_call h) status) = None.
Proof.
  unfold classify. rewrite bool_decide_eq_false_2; [done|].
  apply touch_call_is_not_protoc_call.
Qed.

Lemma classify_not_a_process_error h e :
  not_a_process_error e →
  classify h e = None ∨ classify h e = Some MissingArtifactError.
Proof. destruct e; simpl; auto; done. Qed.

Lemma copy_agent_service_binary_step_raises h :
  may_raise not_a_process_error (run_command h "copy_agent_service_binary").
Proof.
  rewrite run_command_copy_agent_service_binary.
  apply may_raise_step, copy_agent_service_binary_raises.
Qed.

Lemma after_generation_raises h :
  may_raise not_a_process_error
    (run_command h "copy_task_assets";;
     step "build_py.run" (BuildPyCommand.super_run h)).
Proof.
  apply may_raise_bind.
  - rewrite run_command_copy_task_assets.
    apply may_raise_step, copy_task_assets_raises.
  - intros _. apply may_raise_step, super_run_raises.
Qed.

(** The top level passes on what a hook raises, and runs nothing more. *)
Lemma build_propagates h w :
  (∀ e w', step "build_py" (BuildPyCommand.run h) w = (Raise e, w') →
           build h w = (Raise e, w'))
  ∧ (∀ w1 e w',
       step "build_py" (BuildPyCommand.run h) w = (Return tt, w1) →
       BuildCMakeExtension.run h (mkWorld (files w1) (trace w1 ++ [EvBegin "build_ext"]))
         = (Raise e, w') →
       build h w = (Raise e, w')).
Proof.
  unfold build. split.
  - intros e w' Hpy. by rewrite run_bind, Hpy.
  - intros w1 e w' Hpy Hext. by rewrite run_bind, Hpy, run_step, Hext.
Qed.

(** The [build_ext] hook, by the exit status of the configuration phase. *)
Lemma configuration_phase_outcome h w status fs1 :
  run_process h (BuildCMakeExtension.configure_argv h) (cmake_cwd h) (files w)
    = Some (status, fs1) →
  (status ≠ 0%Z →
   BuildCMakeExtension.run h w =
   (Raise (CalledProcessError status (BuildCMakeExtension.configure_argv h)),
    mkWorld fs1 (trace w ++ configure_prints h ++ [configure_call h])))
  ∧ (status = 0%Z →
     ∀ e, (BuildCMakeExtension.run h w).1 = Raise e →
          classify h e ≠ Some ConfigurationError).
Proof.
  intros Hconfigure. unfold BuildCMakeExtension.run.
  rewrite run_bind, run_configure_and_build, Hconfigure. cbv zeta. split.
  - intros Hstatus. by rewrite bool_decide_eq_false_2.
  - intros -> e. rewrite bool_decide_eq_true_2 by done.
    destruct (run_process h (BuildCMakeExtension.build_argv h) _ _)
      as [[status2 fs2]|]; [|by intros [= <-]].
    case_bool_decide.
    + destruct (run_command h "copy_agent_service_binary" _) as [[[]|e'] w']
        eqn:Hcopy; [done|].
      intros [= <-].
      apply copy_agent_service_binary_step_raises in Hcopy.
      by destruct (classify_not_a_process_error h _ Hcopy) as [-> | ->].
    + intros [= <-]. by rewrite classify_build.
Qed.

(** ... and by the exit status of the build phase. *)
Lemma build_phase_outcome h w fs1 status fs2 :
  run_process h (BuildCMakeExtension.configure_argv h) (cmake_cwd h) (files w)
    = Some (0%Z, fs1) →
  run_process h (BuildCMakeExtension.build_argv h) (cmake_cwd h) fs1
    = Some (status, fs2) →
  (status ≠ 0%Z →
   BuildCMakeExtension.run h w =
   (Raise (CalledProcessError status (BuildCMakeExtension.build_argv h)),
    mkWorld fs2 (trace w ++ configure_prints h
                   ++ [configure_call h; building_print; build_call h])))
  ∧ (status = 0%Z →
     ∀ e, (BuildCMakeExtension.run h w).1 = Raise e →
          classify h e ≠ Some BuildFailureError).
Proof.
  intros Hconfigure Hbuild. unfold BuildCMakeExtension.run.
  rewrite run_bind, run_configure_and_build, Hconfigure. cbv zeta.
  rewrite bool_decide_eq_true_2 by done. rewrite Hbuild. split.
  - intros Hstatus. rewrite bool_decide_eq_false_2 by done. by trace_norm.
  - intros -> e. rewrite bool_decide_eq_true_2 by done.
    destruct (run_command h "copy_agent_service_binary" _) as [[[]|e'] w']
      eqn:Hcopy; [done|].
    intros [= <-].
    apply copy_agent_service_binary_step_raises in Hcopy.
    by destruct (classify_not_a_process_error h _ Hcopy) as [-> | ->].
Qed.

(** The [build_py] hook, by the exit status of the interface compiler. *)
Lemma compiler_outcome h w fs1 fs2 status fs3 :
  Os.mkdir_parents (files w) (py_staging_root h ++ ["mujoco_mpc"; "proto"])
    = inr fs1 →
  Os.shutil_copy fs1 (proto_source h) (proto_destination h) = inr fs2 →
  run_process h (protoc_call h) (cwd h) fs2 = Some (status, fs3) →
  (status ≠ 0%Z →
   BuildPyCommand.run h w =
   (Raise (DistutilsExecError (protoc_call h) (Some status)),
    mkWorld fs3
      (trace w ++
       [ EvBegin "generate_proto_grpc";
         EvMkdir (py_staging_root h ++ ["mujoco_mpc"; "proto"]);
         EvCopy (proto_source h) (proto_destination h);
         EvSpawn (protoc_call h) ])))
  ∧ (status = 0%Z →
     ∀ e, (BuildPyCommand.run h w).1 = Raise e →
          classify h e ≠ Some GenerationError).
Proof.
  intros Hmkdir Hcopy Hprotoc. unfold BuildPyCommand.run.
  rewrite run_bind, run_command_generate_proto_grpc, run_step.
  rewrite run_generate_proto_grpc. cbn [files trace]. cbv zeta.
  rewrite Hmkdir, Hcopy, Hprotoc. split.
  - intros Hstatus. rewrite bool_decide_eq_false_2 by done. by trace_norm.
  - intros -> e. rewrite bool_decide_eq_true_2 by done.
    destruct (run_process h (touch_call h) _ _) as [[status' fs4]|];
      [|intros [= <-]; by rewrite classify_touch].
    case_bool_decide; [|intros [= <-]; by rewrite classify_touch].
    match goal with
    | |- context [bind ?m ?k ?w0] => destruct (bind m k w0) as [[[]|e'] w'] eqn:Hrest
    | |- context [mbind ?k ?m ?w0] => destruct (mbind k m w0) as [[[]|e'] w'] eqn:Hrest
    end; [done|].
    intros [= <-].
    apply after_generation_raises in Hrest.
    by destruct (classify_not_a_process_error h _ Hrest) as [-> | ->].
Qed.

(** C6: a subprocess that exits with a non-zero status ends the run at
    once.  For each of the three subprocesses (CMake's configuration
    phase, its build phase, the interface compiler): on a non-zero status
    the hook raises the corresponding error (the exception carrying that
    status and that command), the trace ends with the failing call, made
    once, and nothing else runs; on status zero no exception of that kind
    leaves the hook.  The top level hands on what a hook raises as it is,
    in the world where it was raised. *)
Theorem C6_failed_subprocess_aborts (h : Host) (w : World) :
  (∀ status fs1,
     run_process h (BuildCMakeExtension.configure_argv h) (cmake_cwd h) (files w)
       = Some (status, fs1) →
     (status ≠ 0%Z →
      BuildCMakeExtension.run h w =
      (Raise (CalledProcessError status (BuildCMakeExtension.configure_argv h)),
       mkWorld fs1 (trace w ++ configure_prints h ++ [configure_call h]))
      ∧ classify h (CalledProcessError status (BuildCMakeExtension.configure_argv h))
        = Some ConfigurationError)
     ∧ (status = 0%Z →
        ∀ e, (BuildCMakeExtension.run h w).1 = Raise e →
             classify h e ≠ Some ConfigurationError))
  ∧ (∀ fs1 status fs2,
       run_process h (BuildCMakeExtension.configure_argv h) (cmake_cwd h) (files w)
         = Some (0%Z, fs1) →
       run_process h (BuildCMakeExtension.build_argv h) (cmake_cwd h) fs1
         = Some (status, fs2) →
       (status ≠ 0%Z →
        BuildCMakeExtension.run h w =
        (Raise (CalledProcessError status (BuildCMakeExtension.build_argv h)),
         mkWorld fs2 (trace w ++ configure_prints h
                        ++ [configure_call h; building_print; build_call h]))
        ∧ classify h (CalledProcessError status (BuildCMakeExtension.build_argv h))
          = Some BuildFailureError)
       ∧ (status = 0%Z →
          ∀ e, (BuildCMakeExtension.run h w).1 = Raise e →
               classify h e ≠ Some BuildFailureError))
  ∧ (∀ fs1 fs2 status fs3,
       Os.mkdir_parents (files w) (py_staging_root h ++ ["mujoco_mpc"; "proto"])
         = inr fs1 →
       Os.shutil_copy fs1 (proto_source h) (proto_destination h) = inr fs2 →
       run_process h (protoc_call h) (cwd h) fs2 = Some (status, fs3) →
       (status ≠ 0%Z →
        BuildPyCommand.run h w =
        (Raise (DistutilsExecError (protoc_call h) (Some status)),
         mkWorld fs3
           (trace w ++
            [ EvBegin "generate_proto_grpc";
              EvMkdir (py_staging_root h ++ ["mujoco_mpc"; "proto"]);
              EvCopy (proto_source h) (proto_destination h);
              EvSpawn (protoc_call h) ]))
        ∧ classify h (DistutilsExecError (protoc_call h) (Some status))
          = Some GenerationError)
       ∧ (status = 0%Z →
          ∀ e, (BuildPyCommand.run h w).1 = Raise e →
               classify h e ≠ Some GenerationError))
  ∧ (∀ e w', step "build_py" (BuildPyCommand.run h) w = (Raise e, w') →
             build h w = (Raise e, w'))
  ∧ (∀ w1 e w',
       step "build_py" (BuildPyCommand.run h) w = (Return tt, w1) →
       BuildCMakeExtension.run h (mkWorld (files w1) (trace w1 ++ [EvBegin "build_ext"]))
         = (Raise e, w') →
       build h w = (Raise e, w')).
Proof.
  split_and!.
  - intros status fs1 Hconfigure.
    destruct (configuration_phase_outcome h w status fs1 Hconfigure) as [Hfail Hok].
    split; [|done]. intros Hstatus. split; [by apply Hfail|].
    apply classify_configuration.
  - intros fs1 status fs2 Hconfigure Hbuild.
    destruct (build_phase_outcome h w fs1 status fs2 Hconfigure Hbuild)
      as [Hfail Hok].
    split; [|done]. intros Hstatus. split; [by apply Hfail|].
    apply classify_build.
  - intros fs1 fs2 status fs3 Hmkdir Hcopy Hprotoc.
    destruct (compiler_outcome h w fs1 fs2 status fs3 Hmkdir Hcopy Hprotoc)
      as [Hfail Hok].
    split; [|done]. intros Hstatus. split; [by apply Hfail|].
    apply classify_generation.
  - apply build_propagates.
  - apply build_propagates.
Qed.

Lemma got_succeeded (r : exn + filesystem) :
  Sample.succeeded r = true → r = inr (Sample.got r).
Proof. by destruct r. Qed.

Lemma sample_tools_fail (arg : string) argv dir fs :
  argv !! 1 = Some arg → Sample.tools (Some arg) argv dir fs = Some (2%Z, fs).
Proof. intros Harg. unfold Sample.tools. by rewrite bool_decide_eq_true_2. Qed.

Lemma C6_failed_subprocess_aborts_witness :
  (BuildCMakeExtension.run
     (Sample.host "Linux" ∅ (Some "-DCMAKE_EXPORT_COMPILE_COMMANDS:BOOL=TRUE"))
     Sample.start).1
  = Raise (CalledProcessError 2
             (BuildCMakeExtension.configure_argv
                (Sample.host "Linux" ∅ (Some "-DCMAKE_EXPORT_COMPILE_COMMANDS:BOOL=TRUE"))))
  ∧ (BuildCMakeExtension.run (Sample.host "Linux" ∅ (Some "--build")) Sample.start).1
    = Raise (CalledProcessError 2
               (BuildCMakeExtension.build_argv (Sample.host "Linux" ∅ (Some "--build"))))
  ∧ (BuildPyCommand.run (Sample.host "Linux" ∅ (Some "-m")) Sample.start).1
    = Raise (DistutilsExecError (protoc_call (Sample.host "Linux" ∅ (Some "-m")))
               (Some 2%Z)).
Proof.
  split_and!.
  - refine (f_equal fst
      (proj1 (proj1 (proj1 (C6_failed_subprocess_aborts _ Sample.start)
                       2%Z (files Sample.start) _) _))).
    + reflexivity.
    + done.
  - refine (f_equal fst
      (proj1 (proj1 (proj1 (proj2 (C6_failed_subprocess_aborts _ Sample.start))
                       (files Sample.start) 2%Z (files Sample.start) _ _) _))).
    + reflexivity.
    + reflexivity.
    + done.
  - assert (Os.mkdir_parents (files Sample.start)
              (py_staging_root Sample.failing_protoc ++ ["mujoco_mpc"; "proto"])
            = inr Sample.proto_dir_made)
      as Hmkdir by (apply got_succeeded; vm_compute; reflexivity).
    assert (Os.shutil_copy Sample.proto_dir_made
              (proto_source Sample.failing_protoc)
              (proto_destination Sample.failing_protoc)
            = inr Sample.proto_copied)
      as Hcopy by (apply got_succeeded; vm_compute; reflexivity).
    assert (run_process Sample.failing_protoc (protoc_call Sample.failing_protoc)
              (cwd Sample.failing_protoc) Sample.proto_copied
            = Some (2%Z, Sample.proto_copied))
      as Hprotoc by (by apply sample_tools_fail).
    destruct (proj1 (proj2 (proj2 (C6_failed_subprocess_aborts
                                     Sample.failing_protoc Sample.start)))
                _ _ 2%Z _ Hmkdir Hcopy Hprotoc) as [Hfail _].
    destruct Hfail as [Hrun _]; [done|]. exact (f_equal fst Hrun).
Defined.

(** ** Running again on a staged tree *)

Lemma same_shape_refl fs : same_shape fs fs.
Proof. done. Qed.

Lemma same_shape_dir fs fs0 p :
  same_shape fs fs0 → fs0 !! p = Some Dir → fs !! p = Some Dir.
Proof.
  intros Hshape Hp. specialize (Hshape p). rewrite Hp in Hshape.
  by destruct (fs !! p) as [[]|].
Qed.

Lemma same_shape_file fs fs0 p :
  same_shape fs fs0 → is_file fs0 p → is_file fs p.
Proof.
  intros Hshape (mode & data & Hp). specialize (Hshape p). rewrite Hp in Hshape.
  unfold is_file.
  destruct (fs !! p) as [[mode' data'|]|]; [by exists mode', data'|done..].
Qed.

Lemma same_shape_is_Some fs fs0 p :
  same_shape fs fs0 → is_Some (fs !! p) ↔ is_Some (fs0 !! p).
Proof.
  intros Hshape. specialize (Hshape p).
  rewrite <- !not_eq_None_Some.
  by destruct (fs !! p), (fs0 !! p).
Qed.

Lemma same_shape_insert_file fs fs0 p mode data :
  same_shape fs fs0 → is_file fs0 p →
  same_shape (<[p := File mode data]> fs) fs0.
Proof.
  intros Hshape (mode' & data' & Hp) q.
  destruct (decide (q = p)) as [->|Hne].
  - by rewrite lookup_insert_eq, Hp.
  - by rewrite lookup_insert_ne.
Qed.

Lemma same_shape_insert_dir fs fs0 p :
  same_shape fs fs0 → fs0 !! p = Some Dir → same_shape (<[p := Dir]> fs) fs0.
Proof.
  intros Hshape Hp q.
  destruct (decide (q = p)) as [->|Hne].
  - by rewrite lookup_insert_eq, Hp.
  - by rewrite lookup_insert_ne.
Qed.

(** Trees of the same shape hold the same set of paths. *)
Lemma same_shape_dom fs fs0 : same_shape fs fs0 → dom fs = dom fs0.
Proof.
  intros Hshape. apply set_eq. intros p.
  rewrite !elem_of_dom. by apply same_shape_is_Some.
Qed.

Lemma same_shape_staged_at fs fs0 s d :
  same_shape fs fs0 → staged_at fs0 s d → staged_at fs s d.
Proof.
  intros Hshape (Hs & Hd & Hdirs). split_and!.
  - by eapply same_shape_file.
  - by eapply same_shape_file.
  - intros q Hq. eapply same_shape_dir; [done|]. by apply Hdirs.
Qed.

Lemma same_shape_source_paths h fs fs0 s :
  same_shape fs fs0 →
  s ∈ CopyTaskAssetsCommand.source_paths h fs →
  s ∈ CopyTaskAssetsCommand.source_paths h fs0.
Proof.
  intros Hshape. unfold CopyTaskAssetsCommand.source_paths.
  rewrite !elem_of_rglob. intros (Hroot & Hs & Hrest).
  split; [|split; [by apply (same_shape_is_Some fs)|done]].
  specialize (Hshape (CopyTaskAssetsCommand.tasks_root h)).
  rewrite Hroot in Hshape.
  by destruct (fs0 !! CopyTaskAssetsCommand.tasks_root h) as [[]|].
Qed.

Section KeepsShape.

Context (fs0 : filesystem).

Lemma keeps_shape_ret {A} (a : A) : keeps_shape fs0 (ret a).
Proof. by intros w. Qed.

Lemma keeps_shape_raise {A} (e : exn) : keeps_shape fs0 (raise (A:=A) e).
Proof. by intros w. Qed.

Lemma keeps_shape_emit e : keeps_shape fs0 (emit e).
Proof. by intros w. Qed.

Lemma keeps_shape_bind {A B} (m : M A) (k : A → M B) :
  keeps_shape fs0 m → (∀ a, keeps_shape fs0 (k a)) →
  keeps_shape fs0 (m ≫= k).
Proof.
  intros Hm Hk w Hw. rewrite run_bind. specialize (Hm w Hw).
  destruct (m w) as [[a|e] w1]; [by apply Hk|done].
Qed.

Lemma keeps_shape_step name body :
  keeps_shape fs0 body → keeps_shape fs0 (step name body).
Proof.
  intros Hbody. unfold step.
  apply keeps_shape_bind; [apply keeps_shape_emit|]. intros _.
  apply keeps_shape_bind; [done|]. intros _. apply keeps_shape_emit.
Qed.

Lemma keeps_shape_for_each {A} (l : list A) (body : A → M unit) :
  (∀ a, a ∈ l → keeps_shape fs0 (body a)) →
  keeps_shape fs0 (for_each l body).
Proof.
  induction l as [|a l IH]; intros Hbody; simpl.
  - apply keeps_shape_ret.
  - apply keeps_shape_bind; [apply Hbody; by left|].
    intros _. apply IH. intros a' Ha'. apply Hbody. by right.
Qed.

Lemma keeps_shape_mkdir p :
  (∀ q, q `prefix_of` p → fs0 !! q = Some Dir) → keeps_shape fs0 (mkdir p).
Proof.
  intros Hdirs w Hw. rewrite run_mkdir, mkdir_parents_noop; [done|].
  intros q Hq. eapply same_shape_dir; [done|]. by apply Hdirs.
Qed.

Lemma keeps_shape_copy src dst :
  is_file fs0 dst → keeps_shape fs0 (copy src dst).
Proof.
  intros Hdst w Hw. rewrite run_copy.
  destruct (Os.shutil_copy _ _ _) as [e|fs'] eqn:Hcopy; [done|].
  destruct (shutil_copy_inr _ _ _ _ Hcopy) as (mode & data & _ & _ & _ & _ & ->).
  destruct (same_shape_file _ _ _ Hw Hdst) as (mode' & data' & Hfile).
  rewrite copy_target_plain by by rewrite Hfile.
  by apply same_shape_insert_file.
Qed.

Lemma keeps_shape_stage src dst :
  staged_at fs0 src dst → keeps_shape fs0 (mkdir (PathLib.dirname dst);; copy src dst).
Proof.
  intros (_ & Hdst & Hdirs).
  apply keeps_shape_bind; [by apply keeps_shape_mkdir|].
  intros _. by apply keeps_shape_copy.
Qed.

Context (h : Host).
Hypothesis Hsettled : tools_settled h fs0.

Lemma keeps_shape_spawn argv : keeps_shape fs0 (spawn h argv).
Proof.
  intros w Hw. rewrite run_spawn.
  destruct (run_process h argv _ _) as [[status fs']|] eqn:Hrun; [|done].
  by eapply (proj1 Hsettled).
Qed.

Lemma keeps_shape_check_call argv dir : keeps_shape fs0 (check_call h argv dir).
Proof.
  intros w Hw. rewrite run_check_call.
  destruct (run_process h argv _ _) as [[status fs']|] eqn:Hrun; [|done].
  by eapply (proj1 Hsettled).
Qed.

Lemma keeps_shape_super_run : keeps_shape fs0 (BuildPyCommand.super_run h).
Proof.
  intros w Hw. unfold BuildPyCommand.super_run.
  rewrite run_get_files, run_bind. cbn.
  destruct (default_build_py h (files w)) as [[msg|] fs'] eqn:Hdefault;
    cbn; by apply (proj2 Hsettled) in Hw; rewrite Hdefault in Hw.
Qed.

Hypothesis Hstaged : already_staged h fs0.

Lemma keeps_shape_generate_proto_grpc :
  keeps_shape fs0 (GenerateProtoGrpcCommand.run h (generate_proto_grpc h)).
Proof.
  destruct Hstaged as (Hproto & _).
  unfold GenerateProtoGrpcCommand.run, generate_proto_grpc,
    GenerateProtoGrpcCommand.finalize_options.
  intros w Hw. rewrite run_bind, resolved_build_lib_finalized.
  cbn [build_lib GenerateProtoGrpcCommand.initialize_options].
  fold (py_staging_root h).
  change (GenerateProtoGrpcCommand.agent_proto_destination_path (py_staging_root h))
    with (proto_destination h).
  fold (proto_source h). revert w Hw.
  apply keeps_shape_bind; [apply keeps_shape_mkdir, Hproto|]. intros _.
  apply keeps_shape_bind; [apply keeps_shape_copy, Hproto|]. intros _.
  apply keeps_shape_bind; [apply keeps_shape_spawn|]. intros _.
  apply keeps_shape_spawn.
Qed.

Lemma keeps_shape_copy_task_assets :
  keeps_shape fs0 (CopyTaskAssetsCommand.run h (copy_task_assets h)).
Proof.
  destruct Hstaged as (_ & _ & Hassets & _). rewrite Forall_forall in Hassets.
  intros w Hw. rewrite run_copy_task_assets.
  unfold CopyTaskAssetsCommand.relative_source_paths.
  rewrite zip_with_own_image.
  apply keeps_shape_for_each; [|done].
  intros item (s & -> & Hs)%list_elem_of_fmap.
  apply (keeps_shape_stage s (asset_destination h s)).
  apply Hassets. by eapply same_shape_source_paths.
Qed.

Lemma keeps_shape_copy_agent_service_binary :
  keeps_shape fs0
    (CopyAgentServiceBinaryCommand.run h (copy_agent_service_binary h)).
Proof.
  destruct Hstaged as (_ & _ & _ & Hbinary).
  intros w Hw. rewrite run_copy_agent_service_binary.
  destruct (Os.path_exists _ _); [|done].
  by apply keeps_shape_stage.
Qed.

Lemma keeps_shape_build_py : keeps_shape fs0 (BuildPyCommand.run h).
Proof.
  unfold BuildPyCommand.run.
  rewrite run_command_generate_proto_grpc, run_command_copy_task_assets.
  apply keeps_shape_bind;
    [apply keeps_shape_step, keeps_shape_generate_proto_grpc|]. intros _.
  apply keeps_shape_bind;
    [apply keeps_shape_step, keeps_shape_copy_task_assets|]. intros _.
  apply keeps_shape_step, keeps_shape_super_run.
Qed.

Lemma keeps_shape_build_ext : keeps_shape fs0 (BuildCMakeExtension.run h).
Proof.
  unfold BuildCMakeExtension.run,
    BuildCMakeExtension._configure_and_build_agent_service.
  rewrite run_command_copy_agent_service_binary.
  apply keeps_shape_bind.
  - apply keeps_shape_bind; [apply keeps_shape_emit|]. intros _.
    apply keeps_shape_bind.
    { apply keeps_shape_for_each. intros arg _. apply keeps_shape_emit. }
    intros _. apply keeps_shape_bind; [apply keeps_shape_check_call|].
    intros _. apply keeps_shape_bind; [apply keeps_shape_emit|].
    intros _. apply keeps_shape_check_call.
  - intros _. apply keeps_shape_step, keeps_shape_copy_agent_service_binary.
Qed.

Lemma keeps_shape_build : keeps_shape fs0 (build h).
Proof.
  unfold build.
  apply keeps_shape_bind; [apply keeps_shape_step, keeps_shape_build_py|].
  intros _. apply keeps_shape_step, keeps_shape_build_ext.
Qed.

End KeepsShape.

Lemma staged_at_b_sound fs s d : staged_at_b fs s d = true → staged_at fs s d.
Proof.
  unfold staged_at_b, staged_at. rewrite !andb_true_iff, forallb_forall.
  intros [[Hs Hd] Hdirs]. split_and!; [by apply is_file_b_sound..|].
  intros q Hq%elem_of_ancestors%list_elem_of_In. by apply is_dir_b_sound, Hdirs.
Qed.

Lemma already_staged_b_sound h fs :
  already_staged_b h fs = true → already_staged h fs.
Proof.
  unfold already_staged_b, already_staged.
  rewrite !andb_true_iff, forallb_forall.
  intros [[[Hproto Hapart] Hassets] Hbinary].
  split_and!; [by apply staged_at_b_sound|by apply apart_b_sound| |
               by apply staged_at_b_sound].
  apply Forall_forall. intros s Hs%list_elem_of_In.
  by apply staged_at_b_sound, Hassets.
Qed.

(** The sample programs have nothing left to do on the tree a first
    build leaves. *)
Lemma sample_tools_settled : tools_settled Sample.linux Sample.staged.
Proof.
  split; [|done].
  intros argv dir fs status fs' Hshape. cbn [run_process Sample.linux Sample.host].
  unfold Sample.tools.
  rewrite bool_decide_eq_false_2 by (by intros [[? [=]] _]).
  case_bool_decide.
  { intros [= _ <-].
    assert (is_file Sample.staged Sample.marker) as Hmarker
      by (apply is_file_b_sound; vm_compute; reflexivity).
    destruct (same_shape_file _ _ _ Hshape Hmarker) as (mode & data & ->).
    done. }
  case_bool_decide; intros [= _ <-]; [|done].
  apply same_shape_insert_file;
    [|apply is_file_b_sound; vm_compute; reflexivity].
  apply same_shape_insert_dir;
    [|apply is_dir_b_sound; vm_compute; reflexivity].
  apply same_shape_insert_dir;
    [done|apply is_dir_b_sound; vm_compute; reflexivity].
Qed.



(** * Further properties of the script *)

(** ** Reading [ARCHFLAGS] *)

Lemma string_prefix_spec (s1 s2 : string) :
  String.prefix s1 s2 = true ↔ ∃ post, s2 = s1 +:+ post.
Proof.
  revert s1. induction s2 as [|b s2 IH]; intros [|a s1]; simpl.
  - split; [by exists ""|done].
  - split; [done|by intros [? ?]].
  - split; [by eexists|done].
  - destruct (Ascii.ascii_dec a b) as [->|Hne].
    + rewrite IH. split; intros [post Hpost]; exists post.
      * by rewrite Hpost.
      * by injection Hpost.
    + split; [done|]. intros [post Hpost]. injection Hpost as Hab _. congruence.
Qed.

Lemma contains_unfold (needle hay : string) :
  Py.contains needle hay =
  String.prefix needle hay ||
  match hay with
  | EmptyString => false
  | String _ hay' => Py.contains needle hay'
  end.
Proof. by destruct hay. Qed.

Lemma contains_spec (needle hay : string) :
  Py.contains needle hay = true ↔ ∃ pre post, hay = pre +:+ needle +:+ post.
Proof.
  split.
  - induction hay as [|a hay IH]; rewrite contains_unfold.
    + rewrite orb_false_r. intros [post ->]%string_prefix_spec. by exists "", post.
    + intros [[post ->]%string_prefix_spec|Hrest]%orb_true_iff.
      * by exists "", post.
      * destruct (IH Hrest) as (pre & post & ->). by exists (String a pre), post.
  - intros (pre & post & ->). induction pre as [|a pre IH]; rewrite contains_unfold.
    + apply orb_true_iff. left. apply string_prefix_spec. by exists post.
    + apply orb_true_iff. by right.
Qed.

(** X1: the two architecture tests are substring tests.  [x86_64] is
    selected exactly when ["-arch x86_64"] occurs somewhere in the
    variable, whatever precedes or follows it (so [-arch x86_64h] selects
    it too); likewise for [arm64]; and the list built is always one of
    the four sublists of [x86_64; arm64], in that order. *)
Theorem X1_architectures_selected_by_substring (archflags : string) :
  ("x86_64" ∈ BuildCMakeExtension.osx_archs archflags ↔
   ∃ pre post, archflags = pre +:+ "-arch x86_64" +:+ post)
  ∧ ("arm64" ∈ BuildCMakeExtension.osx_archs archflags ↔
     ∃ pre post, archflags = pre +:+ "-arch arm64" +:+ post)
  ∧ BuildCMakeExtension.osx_archs archflags `sublist_of` ["x86_64"; "arm64"].
Proof.
  unfold BuildCMakeExtension.osx_archs. rewrite <- !contains_spec.
  destruct (Py.contains "-arch x86_64" archflags),
           (Py.contains "-arch arm64" archflags); simpl;
    (split_and!; [set_solver..|]).
  - done.
  - apply sublist_skip, sublist_nil_l.
  - by apply sublist_cons.
  - apply sublist_nil_l.
Qed.

(** X2: the remaining cases of the architecture flag.  On Darwin with
    [ARCHFLAGS] unset no architecture flag is passed; with [ARCHFLAGS] set
    and exactly one of the two tokens in it, the flag names that
    architecture alone. *)
Theorem X2_architecture_flag_other_cases (h : Host) :
  system h = "Darwin" →
  (environ h !! "ARCHFLAGS" = None →
   BuildCMakeExtension.cmake_configure_args h =
   BuildCMakeExtension.base_configure_args)
  ∧ (∀ archflags,
       environ h !! "ARCHFLAGS" = Some archflags →
       Py.contains "-arch x86_64" archflags = true →
       Py.contains "-arch arm64" archflags = false →
       BuildCMakeExtension.cmake_configure_args h =
       BuildCMakeExtension.base_configure_args
         ++ ["-DCMAKE_OSX_ARCHITECTURES=x86_64"])
  ∧ (∀ archflags,
       environ h !! "ARCHFLAGS" = Some archflags →
       Py.contains "-arch x86_64" archflags = false →
       Py.contains "-arch arm64" archflags = true →
       BuildCMakeExtension.cmake_configure_args h =
       BuildCMakeExtension.base_configure_args
         ++ ["-DCMAKE_OSX_ARCHITECTURES=arm64"]).
Proof.
  intros Hsys. split_and!.
  - intros Henv. unfold BuildCMakeExtension.cmake_configure_args.
    by rewrite Henv, bool_decide_eq_true_2, app_nil_r.
  - intros archflags Henv Hx86 Harm.
    rewrite (configure_args_darwin h archflags Hsys Henv).
    unfold BuildCMakeExtension.osx_archs. by rewrite Hx86, Harm.
  - intros archflags Henv Hx86 Harm.
    rewrite (configure_args_darwin h archflags Hsys Henv).
    unfold BuildCMakeExtension.osx_archs. by rewrite Hx86, Harm.
Qed.

Lemma X2_architecture_flag_other_cases_witness :
  system (Sample.darwin "-arch arm64") = "Darwin"
  ∧ BuildCMakeExtension.cmake_configure_args (Sample.darwin "-arch arm64") =
    BuildCMakeExtension.base_configure_args ++ ["-DCMAKE_OSX_ARCHITECTURES=arm64"]
  ∧ BuildCMakeExtension.cmake_configure_args (Sample.host "Darwin" ∅ None) =
    BuildCMakeExtension.base_configure_args.
Proof.
  split; [reflexivity|]. split.
  - apply (proj2 (proj2 (X2_architecture_flag_other_cases
                           (Sample.darwin "-arch arm64") eq_refl))
             "-arch arm64"); reflexivity.
  - apply (proj1 (X2_architecture_flag_other_cases
                    (Sample.host "Darwin" ∅ None) eq_refl)).
    reflexivity.
Defined.

(** ** Errors *)

(** X10: a missing interface file.  When [../grpc/agent.proto] is not
    there once the destination directory has been made, binding generation
    raises [FileNotFoundError] for it; the directory stays created, and
    neither the compiler nor [touch] is run. *)
Theorem X10_missing_interface_file (h : Host) (w : World) (fs1 : filesystem) :
  Os.mkdir_parents (files w) (py_staging_root h ++ ["mujoco_mpc"; "proto"])
    = inr fs1 →
  fs1 !! proto_source h = None →
  GenerateProtoGrpcCommand.run h (generate_proto_grpc h) w =
  (Raise (FileNotFoundError (proto_source h)),
   mkWorld fs1
     (trace w ++
      [ EvMkdir (py_staging_root h ++ ["mujoco_mpc"; "proto"]);
        EvCopy (proto_source h) (proto_destination h) ]))
  ∧ fs1 !! (py_staging_root h ++ ["mujoco_mpc"; "proto"]) = Some Dir.
Proof.
  intros Hmkdir Hsource. split.
  - rewrite run_generate_proto_grpc. cbv zeta. rewrite Hmkdir.
    unfold Os.shutil_copy at 1. rewrite Hsource. by trace_norm.
  - by apply (mkdir_parents_inr _ _ _ Hmkdir).
Qed.

Lemma X10_missing_interface_file_witness :
  Sample.tree_without_proto_dir_made !! proto_source Sample.linux = None
  ∧ (GenerateProtoGrpcCommand.run Sample.linux (generate_proto_grpc Sample.linux)
       (mkWorld Sample.tree_without_proto [])).1
    = Raise (FileNotFoundError (proto_source Sample.linux)).
Proof.
  assert (Os.mkdir_parents Sample.tree_without_proto
            (py_staging_root Sample.linux ++ ["mujoco_mpc"; "proto"])
          = inr Sample.tree_without_proto_dir_made) as Hmkdir
    by (apply got_succeeded; vm_compute; reflexivity).
  assert (Sample.tree_without_proto_dir_made !! proto_source Sample.linux = None)
    as Hsource by (vm_compute; reflexivity).
  split; [exact Hsource|].
  exact (f_equal fst
           (proj1 (X10_missing_interface_file Sample.linux
                     (mkWorld Sample.tree_without_proto []) _ Hmkdir Hsource))).
Defined.

Lemma may_raise_mono {A} (P Q : exn → Prop) (m : M A) :
  (∀ e, P e → Q e) → may_raise P m → may_raise Q m.
Proof. intros HPQ Hm w e w' Hrun. by eapply HPQ, Hm. Qed.

Lemma ensure_dirs_os_error target qs fs e :
  Os.ensure_dirs target qs fs = inl e → os_error e.
Proof.
  revert fs. induction qs as [|q qs IH]; intros fs; simpl; [done|].
  unfold Os.ensure_dir.
  destruct (fs !! q) as [[]|]; [|by apply IH..].
  intros [= <-]. by case_bool_decide.
Qed.

Lemma shutil_copy_os_error fs src dst e :
  Os.shutil_copy fs src dst = inl e → os_error e.
Proof.
  unfold Os.shutil_copy.
  destruct (fs !! src) as [[]|]; [|by intros [= <-]..].
  case_bool_decide; [by intros [= <-]|].
  destruct (fs !! Os.copy_target fs src dst) as [[]|];
    [|by intros [= <-]|];
    by destruct (fs !! PathLib.dirname (Os.copy_target fs src dst)) as [[]|];
      intros [= <-].
Qed.

Lemma stage_raises_os_error src dst :
  may_raise os_error (mkdir (PathLib.dirname dst);; copy src dst).
Proof.
  apply may_raise_bind.
  - apply may_raise_bind; [apply may_raise_emit|]. intros _.
    apply may_raise_update_files. intros fs e. apply ensure_dirs_os_error.
  - intros _. apply may_raise_bind; [apply may_raise_emit|]. intros _.
    apply may_raise_update_files. intros fs e. apply shutil_copy_os_error.
Qed.

Lemma spawn_raises h argv : may_raise not_a_wiring_error (spawn h argv).
Proof.
  intros w e w'. rewrite run_spawn.
  destruct (run_process h argv _ _) as [[status fs']|]; [|by intros [= <- _]].
  case_bool_decide; [done|by intros [= <- _]].
Qed.

Lemma check_call_raises h argv dir :
  may_raise not_a_wiring_error (check_call h argv dir).
Proof.
  intros w e w'. rewrite run_check_call.
  destruct (run_process h argv _ _) as [[status fs']|]; [|by intros [= <- _]].
  case_bool_decide; [done|by intros [= <- _]].
Qed.

Lemma os_error_not_wiring e : os_error e → not_a_wiring_error e.
Proof. by destruct e. Qed.

Lemma generate_proto_grpc_wired h :
  may_raise not_a_wiring_error
    (GenerateProtoGrpcCommand.run h (generate_proto_grpc h)).
Proof.
  intros w e w'. rewrite run_generate_proto_grpc. cbv zeta.
  destruct (Os.mkdir_parents _ _) as [e1|fs1] eqn:Hmkdir.
  { intros [= <- _]. by eapply os_error_not_wiring, ensure_dirs_os_error. }
  destruct (Os.shutil_copy _ _ _) as [e1|fs2] eqn:Hcopy.
  { intros [= <- _]. by eapply os_error_not_wiring, shutil_copy_os_error. }
  destruct (run_process h (protoc_call h) _ _) as [[status fs3]|];
    [|by intros [= <- _]].
  case_bool_decide; [|by intros [= <- _]].
  destruct (run_process h (touch_call h) _ _) as [[status' fs4]|];
    [|by intros [= <- _]].
  case_bool_decide; [done|by intros [= <- _]].
Qed.

Lemma copy_task_assets_wired h :
  may_raise not_a_wiring_error
    (CopyTaskAssetsCommand.run h (copy_task_assets h)).
Proof.
  intros w e w'. rewrite run_copy_task_assets. revert e w'.
  apply may_raise_for_each. intros item.
  eapply may_raise_mono; [apply os_error_not_wiring|].
  apply stage_raises_os_error.
Qed.

Lemma copy_agent_service_binary_wired h :
  may_raise not_a_wiring_error
    (CopyAgentServiceBinaryCommand.run h (copy_agent_service_binary h)).
Proof.
  intros w e w'. rewrite run_copy_agent_service_binary.
  destruct (Os.path_exists _ _); [|by intros [= <- _]].
  revert e w'. eapply may_raise_mono; [apply os_error_not_wiring|].
  apply stage_raises_os_error.
Qed.

Lemma configure_and_build_wired h :
  may_raise not_a_wiring_error
    (BuildCMakeExtension._configure_and_build_agent_service h).
Proof.
  unfold BuildCMakeExtension._configure_and_build_agent_service.
  apply may_raise_bind; [apply may_raise_emit|]. intros _.
  apply may_raise_bind.
  { apply may_raise_for_each. intros arg. apply may_raise_emit. }
  intros _. apply may_raise_bind; [apply check_call_raises|]. intros _.
  apply may_raise_bind; [apply may_raise_emit|]. intros _.
  apply check_call_raises.
Qed.

Lemma super_run_wired h :
  may_raise not_a_wiring_error (BuildPyCommand.super_run h).
Proof.
  unfold BuildPyCommand.super_run.
  apply may_raise_bind; [apply may_raise_get_files|]. intros fs.
  apply may_raise_bind; [apply may_raise_put_files|]. intros _.
  destruct (default_build_py h fs).1.
  - by apply may_raise_raise.
  - apply may_raise_ret.
Qed.

(** X11: the wiring holds.  Every command name the two hooks hand to
    [run_command] is registered, and every command reached that way has
    its [build_lib] set: no run of the build ends with
    [DistutilsModuleError] or with the [AssertionError] of
    [assert self.build_lib is not None]. *)
Theorem X11_build_is_wired (h : Host) (w : World) (e : exn) (w' : World) :
  build h w = (Raise e, w') →
  e ≠ AssertionError ∧ ∀ command, e ≠ DistutilsModuleError command.
Proof.
  intros Hrun.
  assert (not_a_wiring_error e) as He; [|by destruct e].
  revert Hrun. revert w e w'. change (may_raise not_a_wiring_error (build h)).
  unfold build, BuildPyCommand.run, BuildCMakeExtension.run.
  rewrite run_command_generate_proto_grpc, run_command_copy_task_assets,
    run_command_copy_agent_service_binary.
  apply may_raise_bind.
  - apply may_raise_step.
    apply may_raise_bind; [apply may_raise_step, generate_proto_grpc_wired|].
    intros _.
    apply may_raise_bind; [apply may_raise_step, copy_task_assets_wired|].
    intros _. apply may_raise_step.
    apply super_run_wired.
  - intros _. apply may_raise_step.
    apply may_raise_bind; [apply configure_and_build_wired|]. intros _.
    apply may_raise_step, copy_agent_service_binary_wired.
Qed.

(** X13: a directory in place of the binary.  The existence test accepts
    a directory at [../build/bin/agent_service]; the step then announces
    the two paths, creates the destination directory and fails in the copy
    with [IsADirectoryError]. *)
Theorem X13_binary_is_a_directory (h : Host) (w : World) (fs1 : filesystem) :
  files w !! agent_service_source h = Some Dir →
  Os.mkdir_parents (files w) (PathLib.dirname (agent_service_destination h))
    = inr fs1 →
  CopyAgentServiceBinaryCommand.run h (copy_agent_service_binary h) w =
  (Raise (IsADirectoryError (agent_service_source h)),
   mkWorld fs1 (trace w ++ binary_plan h)).
Proof.
  intros Hdir Hmkdir. rewrite run_copy_agent_service_binary.
  unfold Os.path_exists. rewrite bool_decide_eq_true_2 by by rewrite Hdir.
  rewrite run_bind, run_mkdir. cbn [files trace]. rewrite Hmkdir.
  rewrite run_copy. cbn [files trace].
  destruct (mkdir_parents_inr _ _ _ Hmkdir) as (_ & Hkeep & _).
  unfold Os.shutil_copy. rewrite Hkeep by by rewrite Hdir. rewrite Hdir.
  unfold binary_plan. by trace_norm.
Qed.

Lemma X13_binary_is_a_directory_witness :
  Sample.tree_with_binary_dir !! agent_service_source Sample.linux = Some Dir
  ∧ (CopyAgentServiceBinaryCommand.run Sample.linux
       (copy_agent_service_binary Sample.linux)
       (mkWorld Sample.tree_with_binary_dir [])).1
    = Raise (IsADirectoryError (agent_service_source Sample.linux)).
Proof.
  assert (Sample.tree_with_binary_dir !! agent_service_source Sample.linux
          = Some Dir) as Hdir by (vm_compute; reflexivity).
  assert (Os.mkdir_parents Sample.tree_with_binary_dir
            (PathLib.dirname (agent_service_destination Sample.linux))
          = inr Sample.tree_with_binary_dir_made) as Hmkdir
    by (apply got_succeeded; vm_compute; reflexivity).
  split; [exact Hdir|].
  exact (f_equal fst
           (X13_binary_is_a_directory Sample.linux
              (mkWorld Sample.tree_with_binary_dir []) _ Hdir Hmkdir)).
Defined.

Lemma string_app_assoc (s1 s2 s3 : string) :
  (s1 +:+ s2) +:+ s3 = s1 +:+ s2 +:+ s3.
Proof. induction s1 as [|a s1 IH]; [done|]. exact (f_equal (String a) IH). Qed.

Lemma join_app (sep : string) (l1 l2 : list string) :
  l1 ≠ [] → l2 ≠ [] →
  Py.join sep (l1 ++ l2) = Py.join sep l1 +:+ sep +:+ Py.join sep l2.
Proof.
  unfold Py.join. intros Hl1 Hl2. induction l1 as [|a l1 IH]; [done|].
  destruct l1 as [|b l1].
  - destruct l2 as [|c l2]; [done|]. reflexivity.
  - cbn [app String.concat] in *. rewrite IH by done.
    by rewrite !string_app_assoc.
Qed.

(** X14: the compiler's input lies under its include path at the package
    path.  The input file argument is the include directory given with
    [-I] followed by [/mujoco_mpc/proto/agent.proto], which is what makes
    the generated module import relative to the package [mujoco_mpc]. *)
Theorem X14_compiler_input_under_include_path (h : Host) :
  py_staging_root h ≠ [] →
  protoc_call h =
  [ "python"; "-m"; "grpc_tools.protoc";
    "-I" +:+ PathLib.str (py_staging_root h);
    "--python_out=" +:+ PathLib.str (py_staging_root h);
    "--grpc_python_out=" +:+ PathLib.str (py_staging_root h);
    PathLib.str (py_staging_root h) +:+ "/mujoco_mpc/proto/agent.proto" ].
Proof.
  intros Hroot. unfold protoc_call, proto_destination, PathLib.str.
  rewrite join_app by done. by rewrite <- string_app_assoc.
Qed.

Lemma X14_compiler_input_under_include_path_witness :
  py_staging_root Sample.linux ≠ []
  ∧ protoc_call Sample.linux !! 6
    = Some (PathLib.str (py_staging_root Sample.linux)
            +:+ "/mujoco_mpc/proto/agent.proto").
Proof.
  assert (py_staging_root Sample.linux ≠ []) as Hroot
    by (apply (bool_decide_unpack _); vm_compute; reflexivity).
  split; [exact Hroot|].
  exact (f_equal (λ l, l !! 6)
           (X14_compiler_input_under_include_path Sample.linux Hroot)).
Defined.

Lemma raised_world {A} (r : outcome A * World) (e : exn) :
  r.1 = Raise e → r = (Raise e, r.2).
Proof. destruct r as [o w]. cbn [fst snd]. by intros ->. Qed.

Lemma X11_build_is_wired_witness :
  build Sample.failing_protoc Sample.start
  = (Raise (DistutilsExecError (protoc_call Sample.failing_protoc) (Some 2%Z)),
     (build Sample.failing_protoc Sample.start).2)
  ∧ DistutilsExecError (protoc_call Sample.failing_protoc) (Some 2%Z)
    ≠ AssertionError.
Proof.
  assert (build Sample.failing_protoc Sample.start
          = (Raise (DistutilsExecError (protoc_call Sample.failing_protoc)
                      (Some 2%Z)),
             (build Sample.failing_protoc Sample.start).2)) as Hrun
    by (apply raised_world; vm_compute; reflexivity).
  split; [exact Hrun|].
  exact (proj1 (X11_build_is_wired _ _ _ _ Hrun)).
Defined.

(** X12: the option [build_lib].  A command object that has not been
    finalized has no [build_lib]: its [run] stops at the assertion before
    any effect (for the binary-staging command, only once the binary has
    been found).  Finalizing always sets the option, and keeps a value
    that was already set. *)
Theorem X12_build_lib_option (h : Host) (w : World) :
  GenerateProtoGrpcCommand.run h GenerateProtoGrpcCommand.initialize_options w
    = (Raise AssertionError, w)
  ∧ CopyTaskAssetsCommand.run h CopyTaskAssetsCommand.initialize_options w
    = (Raise AssertionError, w)
  ∧ (is_Some (files w !! agent_service_source h) →
     CopyAgentServiceBinaryCommand.run h
       CopyAgentServiceBinaryCommand.initialize_options w
     = (Raise AssertionError, w))
  ∧ (∀ self,
       is_Some (build_lib (GenerateProtoGrpcCommand.finalize_options h self))
       ∧ is_Some (build_lib (CopyAgentServiceBinaryCommand.finalize_options h self))
       ∧ is_Some (build_lib (CopyTaskAssetsCommand.finalize_options h self)))
  ∧ (∀ self, is_Some (build_lib self) →
       GenerateProtoGrpcCommand.finalize_options h self = self
       ∧ CopyAgentServiceBinaryCommand.finalize_options h self = self
       ∧ CopyTaskAssetsCommand.finalize_options h self = self).
Proof.
  split_and!; [done|done| | |].
  - intros Hexists. unfold CopyAgentServiceBinaryCommand.run.
    rewrite run_get_files. unfold Os.path_exists.
    fold (agent_service_source h). by rewrite bool_decide_eq_true_2.
  - intros [[b|]]; by repeat split; eexists.
  - by intros [[b|]] [? [=]].
Qed.

Lemma X12_build_lib_option_witness :
  is_Some (Sample.tree_built !! agent_service_source Sample.linux)
  ∧ CopyAgentServiceBinaryCommand.run Sample.linux
      CopyAgentServiceBinaryCommand.initialize_options
      (mkWorld Sample.tree_built [])
    = (Raise AssertionError, mkWorld Sample.tree_built []).
Proof.
  assert (is_Some (Sample.tree_built !! agent_service_source Sample.linux))
    as Hexists by (apply (bool_decide_unpack _); vm_compute; reflexivity).
  split; [exact Hexists|].
  exact (proj1 (proj2 (proj2 (X12_build_lib_option Sample.linux
                                (mkWorld Sample.tree_built []))))
           Hexists).
Defined.

(** ** A scan that found a directory *)

Lemma apart_not_on_the_way (T D p x : path) :
  apart T D → T `prefix_of` p → ¬ p `prefix_of` D ++ x.
Proof.
  intros [HTD HDT] HT Hp.
  assert (T `prefix_of` D ++ x) as HT' by by etrans.
  assert (D `prefix_of` D ++ x) as HD by by apply prefix_app_r.
  by destruct (prefix_weak_total _ _ _ HT' HD).
Qed.

(** A loop that returns has copied regular files only, the task tree
    being left as it was all along. *)
Lemma stage_loop_returns T D fs0 (l : list path) (w : World) w' :
  apart T D →
  (∀ s, s ∈ l → T `prefix_of` s) →
  (∀ p, T `prefix_of` p → files w !! p = fs0 !! p) →
  for_each (zip l (PathLib.relative_to T <$> l))
           (CopyTaskAssetsCommand.stage_one D) w = (Return tt, w') →
  ∀ s, s ∈ l → is_file fs0 s.
Proof.
  intros Hapart. revert w. induction l as [|s l IH]; intros w Hbelow Hframe.
  { by intros _ s ?%elem_of_nil. }
  cbn [zip zip_with fmap list_fmap for_each].
  rewrite run_bind. unfold CopyTaskAssetsCommand.stage_one at 1.
  cbn [fst snd]. rewrite run_bind, run_mkdir.
  destruct (Os.mkdir_parents _ _) as [e|fs1] eqn:Hmkdir; [done|].
  rewrite run_copy. cbn [files trace].
  destruct (Os.shutil_copy _ _ _) as [e|fs2] eqn:Hcopy; [done|].
  destruct (mkdir_parents_inr _ _ _ Hmkdir) as (_ & _ & Hout & _).
  destruct (shutil_copy_inr _ _ _ _ Hcopy)
    as (mode & data & Hfile & _ & _ & _ & ->).
  assert (∀ p, T `prefix_of` p → fs1 !! p = fs0 !! p) as Hframe1.
  { intros p Hp. rewrite Hout; [by apply Hframe|].
    intros Hpre%prefix_of_dirname. by eapply apart_not_on_the_way. }
  intros Hloop s' [->|Hs']%elem_of_cons.
  - exists mode, data. rewrite <- Hframe1; [done|]. apply Hbelow. by left.
  - eapply IH; [| |exact Hloop|done].
    + intros s'' Hs''. apply Hbelow. by right.
    + cbn [files]. intros p Hp. rewrite lookup_insert_ne; [by apply Hframe1|].
      intros <-. unfold Os.copy_target in Hp.
      destruct (Os.isdir _ _).
      * rewrite <- app_assoc in Hp. by eapply apart_not_on_the_way.
      * by eapply apart_not_on_the_way.
Qed.

(** X8: with the task tree and the staging directory apart, an
    asset-staging step that returns has found regular files only: a
    directory whose name ends in [.xml] makes the step raise. *)
Theorem X8_returning_step_found_files_only (h : Host) (w : World) :
  apart (CopyTaskAssetsCommand.tasks_root h)
        (CopyTaskAssetsCommand.destination_dir_path (ext_staging_root h)) →
  (CopyTaskAssetsCommand.run h (copy_task_assets h) w).1 = Return tt →
  ∀ s, s ∈ CopyTaskAssetsCommand.source_paths h (files w) →
       is_file (files w) s.
Proof.
  intros Hapart. rewrite run_copy_task_assets.
  unfold CopyTaskAssetsCommand.relative_source_paths.
  destruct (for_each _ _ _) as [o w'] eqn:Hloop. cbn [fst]. intros ->.
  refine (stage_loop_returns _ _ (files w) _ _ w' Hapart _ _ Hloop).
  - intros s Hs. by eapply sources_below.
  - done.
Qed.

Lemma X8_returning_step_found_files_only_witness :
  apart (CopyTaskAssetsCommand.tasks_root Sample.linux)
        (CopyTaskAssetsCommand.destination_dir_path (ext_staging_root Sample.linux))
  ∧ (CopyTaskAssetsCommand.run Sample.linux (copy_task_assets Sample.linux)
       Sample.start).1 = Return tt
  ∧ ∀ s, s ∈ CopyTaskAssetsCommand.source_paths Sample.linux (files Sample.start) →
         is_file (files Sample.start) s.
Proof.
  assert (apart (CopyTaskAssetsCommand.tasks_root Sample.linux)
            (CopyTaskAssetsCommand.destination_dir_path
               (ext_staging_root Sample.linux))) as Hapart
    by (apply apart_b_sound; vm_compute; reflexivity).
  assert ((CopyTaskAssetsCommand.run Sample.linux (copy_task_assets Sample.linux)
             Sample.start).1 = Return tt) as Hrun
    by (vm_compute; reflexivity).
  split; [exact Hapart|]. split; [exact Hrun|].
  exact (X8_returning_step_found_files_only Sample.linux Sample.start Hapart Hrun).
Defined.

(** ** Where the script looks *)

Lemma fold_norm_step_plain (l acc : list string) :
  ".." ∉ l → fold_left PathLib.norm_step l acc = acc ++ l.
Proof.
  revert acc. induction l as [|c l IH]; intros acc Hl; simpl.
  { by rewrite app_nil_r. }
  apply not_elem_of_cons in Hl as [Hc Hl].
  rewrite norm_step_down by done. rewrite IH by done. by rewrite <- app_assoc.
Qed.

Lemma normalize_plain (l : list string) : ".." ∉ l → PathLib.normalize l = l.
Proof. intros Hl. unfold PathLib.normalize. by rewrite fold_norm_step_plain. Qed.

Lemma removelast_plain (l : list string) : ".." ∉ l → ".." ∉ removelast l.
Proof.
  intros Hl Hin. apply Hl. destruct (decide (l = [])) as [->|Hne]; [done|].
  rewrite (app_removelast_last "" Hne). apply elem_of_app. by left.
Qed.

Lemma resolve_below (dir : list string) (l : list string) :
  ".." ∉ dir → ".." ∉ l →
  PathLib.resolve dir (PathLib.rel l) = dir ++ l.
Proof.
  intros Hdir Hl. rewrite resolve_rel, normalize_plain by done.
  by apply fold_norm_step_plain.
Qed.

(** X5: when the script is run from the directory it lies in (its
    [__file__] is the absolute path [<cwd>/<name>] and the working
    directory is a resolved path), every location the script uses hangs
    off one repository root, the parent of the working directory: CMake
    runs there and builds into [<root>/build], the binary is looked up at
    [<root>/build/bin/agent_service], the assets under [<root>/mjpc/tasks]
    and the interface file at [<root>/grpc/agent.proto]. *)
Theorem X5_one_repository_root (h : Host) (name : string) :
  script_file h = mkPath true (cwd h ++ [name]) →
  ".." ∉ cwd h →
  cmake_cwd h = removelast (cwd h)
  ∧ PathLib.resolve (cwd h) (BuildCMakeExtension.mujoco_mpc_build_dir h)
    = removelast (cwd h) ++ ["build"]
  ∧ agent_service_source h
    = removelast (cwd h) ++ ["build"; "bin"; "agent_service"]
  ∧ CopyTaskAssetsCommand.tasks_root h = removelast (cwd h) ++ ["mjpc"; "tasks"]
  ∧ proto_source h = removelast (cwd h) ++ ["grpc"; "agent.proto"].
Proof.
  intros Hscript Hcwd.
  pose proof (removelast_plain _ Hcwd) as Hroot.
  assert (PathLib.parent (PathLib.parent (script_file h))
          = mkPath true (removelast (cwd h))) as Hparent.
  { rewrite Hscript. unfold PathLib.parent. cbn [anchored parts].
    by rewrite removelast_last. }
  split_and!.
  - unfold cmake_cwd, BuildCMakeExtension.mujoco_mpc_root. rewrite Hparent.
    unfold PathLib.resolve. cbn [anchored parts]. by apply normalize_plain.
  - unfold BuildCMakeExtension.mujoco_mpc_build_dir,
      BuildCMakeExtension.mujoco_mpc_root. rewrite Hparent.
    unfold PathLib.resolve, PathLib.joinpath, PathLib.rel. cbn [anchored parts].
    apply normalize_plain. rewrite not_elem_of_app. split; [done|set_solver].
  - rewrite agent_service_source_shape. by rewrite normalize_plain.
  - unfold CopyTaskAssetsCommand.tasks_root, CopyTaskAssetsCommand.mjpc_tasks_path.
    rewrite Hparent.
    unfold PathLib.resolve, PathLib.joinpath, PathLib.rel. cbn [anchored parts].
    apply normalize_plain. rewrite not_elem_of_app. split; [done|set_solver].
  - rewrite proto_source_shape. by rewrite normalize_plain.
Qed.

Lemma X5_one_repository_root_witness :
  script_file Sample.linux = mkPath true (cwd Sample.linux ++ ["setup.py"])
  ∧ ".." ∉ cwd Sample.linux
  ∧ agent_service_source Sample.linux
    = removelast (cwd Sample.linux) ++ ["build"; "bin"; "agent_service"].
Proof.
  assert (".." ∉ cwd Sample.linux) as Hcwd
    by (apply (bool_decide_unpack _); vm_compute; reflexivity).
  split; [reflexivity|]. split; [exact Hcwd|].
  exact (proj1 (proj2 (proj2 (X5_one_repository_root Sample.linux "setup.py"
                                eq_refl Hcwd)))).
Defined.

(** X6: when [__file__] is a bare file name (a relative path of one
    component), [Path(__file__).parent.parent] is [.]: CMake then runs in
    the working directory itself and the assets are looked for under
    [<cwd>/mjpc/tasks], while the interface file and the binary are still
    looked for beside the working directory. *)
Theorem X6_bare_script_name (h : Host) (name : string) :
  script_file h = PathLib.rel [name] →
  ".." ∉ cwd h →
  cmake_cwd h = cwd h
  ∧ CopyTaskAssetsCommand.tasks_root h = cwd h ++ ["mjpc"; "tasks"]
  ∧ proto_source h = removelast (cwd h) ++ ["grpc"; "agent.proto"]
  ∧ agent_service_source h
    = removelast (cwd h) ++ ["build"; "bin"; "agent_service"].
Proof.
  intros Hscript Hcwd.
  assert (PathLib.parent (PathLib.parent (script_file h)) = PathLib.rel [])
    as Hparent by by rewrite Hscript.
  split_and!.
  - unfold cmake_cwd, BuildCMakeExtension.mujoco_mpc_root. rewrite Hparent.
    rewrite resolve_below by (done || set_solver). by rewrite app_nil_r.
  - unfold CopyTaskAssetsCommand.tasks_root, CopyTaskAssetsCommand.mjpc_tasks_path.
    rewrite Hparent.
    change (PathLib.joinpath (PathLib.rel []) (PathLib.rel ["mjpc"; "tasks"]))
      with (PathLib.rel ["mjpc"; "tasks"]).
    apply resolve_below; [done|set_solver].
  - rewrite proto_source_shape. by rewrite normalize_plain.
  - rewrite agent_service_source_shape. by rewrite normalize_plain.
Qed.

Lemma X6_bare_script_name_witness :
  ".." ∉ Sample.repo ++ ["python"]
  ∧ cmake_cwd (mkHost "Linux" ∅ None (Sample.repo ++ ["python"])
                 (PathLib.rel ["setup.py"]) (PathLib.rel ["build"; "lib"])
                 (PathLib.rel ["build"; "lib"]) (Sample.tools None)
                 (λ fs, (None, fs)))
    = Sample.repo ++ ["python"].
Proof.
  assert (".." ∉ Sample.repo ++ ["python"]) as Hcwd
    by (apply (bool_decide_unpack _); vm_compute; reflexivity).
  split; [exact Hcwd|].
  exact (proj1 (X6_bare_script_name
                  (mkHost "Linux" ∅ None (Sample.repo ++ ["python"])
                     (PathLib.rel ["setup.py"]) (PathLib.rel ["build"; "lib"])
                     (PathLib.rel ["build"; "lib"]) (Sample.tools None)
                     (λ fs, (None, fs)))
                  "setup.py" eq_refl Hcwd)).
Defined.

(** ** What is staged, and where *)

Lemma endswith_unfold (s suffix : string) :
  Py.endswith s suffix =
  bool_decide (s = suffix) ||
  match s with
  | EmptyString => false
  | String _ s' => Py.endswith s' suffix
  end.
Proof. by destruct s. Qed.

Lemma endswith_spec (s suffix : string) :
  Py.endswith s suffix = true ↔ ∃ stem, s = stem +:+ suffix.
Proof.
  split.
  - induction s as [|a s IH]; rewrite endswith_unfold.
    + rewrite orb_false_r. intros <-%bool_decide_eq_true. by exists "".
    + intros [<-%bool_decide_eq_true|Hrest]%orb_true_iff; [by exists ""|].
      destruct (IH Hrest) as [stem ->]. by exists (String a stem).
  - intros [stem ->]. induction stem as [|a stem IH]; rewrite endswith_unfold.
    + apply orb_true_iff. left. by apply bool_decide_eq_true.
    + apply orb_true_iff. by right.
Qed.

(** X7: what the scan of the task directory yields.  When the task
    directory is a directory, it is exactly the entries strictly below it
    (at any depth, files and directories alike) whose name ends in
    [.xml], each listed once; otherwise nothing. *)
Theorem X7_scan_finds_xml_entries_once (h : Host) (fs : filesystem) :
  NoDup (CopyTaskAssetsCommand.source_paths h fs)
  ∧ (∀ s, s ∈ CopyTaskAssetsCommand.source_paths h fs ↔
          fs !! CopyTaskAssetsCommand.tasks_root h = Some Dir
          ∧ is_Some (fs !! s)
          ∧ (∃ rel, rel ≠ [] ∧ s = CopyTaskAssetsCommand.tasks_root h ++ rel)
          ∧ ∃ stem, PathLib.basename s = stem +:+ ".xml").
Proof.
  split.
  - unfold CopyTaskAssetsCommand.source_paths, Os.rglob.
    destruct (fs !! CopyTaskAssetsCommand.tasks_root h) as [[]|];
      [apply NoDup_nil_2| |apply NoDup_nil_2].
    apply NoDup_filter, NoDup_fst_map_to_list.
  - intros s. unfold CopyTaskAssetsCommand.source_paths.
    rewrite elem_of_rglob, endswith_spec. split.
    + intros (Hroot & Hs & [rel ->] & Hne & Hname).
      split_and!; [done..| |done].
      exists rel. split; [|done]. intros ->. by rewrite app_nil_r in Hne.
    + intros (Hroot & Hs & (rel & Hrel & ->) & Hname).
      split_and!; [done..|by eexists| |done].
      intros Heq. apply Hrel. apply (app_inv_head (CopyTaskAssetsCommand.tasks_root h)).
      by rewrite app_nil_r.
Qed.

Lemma asset_destination_shape h fs s :
  s ∈ CopyTaskAssetsCommand.source_paths h fs →
  ∃ rel, s = CopyTaskAssetsCommand.tasks_root h ++ rel
         ∧ asset_destination h s =
           ext_staging_root h ++ ["mujoco_mpc"; "mjpc"; "tasks"] ++ rel.
Proof.
  intros Hs. destruct (asset_destination_split h fs s Hs) as (rel & _ & ? & ?).
  by exists rel.
Qed.

(** X9: no staged output lands on another.  Two different entries of the
    scan never share a destination; and when the three commands stage
    under the same root, an asset is never written over the relocated
    interface file, the package marker or the service binary, which are
    themselves three different paths. *)
Theorem X9_destinations_do_not_collide (h : Host) (fs : filesystem) :
  (∀ s s', s ∈ CopyTaskAssetsCommand.source_paths h fs →
           s' ∈ CopyTaskAssetsCommand.source_paths h fs →
           asset_destination h s = asset_destination h s' → s = s')
  ∧ (py_staging_root h = ext_staging_root h →
     (∀ s, s ∈ CopyTaskAssetsCommand.source_paths h fs →
           asset_destination h s ≠ proto_destination h
           ∧ asset_destination h s
             ≠ py_staging_root h ++ ["mujoco_mpc"; "proto"; "__init__.py"]
           ∧ asset_destination h s ≠ agent_service_destination h)
     ∧ proto_destination h ≠ agent_service_destination h
     ∧ proto_destination h
       ≠ py_staging_root h ++ ["mujoco_mpc"; "proto"; "__init__.py"]
     ∧ agent_service_destination h
       ≠ py_staging_root h ++ ["mujoco_mpc"; "proto"; "__init__.py"]).
Proof.
  split.
  - intros s s' Hs Hs' Heq.
    destruct (asset_destination_shape h fs s Hs) as (rel & -> & Hdest).
    destruct (asset_destination_shape h fs s' Hs') as (rel' & -> & Hdest').
    rewrite Hdest, Hdest' in Heq. by simplify_list_eq.
  - intros Hroot. unfold proto_destination, agent_service_destination,
      CopyAgentServiceBinaryCommand.destination_path. rewrite Hroot.
    split_and!; [|by intros ?%app_inv_head..].
    intros s Hs. destruct (asset_destination_shape h fs s Hs) as (rel & _ & ->).
    split_and!; intros Heq%app_inv_head; by destruct rel.
Qed.

Lemma X9_destinations_do_not_collide_witness :
  py_staging_root Sample.linux = ext_staging_root Sample.linux
  ∧ proto_destination Sample.linux ≠ agent_service_destination Sample.linux.
Proof.
  split; [reflexivity|].
  exact (proj1 (proj2 (proj2 (X9_destinations_do_not_collide Sample.linux
                                Sample.tree) eq_refl))).
Defined.

(** ** The [build_ext] hook *)

Lemma configure_call_is_not_build_call h : configure_call h ≠ build_call h.
Proof.
  unfold configure_call, build_call. intros Heq.
  apply (configure_argv_is_not_build_argv h). congruence.
Qed.

Lemma not_in_configure_prints h e :
  (∀ line, e ≠ EvPrint line) → e ∉ configure_prints h.
Proof.
  intros He. unfold configure_prints.
  intros [->|(arg & -> & _)%list_elem_of_fmap]%elem_of_cons; by eapply He.
Qed.

(** X3: the second chain of steps.  In a run of the [build_ext] hook the
    build phase of CMake is called only after its configuration phase has
    exited with status 0, and the staging of the binary begins only after
    both phases have. *)
Theorem X3_binary_staged_only_after_cmake (h : Host) (w : World) (evs : list event) :
  trace (BuildCMakeExtension.run h w).2 = trace w ++ evs →
  (build_call h ∈ evs →
   ∃ fs1, run_process h (BuildCMakeExtension.configure_argv h) (cmake_cwd h) (files w)
          = Some (0%Z, fs1))
  ∧ (EvBegin "copy_agent_service_binary" ∈ evs →
     ∃ fs1 fs2,
       run_process h (BuildCMakeExtension.configure_argv h) (cmake_cwd h) (files w)
         = Some (0%Z, fs1)
       ∧ run_process h (BuildCMakeExtension.build_argv h) (cmake_cwd h) fs1
         = Some (0%Z, fs2)).
Proof.
  unfold BuildCMakeExtension.run.
  rewrite run_bind, run_configure_and_build. cbv zeta.
  assert (∀ e, e ≠ configure_call h → (∀ line, e ≠ EvPrint line) →
               e ∉ configure_prints h ++ [configure_call h]) as Hearly.
  { intros e Hcall Hprint [Hin|Hin%list_elem_of_singleton]%elem_of_app; [|done].
    by apply (not_in_configure_prints h e). }
  destruct (run_process h (BuildCMakeExtension.configure_argv h) _ _)
    as [[status fs1]|].
  2:{ cbn [snd trace]. intros <-%app_inv_head. split; intros Hin.
      - by apply Hearly in Hin; [|apply not_eq_sym, configure_call_is_not_build_call|].
      - by apply Hearly in Hin. }
  case_bool_decide as Hstatus.
  2:{ cbn [snd trace]. intros <-%app_inv_head. split; intros Hin.
      - by apply Hearly in Hin; [|apply not_eq_sym, configure_call_is_not_build_call|].
      - by apply Hearly in Hin. }
  subst status.
  assert (EvBegin "copy_agent_service_binary"
            ∉ (configure_prints h ++ [configure_call h])
              ++ [building_print; build_call h]) as Hlate.
  { intros [Hin|Hin]%elem_of_app; [by apply Hearly in Hin|].
    set_solver. }
  destruct (run_process h (BuildCMakeExtension.build_argv h) _ _)
    as [[status2 fs2]|] eqn:Hbuild.
  2:{ cbn [snd trace]. rewrite <- app_assoc. intros <-%app_inv_head.
      split; [by eexists|]. intros Hin. by apply Hlate in Hin. }
  case_bool_decide as Hstatus2.
  2:{ cbn [snd trace]. rewrite <- app_assoc. intros <-%app_inv_head.
      split; [by eexists|]. intros Hin. by apply Hlate in Hin. }
  subst status2. intros _. split; intros _; [by eexists|].
  by exists fs1, fs2.
Qed.

Lemma X3_binary_staged_only_after_cmake_witness :
  EvBegin "copy_agent_service_binary"
    ∈ trace (BuildCMakeExtension.run Sample.linux Sample.start).2
  ∧ ∃ fs1 fs2,
      run_process Sample.linux (BuildCMakeExtension.configure_argv Sample.linux)
        (cmake_cwd Sample.linux) (files Sample.start) = Some (0%Z, fs1)
      ∧ run_process Sample.linux (BuildCMakeExtension.build_argv Sample.linux)
          (cmake_cwd Sample.linux) fs1 = Some (0%Z, fs2).
Proof.
  assert (EvBegin "copy_agent_service_binary"
            ∈ trace (BuildCMakeExtension.run Sample.linux Sample.start).2) as Hin
    by (apply (bool_decide_unpack _); vm_compute; reflexivity).
  split; [exact Hin|].
  exact (proj2 (X3_binary_staged_only_after_cmake Sample.linux Sample.start
                  (trace (BuildCMakeExtension.run Sample.linux Sample.start).2)
                  eq_refl) Hin).
Defined.

(** X4: when [../build/bin/agent_service] is a regular file and its
    destination is writable, the binary-staging step returns after two
    announcements, the creation of [<staging root>/mujoco_mpc/mjpc] and
    the copy; the destination then holds the content and the permission
    bits of the binary, which itself is left as it was. *)
Theorem X4_binary_staged_next_to_agent (h : Host) (w : World) :
  binary_stageable h (files w) →
  ∃ fs' mode data,
    CopyAgentServiceBinaryCommand.run h (copy_agent_service_binary h) w =
    (Return tt, mkWorld fs' (trace w ++ binary_plan h))
    ∧ files w !! agent_service_source h = Some (File mode data)
    ∧ fs' !! agent_service_source h = Some (File mode data)
    ∧ fs' !! (py_staging_root h ++ ["mujoco_mpc"; "mjpc"; "agent_service"])
      = Some (File mode data)
    ∧ fs' !! (py_staging_root h ++ ["mujoco_mpc"; "mjpc"]) = Some Dir.
Proof.
  intros Hready.
  destruct (copy_agent_service_binary_stages h w Hready)
    as (fs' & Hrun & ((mode & data & Hfile) & Hcopy & Hdirs) & Hsame).
  exists fs', mode, data. split_and!; [done| |done| |].
  - by rewrite <- Hsame.
  - fold (CopyAgentServiceBinaryCommand.destination_path (py_staging_root h)).
    fold (agent_service_destination h). by rewrite Hcopy.
  - rewrite <- agent_service_destination_dirname. by apply Hdirs.
Qed.

Lemma X4_binary_staged_next_to_agent_witness :
  binary_stageable Sample.linux Sample.tree_built
  ∧ ∃ fs' mode data,
      CopyAgentServiceBinaryCommand.run Sample.linux
        (copy_agent_service_binary Sample.linux) (mkWorld Sample.tree_built []) =
      (Return tt, mkWorld fs' ([] ++ binary_plan Sample.linux))
      ∧ Sample.tree_built !! agent_service_source Sample.linux
        = Some (File mode data)
      ∧ fs' !! agent_service_source Sample.linux = Some (File mode data)
      ∧ fs' !! (py_staging_root Sample.linux ++ ["mujoco_mpc"; "mjpc"; "agent_service"])
        = Some (File mode data)
      ∧ fs' !! (py_staging_root Sample.linux ++ ["mujoco_mpc"; "mjpc"]) = Some Dir.
Proof.
  assert (binary_stageable Sample.linux Sample.tree_built) as Hready
    by (apply binary_stageable_b_sound; vm_compute; reflexivity).
  split; [exact Hready|].
  exact (X4_binary_staged_next_to_agent Sample.linux
           (mkWorld Sample.tree_built []) Hready).
Defined.
